(** * Membership consistency and API-key lifecycle of the Langfuse admin API

    A shallow embedding of the service layer of the repository
    (organizations, project memberships, users, projects and API keys) over
    an explicit relational store, together with the properties of the
    membership invariants and of the credential lifecycle. *)

From Stdlib Require Import ZArith List String Ascii Bool Lia Arith Sorted Permutation.
Import ListNotations.

Local Open Scope string_scope.
Local Open Scope Z_scope.

(** ** SHA-256, as computed by Node's [crypto.createHash('sha256')]

    [hashSecretKey] of [utils/id-generator] calls the platform's SHA-256
    (FIPS 180-4) and prints the digest in lower-case hexadecimal.  Words are
    32-bit integers kept in [Z], every addition wrapped modulo [2^32]. *)

Module Sha256.

Definition w32 (x : Z) : Z := x mod 4294967296.

Definition add32 (x y : Z) : Z := w32 (x + y).

Definition rotr (n x : Z) : Z :=
  Z.lor (Z.shiftr x n) (w32 (Z.shiftl x (32 - n))).

Definition Ch (x y z : Z) : Z :=
  Z.lxor (Z.land x y) (Z.land (Z.lxor x 4294967295) z).

Definition Maj (x y z : Z) : Z :=
  Z.lxor (Z.lxor (Z.land x y) (Z.land x z)) (Z.land y z).

Definition Sigma0 (x : Z) : Z := Z.lxor (Z.lxor (rotr 2 x) (rotr 13 x)) (rotr 22 x).
Definition Sigma1 (x : Z) : Z := Z.lxor (Z.lxor (rotr 6 x) (rotr 11 x)) (rotr 25 x).
Definition sigma0 (x : Z) : Z := Z.lxor (Z.lxor (rotr 7 x) (rotr 18 x)) (Z.shiftr x 3).
Definition sigma1 (x : Z) : Z := Z.lxor (Z.lxor (rotr 17 x) (rotr 19 x)) (Z.shiftr x 10).

(** The round constants are the first 32 fractional bits of the cube roots of
    the first 64 primes, the initial state those of the square roots of the
    first 8; both tables are computed from that definition. *)

Fixpoint cbrt_search (fuel : nat) (lo hi n : Z) : Z :=
  match fuel with
  | O => lo
  | S fuel' =>
      if hi - lo <=? 1 then lo
      else
        let mid := (lo + hi) / 2 in
        if mid * mid * mid <=? n then cbrt_search fuel' mid hi n
        else cbrt_search fuel' lo mid n
  end.

Definition icbrt (n : Z) : Z := cbrt_search 64 0 68719476736 n.

Definition primes64 : list Z :=
  [2; 3; 5; 7; 11; 13; 17; 19; 23; 29; 31; 37; 41; 43; 47; 53;
   59; 61; 67; 71; 73; 79; 83; 89; 97; 101; 103; 107; 109; 113; 127; 131;
   137; 139; 149; 151; 157; 163; 167; 173; 179; 181; 191; 193; 197; 199; 211; 223;
   227; 229; 233; 239; 241; 251; 257; 263; 269; 271; 277; 281; 283; 293; 307; 311].

Definition K256 : list Z :=
  Eval vm_compute in map (fun p => w32 (icbrt (p * 2 ^ 96))) primes64.

Definition H0 : list Z :=
  Eval vm_compute in map (fun p => w32 (Z.sqrt (p * 2 ^ 64))) (firstn 8 primes64).

(** Padding: a [0x80] byte, zeros up to 56 modulo 64, then the bit length as
    a 64-bit big-endian integer. *)

Definition be_bytes (count : nat) (x : Z) : list Z :=
  map (fun i => Z.land (Z.shiftr x (8 * Z.of_nat i)) 255) (rev (seq 0 count)).

Definition pad (msg : list Z) : list Z :=
  let len := Z.of_nat (List.length msg) in
  let zeros := Z.to_nat ((55 - len) mod 64) in
  (msg ++ [128] ++ repeat 0 zeros ++ be_bytes 8 (8 * len))%list.

Definition be_word (b0 b1 b2 b3 : Z) : Z :=
  Z.lor (Z.shiftl b0 24) (Z.lor (Z.shiftl b1 16) (Z.lor (Z.shiftl b2 8) b3)).

Fixpoint words_of (fuel : nat) (bs : list Z) : list Z :=
  match fuel, bs with
  | S fuel', b0 :: b1 :: b2 :: b3 :: rest => be_word b0 b1 b2 b3 :: words_of fuel' rest
  | _, _ => []
  end.

(** The message schedule, newest word first. *)
Fixpoint schedule (steps : nat) (rev_w : list Z) : list Z :=
  match steps with
  | O => rev_w
  | S steps' =>
      let w := add32 (add32 (sigma1 (nth 1 rev_w 0)) (nth 6 rev_w 0))
                     (add32 (sigma0 (nth 14 rev_w 0)) (nth 15 rev_w 0)) in
      schedule steps' (w :: rev_w)
  end.

Record regs : Type := Regs
  { ra : Z; rb : Z; rc : Z; rd : Z; re : Z; rf : Z; rg : Z; rh : Z }.

Definition round (r : regs) (kw : Z * Z) : regs :=
  let t1 := add32 (add32 (add32 (rh r) (Sigma1 (re r))) (Ch (re r) (rf r) (rg r)))
                  (add32 (fst kw) (snd kw)) in
  let t2 := add32 (Sigma0 (ra r)) (Maj (ra r) (rb r) (rc r)) in
  Regs (add32 t1 t2) (ra r) (rb r) (rc r) (add32 (rd r) t1) (re r) (rf r) (rg r).

Definition compress (h : regs) (block : list Z) : regs :=
  let w := rev (schedule 48 (rev block)) in
  let r := fold_left round (combine K256 w) h in
  Regs (add32 (ra h) (ra r)) (add32 (rb h) (rb r)) (add32 (rc h) (rc r))
       (add32 (rd h) (rd r)) (add32 (re h) (re r)) (add32 (rf h) (rf r))
       (add32 (rg h) (rg r)) (add32 (rh h) (rh r)).

Fixpoint blocks (fuel : nat) (ws : list Z) : list (list Z) :=
  match fuel, ws with
  | _, [] => []
  | O, _ => []
  | S fuel', _ => firstn 16 ws :: blocks fuel' (skipn 16 ws)
  end.

Definition init : regs :=
  Regs (nth 0 H0 0) (nth 1 H0 0) (nth 2 H0 0) (nth 3 H0 0)
       (nth 4 H0 0) (nth 5 H0 0) (nth 6 H0 0) (nth 7 H0 0).

Definition digest (msg : list Z) : regs :=
  let bs := pad msg in
  let ws := words_of (List.length bs) bs in
  fold_left compress (blocks (List.length ws) ws) init.

Definition hex_digit (d : Z) : ascii :=
  if d <? 10 then ascii_of_N (Z.to_N (48 + d)) else ascii_of_N (Z.to_N (87 + d)).

Definition nibble (x k : Z) : ascii := hex_digit (Z.land (Z.shiftr x (4 * k)) 15).

Definition hex8 (x : Z) (tail : string) : string :=
  String (nibble x 7) (String (nibble x 6) (String (nibble x 5) (String (nibble x 4)
  (String (nibble x 3) (String (nibble x 2) (String (nibble x 1) (String (nibble x 0)
  tail))))))).

Definition hex_of_regs (r : regs) : string :=
  hex8 (ra r) (hex8 (rb r) (hex8 (rc r) (hex8 (rd r)
  (hex8 (re r) (hex8 (rf r) (hex8 (rg r) (hex8 (rh r) EmptyString))))))).

Definition bytes_of_string (s : string) : list Z :=
  map (fun c => Z.of_N (N_of_ascii c)) (list_ascii_of_string s).

Definition sha256_hex (s : string) : string := hex_of_regs (digest (bytes_of_string s)).

End Sha256.

(** ** Identifier generator and credential codec ([utils/id-generator]) *)

(** [generateId]: organizations and projects take the output of [cuid()] as
    it is, every other entity [prefix_] followed by the base-36 clock and a
    ten-character nanoid.  The random source is outside the repository, so
    its output [rnd] is an argument. *)
Definition generateId (prefix rnd : string) : string :=
  if (prefix =? "org")%string || (prefix =? "prj")%string then rnd
  else prefix ++ "_" ++ rnd.

Definition hex_of_byte (b : Byte.byte) (tail : string) : string :=
  let n := Z.of_N (Byte.to_N b) in
  String (Sha256.nibble n 1) (String (Sha256.nibble n 0) tail).

(** [Buffer.toString('hex')] *)
Definition to_hex (bytes : list Byte.byte) : string :=
  fold_right hex_of_byte EmptyString bytes.

(** [generateApiKey]: [randomBytes] is the result of [crypto.randomBytes(16)]. *)
Definition generateApiKey (prefix : string) (randomBytes : list Byte.byte) : string :=
  prefix ++ "_" ++ to_hex randomBytes.

Definition hashSecretKey (secretKey : string) : string :=
  let salt := "salt" in
  Sha256.sha256_hex (salt ++ secretKey).

(** [secretKey.substring(0, 8) + '...'] *)
Definition displaySecretKey (secretKey : string) : string :=
  substring 0 8 secretKey ++ "...".

(** ** Errors ([utils/errors]) *)

Inductive AppError : Type :=
| ValidationError (message : string)
| NotFoundError (resource : string)
| ConflictError (message : string)
| BusinessLogicError (message : string)
| DatabaseError (message : string) (cause : AppError).

(** [error.message] *)
Definition error_message (e : AppError) : string :=
  match e with
  | ValidationError m => m
  | NotFoundError resource => resource ++ " no encontrado"
  | ConflictError m => m
  | BusinessLogicError m => m
  | DatabaseError m _ => m
  end.

(** [error.status], the HTTP status the error middleware answers with *)
Definition error_status (e : AppError) : Z :=
  match e with
  | ValidationError _ => 400
  | NotFoundError _ => 404
  | ConflictError _ => 409
  | BusinessLogicError _ => 400
  | DatabaseError _ _ => 500
  end.

(** [error.code] *)
Definition error_code (e : AppError) : string :=
  match e with
  | ValidationError _ => "VALIDATION_ERROR"
  | NotFoundError _ => "NOT_FOUND"
  | ConflictError _ => "CONFLICT"
  | BusinessLogicError _ => "BUSINESS_LOGIC_ERROR"
  | DatabaseError _ _ => "DATABASE_ERROR"
  end.

Inductive result (A : Type) : Type :=
| Ok (value : A)
| Err (error : AppError).
Arguments Ok {A} value.
Arguments Err {A} error.

(** ** The relational store *)

Record User : Type := mkUser
  { user_id : string; user_name : string; user_email : string; user_image : option string }.

Record Organization : Type := mkOrganization
  { org_id : string; org_name : string; org_created_at : Z; org_updated_at : Z }.

Record OrgMembership : Type := mkOrgMembership
  { om_id : string; om_org_id : string; om_user_id : string; om_role : string;
    om_created_at : Z; om_updated_at : Z }.

Record Project : Type := mkProject
  { prj_id : string; prj_name : string; prj_org_id : string;
    prj_created_at : Z; prj_updated_at : Z; prj_deleted_at : option Z }.

Record ProjectMembership : Type := mkProjectMembership
  { pm_project_id : string; pm_user_id : string; pm_org_membership_id : string;
    pm_role : string; pm_created_at : Z; pm_updated_at : Z }.

Record ApiKey : Type := mkApiKey
  { ak_id : string; ak_project_id : string; ak_created_at : Z; ak_updated_at : option Z;
    ak_public_key : string; ak_hashed_secret_key : string; ak_display_secret_key : string;
    ak_note : option string; ak_expires_at : option Z; ak_last_used_at : option Z }.

Record Account : Type := mkAccount { acc_id : string; acc_user_id : string }.

Record Session : Type := mkSession { ses_id : string; ses_user_id : string }.

(** One list of rows per table, in insertion order. *)
Record Db : Type := mkDb
  { users : list User;
    organizations : list Organization;
    organization_memberships : list OrgMembership;
    projects : list Project;
    project_memberships : list ProjectMembership;
    api_keys : list ApiKey;
    accounts : list Account;
    sessions : list Session }.

Definition empty_db : Db := mkDb [] [] [] [] [] [] [] [].

Definition set_users (f : list User -> list User) (db : Db) : Db :=
  mkDb (f (users db)) (organizations db) (organization_memberships db) (projects db)
       (project_memberships db) (api_keys db) (accounts db) (sessions db).

Definition set_organizations (f : list Organization -> list Organization) (db : Db) : Db :=
  mkDb (users db) (f (organizations db)) (organization_memberships db) (projects db)
       (project_memberships db) (api_keys db) (accounts db) (sessions db).

Definition set_organization_memberships
  (f : list OrgMembership -> list OrgMembership) (db : Db) : Db :=
  mkDb (users db) (organizations db) (f (organization_memberships db)) (projects db)
       (project_memberships db) (api_keys db) (accounts db) (sessions db).

Definition set_projects (f : list Project -> list Project) (db : Db) : Db :=
  mkDb (users db) (organizations db) (organization_memberships db) (f (projects db))
       (project_memberships db) (api_keys db) (accounts db) (sessions db).

Definition set_project_memberships
  (f : list ProjectMembership -> list ProjectMembership) (db : Db) : Db :=
  mkDb (users db) (organizations db) (organization_memberships db) (projects db)
       (f (project_memberships db)) (api_keys db) (accounts db) (sessions db).

Definition set_api_keys (f : list ApiKey -> list ApiKey) (db : Db) : Db :=
  mkDb (users db) (organizations db) (organization_memberships db) (projects db)
       (project_memberships db) (f (api_keys db)) (accounts db) (sessions db).

Definition set_accounts (f : list Account -> list Account) (db : Db) : Db :=
  mkDb (users db) (organizations db) (organization_memberships db) (projects db)
       (project_memberships db) (api_keys db) (f (accounts db)) (sessions db).

Definition set_sessions (f : list Session -> list Session) (db : Db) : Db :=
  mkDb (users db) (organizations db) (organization_memberships db) (projects db)
       (project_memberships db) (api_keys db) (accounts db) (f (sessions db)).

(** ** Persistence gateway ([services/database.service])

    A unit of work reads and writes the store and either returns a value or
    throws. *)

Definition Tx (A : Type) : Type := Db -> result (A * Db).

Definition ret {A : Type} (a : A) : Tx A := fun db => Ok (a, db).

Definition bind {A B : Type} (c : Tx A) (k : A -> Tx B) : Tx B :=
  fun db =>
    match c db with
    | Ok (a, db') => k a db'
    | Err e => Err e
    end.

Definition throw {A : Type} (e : AppError) : Tx A := fun _ => Err e.

(** [client.query('SELECT ...')]: the rows read from the store *)
Definition query {A : Type} (read : Db -> A) : Tx A := fun db => Ok (read db, db).

(** [client.query('INSERT/UPDATE/DELETE ...')] *)
Definition exec (write : Db -> Db) : Tx unit := fun db => Ok (tt, write db).

Notation "x <- c ;; k" := (bind c (fun x => k))
  (at level 61, c at next level, right associativity).
Notation "c ;;; k" := (bind c (fun _ => k))
  (at level 61, right associativity).

(** The message of the [DatabaseError] thrown by [transaction] *)
Definition tx_failed : string := "Error al ejecutar transacción".

(** [transaction(callback)]: BEGIN, the callback, COMMIT; on any exception
    ROLLBACK and a [DatabaseError] that carries the exception as its cause.
    The outcome is paired with the store left behind. *)
Definition transaction {A : Type} (callback : Tx A) (db : Db) : result A * Db :=
  match callback db with
  | Ok (a, db') => (Ok a, db')
  | Err e => (Err (DatabaseError tx_failed e), db)
  end.

(** JavaScript truthiness of a string argument: [undefined], [null] and the
    empty string are all read as the empty string here. *)
Definition falsy (s : string) : bool := (s =? "")%string.

(** [Array.prototype.includes] on strings *)
Definition includes (xs : list string) (x : string) : bool :=
  existsb (String.eqb x) xs.

(** Strings hold the UTF-8 bytes of the JavaScript string, as the request
    body and the database carry it.

    The characters that [String.prototype.trim] strips are ECMAScript's
    WhiteSpace (U+0009, U+000B, U+000C, U+FEFF and the space separators
    U+0020, U+00A0, U+1680, U+2000 to U+200A, U+202F, U+205F, U+3000) and
    LineTerminator (U+000A, U+000D, U+2028, U+2029).  In UTF-8 they take one,
    two or three bytes. *)
Definition is_space1 (c : ascii) : bool :=
  let n := N_of_ascii c in
  ((n =? 32) || ((9 <=? n) && (n <=? 13)))%N.

(** U+00A0 is [C2 A0]. *)
Definition is_space2 (c1 c2 : ascii) : bool :=
  ((N_of_ascii c1 =? 194) && (N_of_ascii c2 =? 160))%N.

(** U+1680 is [E1 9A 80]; U+2000 to U+200A, U+2028, U+2029 and U+202F are
    [E2 80 80] to [E2 80 8A], [E2 80 A8], [E2 80 A9] and [E2 80 AF]; U+205F is
    [E2 81 9F]; U+3000 is [E3 80 80]; U+FEFF is [EF BB BF]. *)
Definition is_space3 (c1 c2 c3 : ascii) : bool :=
  let n1 := N_of_ascii c1 in
  let n2 := N_of_ascii c2 in
  let n3 := N_of_ascii c3 in
  (((n1 =? 225) && (n2 =? 154) && (n3 =? 128)) ||
   ((n1 =? 226) && (n2 =? 128) &&
    (((128 <=? n3) && (n3 <=? 138)) || (n3 =? 168) || (n3 =? 169) || (n3 =? 175))) ||
   ((n1 =? 226) && (n2 =? 129) && (n3 =? 159)) ||
   ((n1 =? 227) && (n2 =? 128) && (n3 =? 128)) ||
   ((n1 =? 239) && (n2 =? 187) && (n3 =? 191)))%N.

(** [String.prototype.trimStart] *)
Fixpoint trim_start (s : string) : string :=
  match s with
  | String c1 s1 =>
      if is_space1 c1 then trim_start s1
      else
        match s1 with
        | String c2 s2 =>
            if is_space2 c1 c2 then trim_start s2
            else
              match s2 with
              | String c3 s3 => if is_space3 c1 c2 c3 then trim_start s3 else s
              | EmptyString => s
              end
        | EmptyString => s
        end
  | EmptyString => EmptyString
  end.

(** [String.prototype.trimEnd]: the string is cut where what is left of it
    is white space only. *)
Fixpoint trim_end (s : string) : string :=
  match s with
  | String c s' =>
      if (trim_start s =? "")%string then EmptyString else String c (trim_end s')
  | EmptyString => EmptyString
  end.

(** [String.prototype.trim] *)
Definition trim (s : string) : string := trim_end (trim_start s).

(** [UPDATE t SET ... WHERE p]: every row that satisfies [p] is rewritten. *)
Definition sql_update {R : Type} (p : R -> bool) (f : R -> R) (t : list R) : list R :=
  map (fun r => if p r then f r else r) t.

(** The rows an [UPDATE ... WHERE p RETURNING] hands back. *)
Definition sql_returning {R : Type} (p : R -> bool) (f : R -> R) (t : list R) : list R :=
  map f (filter p t).

(** [DELETE FROM t WHERE p] *)
Definition sql_delete {R : Type} (p : R -> bool) (t : list R) : list R :=
  filter (fun r => negb (p r)) t.

(** [ORDER BY]: insertion into a list already in order; [before r r'] says
    that [r] must come ahead of [r']. *)
Fixpoint insert_by {R : Type} (before : R -> R -> bool) (r : R) (sorted : list R) : list R :=
  match sorted with
  | [] => [r]
  | r' :: rest => if before r r' then r :: sorted else r' :: insert_by before r rest
  end.

Definition order_by {R : Type} (before : R -> R -> bool) (rows : list R) : list R :=
  fold_right (insert_by before) [] rows.

(** [ORDER BY key DESC] and [ORDER BY key ASC] on a timestamp *)
Definition order_desc_by {R : Type} (key : R -> Z) (rows : list R) : list R :=
  order_by (fun r r' => key r' <? key r) rows.

Definition order_asc_by {R : Type} (key : R -> Z) (rows : list R) : list R :=
  order_by (fun r r' => key r <? key r') rows.

(** One row of [OrganizationsService.getMembers]: the membership joined
    with its user. *)
Record OrgMemberRow : Type := mkOrgMemberRow
  { omr_id : string; omr_user_id : string; omr_role : string;
    omr_created_at : Z; omr_updated_at : Z;
    omr_name : string; omr_email : string; omr_image : option string }.

(** ** Organizations service ([services/organizations.service]) *)

Module OrganizationsService.

Definition validRoles : list string := ["OWNER"; "ADMIN"; "VIEWER"; "NONE"].

Definition member_of (orgId userId : string) (m : OrgMembership) : bool :=
  ((om_org_id m =? orgId) && (om_user_id m =? userId))%string.

Definition owner_of (orgId : string) (m : OrgMembership) : bool :=
  ((om_org_id m =? orgId) && (om_role m =? "OWNER"))%string.

(** [SELECT COUNT( * ) FROM organization_memberships WHERE org_id = $1 AND role = 'OWNER'] *)
Definition ownersCount (orgId : string) (db : Db) : nat :=
  List.length (filter (owner_of orgId) (organization_memberships db)).

(** [SET role = $1, updated_at = CURRENT_TIMESTAMP] *)
Definition with_role (role : string) (now : Z) (m : OrgMembership) : OrgMembership :=
  mkOrgMembership (om_id m) (om_org_id m) (om_user_id m) role (om_created_at m) now.

(** [UPDATE organization_memberships SET role = $1, updated_at = CURRENT_TIMESTAMP
     WHERE org_id = $2 AND user_id = $3 RETURNING *] *)
Definition update_role (role orgId userId : string) (now : Z) : Tx (list OrgMembership) :=
  fun db =>
    Ok (sql_returning (member_of orgId userId) (with_role role now)
          (organization_memberships db),
        set_organization_memberships
          (sql_update (member_of orgId userId) (with_role role now)) db).

Definition create_body (name userId orgRnd omRnd : string) (now : Z) : Tx Organization :=
  userExists <- query (fun db => filter (fun u => (user_id u =? userId)%string) (users db)) ;;
  if (List.length userExists =? 0)%nat then throw (NotFoundError "Usuario no encontrado")
  else
    let id := generateId "org" orgRnd in
    let organization := mkOrganization id (trim name) now now in
    exec (set_organizations (fun t => t ++ [organization])%list) ;;;
    let membershipId := generateId "om" omRnd in
    exec (set_organization_memberships
            (fun t => t ++ [mkOrgMembership membershipId id userId "OWNER" now now])%list) ;;;
    ret organization.

Definition create (name userId orgRnd omRnd : string) (now : Z) (db : Db)
  : result Organization * Db :=
  if falsy name || falsy (trim name) then
    (Err (BusinessLogicError "El nombre es requerido"), db)
  else if falsy userId then
    (Err (BusinessLogicError
            "El ID de usuario es obligatorio para crear una organización"), db)
  else transaction (create_body name userId orgRnd omRnd now) db.

Definition addMember_body (orgId userId role omRnd : string) (now : Z) : Tx OrgMembership :=
  userCheck <- query (fun db => filter (fun u => (user_id u =? userId)%string) (users db)) ;;
  if (List.length userCheck =? 0)%nat then throw (NotFoundError "Usuario")
  else
    orgCheck <- query (fun db =>
                  filter (fun o => (org_id o =? orgId)%string) (organizations db)) ;;
    if (List.length orgCheck =? 0)%nat then throw (NotFoundError "Organización")
    else
      memberCheck <- query (fun db =>
                       filter (member_of orgId userId) (organization_memberships db)) ;;
      if (0 <? List.length memberCheck)%nat then
        throw (ConflictError "El usuario ya es miembro de esta organización")
      else
        let membershipId := generateId "om" omRnd in
        let row := mkOrgMembership membershipId orgId userId role now now in
        exec (set_organization_memberships (fun t => t ++ [row])%list) ;;;
        ret row.

(** [role] is [None] when the argument is left out ([role = 'VIEWER']). *)
Definition addMember (orgId userId : string) (role : option string) (omRnd : string)
  (now : Z) (db : Db) : result OrgMembership * Db :=
  let role := match role with Some r => r | None => "VIEWER" end in
  if falsy userId then (Err (BusinessLogicError "El ID de usuario es requerido"), db)
  else if negb (includes validRoles role) then
    (Err (BusinessLogicError "Rol inválido. Debe ser OWNER, ADMIN, VIEWER o NONE"), db)
  else transaction (addMember_body orgId userId role omRnd now) db.

Definition updateMember_body (orgId userId role : string) (now : Z) : Tx OrgMembership :=
  currentRole <- query (fun db =>
                   filter (member_of orgId userId) (organization_memberships db)) ;;
  match currentRole with
  | [] => throw (NotFoundError "Membresía")
  | current :: _ =>
      (if (om_role current =? "OWNER")%string then
         count <- query (ownersCount orgId) ;;
         if (count <=? 1)%nat then
           throw (BusinessLogicError "No se puede cambiar el rol del último propietario")
         else ret tt
       else ret tt) ;;;
      updateResult <- update_role role orgId userId now ;;
      match updateResult with
      | [] => throw (NotFoundError "Membresía")
      | updated :: _ => ret updated
      end
  end.

Definition updateMember (orgId userId role : string) (now : Z) (db : Db)
  : result OrgMembership * Db :=
  if falsy role then (Err (BusinessLogicError "El rol es requerido"), db)
  else if negb (includes validRoles role) then
    (Err (BusinessLogicError "Rol inválido. Debe ser OWNER, ADMIN, VIEWER o NONE"), db)
  else if negb (role =? "OWNER")%string then
    transaction (updateMember_body orgId userId role now) db
  else
    (* the promotion to OWNER is a single statement outside any transaction *)
    match update_role role orgId userId now db with
    | Ok ([], db') => (Err (NotFoundError "Membresía"), db')
    | Ok (updated :: _, db') => (Ok updated, db')
    | Err e => (Err e, db)
    end.

Definition removeMember_body (orgId userId : string) : Tx bool :=
  currentRole <- query (fun db =>
                   filter (member_of orgId userId) (organization_memberships db)) ;;
  match currentRole with
  | [] => throw (NotFoundError "Membresía")
  | current :: _ =>
      (if (om_role current =? "OWNER")%string then
         count <- query (ownersCount orgId) ;;
         if (count <=? 1)%nat then
           throw (BusinessLogicError "No se puede eliminar al último propietario")
         else ret tt
       else ret tt) ;;;
      (* the project memberships granted through this membership go first *)
      ids <- query (fun db =>
               map om_id (filter (member_of orgId userId) (organization_memberships db))) ;;
      exec (set_project_memberships
              (sql_delete (fun pm => includes ids (pm_org_membership_id pm)))) ;;;
      deleteResult <- query (fun db =>
                        filter (member_of orgId userId) (organization_memberships db)) ;;
      exec (set_organization_memberships (sql_delete (member_of orgId userId))) ;;;
      match deleteResult with
      | [] => throw (NotFoundError "Membresía")
      | _ :: _ => ret true
      end
  end.

Definition removeMember (orgId userId : string) (db : Db) : result bool * Db :=
  transaction (removeMember_body orgId userId) db.

(** [SELECT * FROM organizations ORDER BY created_at DESC] *)
Definition getAll (db : Db) : list Organization :=
  order_desc_by org_created_at (organizations db).

(** [getById]: [None] is the [null] of [queryOne]. *)
Definition getById (id : string) (db : Db) : option Organization :=
  hd_error (filter (fun o => (org_id o =? id)%string) (organizations db)).

(** [SET name = $1, updated_at = CURRENT_TIMESTAMP] *)
Definition rename (name : string) (now : Z) (o : Organization) : Organization :=
  mkOrganization (org_id o) name (org_created_at o) now.

(** [update]: [Ok None] is the [null] answered when no row has the id. *)
Definition update (id name : string) (now : Z) (db : Db)
  : result (option Organization) * Db :=
  if falsy name || falsy (trim name) then
    (Err (BusinessLogicError "El nombre es requerido"), db)
  else
    let hit := fun o => (org_id o =? id)%string in
    let result := sql_returning hit (rename (trim name) now) (organizations db) in
    let db' := set_organizations (sql_update hit (rename (trim name) now)) db in
    match result with
    | [] => (Ok None, db')
    | row :: _ => (Ok (Some row), db')
    end.

(** [getMembers]: the memberships of the organization joined with their
    users, newest first. *)
Definition getMembers (orgId : string) (db : Db) : result (list OrgMemberRow) :=
  match getById orgId db with
  | None => Err (NotFoundError "Organización")
  | Some _ =>
      Ok (order_desc_by omr_created_at
            (flat_map (fun om =>
               map (fun u => mkOrgMemberRow (om_id om) (om_user_id om) (om_role om)
                                            (om_created_at om) (om_updated_at om)
                                            (user_name u) (user_email u) (user_image u))
                   (filter (fun u => (user_id u =? om_user_id om)%string) (users db)))
               (filter (fun om => (om_org_id om =? orgId)%string)
                       (organization_memberships db))))
  end.

End OrganizationsService.

(** ** Project memberships service ([services/project-memberships.service]) *)

(** What [addMember] and [updateMember] answer: the membership columns of the
    [RETURNING] clause merged with the user's name, email and image. *)
Record MemberView : Type := mkMemberView
  { mv_project_id : string; mv_user_id : string; mv_role : string;
    mv_created_at : Z; mv_updated_at : Z; mv_user : option User }.

(** One entry of the [errors] array of a batch. *)
Record BatchError : Type := mkBatchError { be_userId : string; be_error : string }.

Record BatchResult : Type := mkBatchResult
  { success : list MemberView; errors : list BatchError }.

(** One [{userId, role}] entry of a batch; [bm_role] is [None] when the
    entry leaves the role out. *)
Record BatchMember : Type := mkBatchMember { bm_userId : string; bm_role : option string }.

Module ProjectMembershipsService.

Definition validRoles : list string := ["OWNER"; "ADMIN"; "MEMBER"; "VIEWER"].

Definition member_of (projectId userId : string) (m : ProjectMembership) : bool :=
  ((pm_project_id m =? projectId) && (pm_user_id m =? userId))%string.

Definition owner_of (projectId : string) (m : ProjectMembership) : bool :=
  ((pm_project_id m =? projectId) && (pm_role m =? "OWNER"))%string.

(** [SELECT COUNT( * ) FROM project_memberships WHERE project_id = $1 AND role = 'OWNER'] *)
Definition ownersCount (projectId : string) (db : Db) : nat :=
  List.length (filter (owner_of projectId) (project_memberships db)).

(** [SELECT ... FROM projects WHERE id = $1 AND deleted_at IS NULL] *)
Definition live_project (projectId : string) (p : Project) : bool :=
  (prj_id p =? projectId)%string &&
  match prj_deleted_at p with None => true | Some _ => false end.

Definition with_role (role : string) (now : Z) (m : ProjectMembership) : ProjectMembership :=
  mkProjectMembership (pm_project_id m) (pm_user_id m) (pm_org_membership_id m) role
                      (pm_created_at m) now.

Definition update_role (role projectId userId : string) (now : Z)
  : Tx (list ProjectMembership) :=
  fun db =>
    Ok (sql_returning (member_of projectId userId) (with_role role now)
          (project_memberships db),
        set_project_memberships
          (sql_update (member_of projectId userId) (with_role role now)) db).

(** [{...memberResult.rows[0], ...userResult.rows[0]}] *)
Definition view (m : ProjectMembership) (userResult : list User) : MemberView :=
  mkMemberView (pm_project_id m) (pm_user_id m) (pm_role m) (pm_created_at m)
               (pm_updated_at m) (hd_error userResult).

Definition addMember_body (projectId userId role omRnd : string) (now : Z) : Tx MemberView :=
  projectCheck <- query (fun db => filter (live_project projectId) (projects db)) ;;
  match projectCheck with
  | [] => throw (NotFoundError "Proyecto")
  | project :: _ =>
      let orgId := prj_org_id project in
      userCheck <- query (fun db =>
                     filter (fun u => (user_id u =? userId)%string) (users db)) ;;
      if (List.length userCheck =? 0)%nat then throw (NotFoundError "Usuario")
      else
        orgMembershipCheck <- query (fun db =>
            filter (OrganizationsService.member_of orgId userId)
                   (organization_memberships db)) ;;
        orgMembershipId <-
          match orgMembershipCheck with
          | [] =>
              let orgMembershipId := generateId "om" omRnd in
              exec (set_organization_memberships
                      (fun t => t ++ [mkOrgMembership orgMembershipId orgId userId
                                                      "VIEWER" now now])%list) ;;;
              ret orgMembershipId
          | existing :: _ => ret (om_id existing)
          end ;;
        memberCheck <- query (fun db =>
                         filter (member_of projectId userId) (project_memberships db)) ;;
        if (0 <? List.length memberCheck)%nat then
          throw (ConflictError "El usuario ya es miembro de este proyecto")
        else
          let row := mkProjectMembership projectId userId orgMembershipId role now now in
          exec (set_project_memberships (fun t => t ++ [row])%list) ;;;
          userResult <- query (fun db =>
                          filter (fun u => (user_id u =? userId)%string) (users db)) ;;
          ret (view row userResult)
  end.

Definition addMember (projectId userId : string) (role : option string) (omRnd : string)
  (now : Z) (db : Db) : result MemberView * Db :=
  let role := match role with Some r => r | None => "VIEWER" end in
  if falsy userId then (Err (BusinessLogicError "El ID de usuario es requerido"), db)
  else if negb (includes validRoles role) then
    (Err (BusinessLogicError "Rol inválido. Debe ser OWNER, ADMIN, MEMBER o VIEWER"), db)
  else transaction (addMember_body projectId userId role omRnd now) db.

Definition updateMember_body (projectId userId role : string) (now : Z) : Tx MemberView :=
  currentRole <- query (fun db =>
                   filter (member_of projectId userId) (project_memberships db)) ;;
  match currentRole with
  | [] => throw (NotFoundError "Membresía de proyecto")
  | current :: _ =>
      (if (pm_role current =? "OWNER")%string then
         count <- query (ownersCount projectId) ;;
         if (count <=? 1)%nat then
           throw (BusinessLogicError "No se puede cambiar el rol del último propietario")
         else ret tt
       else ret tt) ;;;
      updateResult <- update_role role projectId userId now ;;
      match updateResult with
      | [] => throw (NotFoundError "Membresía de proyecto")
      | updated :: _ =>
          userResult <- query (fun db =>
                          filter (fun u => (user_id u =? userId)%string) (users db)) ;;
          ret (view updated userResult)
      end
  end.

(** The branch taken when the new role is OWNER: no count, only the update. *)
Definition promote_body (projectId userId role : string) (now : Z) : Tx MemberView :=
  updateResult <- update_role role projectId userId now ;;
  match updateResult with
  | [] => throw (NotFoundError "Membresía de proyecto")
  | updated :: _ =>
      userResult <- query (fun db =>
                      filter (fun u => (user_id u =? userId)%string) (users db)) ;;
      ret (view updated userResult)
  end.

Definition updateMember (projectId userId role : string) (now : Z) (db : Db)
  : result MemberView * Db :=
  if falsy role then (Err (BusinessLogicError "El rol es requerido"), db)
  else if negb (includes validRoles role) then
    (Err (BusinessLogicError "Rol inválido. Debe ser OWNER, ADMIN, MEMBER o VIEWER"), db)
  else if negb (role =? "OWNER")%string then
    transaction (updateMember_body projectId userId role now) db
  else transaction (promote_body projectId userId role now) db.

Definition removeMember_body (projectId userId : string) : Tx bool :=
  currentRole <- query (fun db =>
                   filter (member_of projectId userId) (project_memberships db)) ;;
  match currentRole with
  | [] => throw (NotFoundError "Membresía de proyecto")
  | current :: _ =>
      (if (pm_role current =? "OWNER")%string then
         count <- query (ownersCount projectId) ;;
         if (count <=? 1)%nat then
           throw (BusinessLogicError "No se puede eliminar al último propietario")
         else ret tt
       else ret tt) ;;;
      deleteResult <- query (fun db =>
                        filter (member_of projectId userId) (project_memberships db)) ;;
      exec (set_project_memberships (sql_delete (member_of projectId userId))) ;;;
      match deleteResult with
      | [] => throw (NotFoundError "Membresía de proyecto")
      | _ :: _ => ret true
      end
  end.

Definition removeMember (projectId userId : string) (db : Db) : result bool * Db :=
  transaction (removeMember_body projectId userId) db.

(** [member.userId || 'unknown'] *)
Definition or_unknown (userId : string) : string :=
  if falsy userId then "unknown" else userId.

Definition push_success (r : BatchResult) (m : MemberView) : BatchResult :=
  mkBatchResult (success r ++ [m])%list (errors r).

Definition push_error (r : BatchResult) (e : BatchError) : BatchResult :=
  mkBatchResult (success r) (errors r ++ [e])%list.

(** The [for (const member of members)] loop.  The [i]-th entry draws its
    identifier from [rnd i] and runs at time [clock i]. *)
Fixpoint batch_loop (projectId : string) (members : list BatchMember) (i : nat)
  (rnd : nat -> string) (clock : nat -> Z) (result : BatchResult) (db : Db)
  : BatchResult * Db :=
  match members with
  | [] => (result, db)
  | member :: rest =>
      let userId := bm_userId member in
      let role := match bm_role member with Some r => r | None => "VIEWER" end in
      if falsy userId then
        batch_loop projectId rest (S i) rnd clock
          (push_error result
             (mkBatchError (or_unknown (bm_userId member)) "ID de usuario requerido")) db
      else
        match addMember projectId userId (Some role) (rnd i) (clock i) db with
        | (Ok membership, db') =>
            batch_loop projectId rest (S i) rnd clock (push_success result membership) db'
        | (Err error, db') =>
            batch_loop projectId rest (S i) rnd clock
              (push_error result
                 (mkBatchError (or_unknown (bm_userId member)) (error_message error))) db'
        end
  end.

Definition addBatchMembers (projectId : string) (members : list BatchMember)
  (rnd : nat -> string) (clock : nat -> Z) (db : Db) : result BatchResult * Db :=
  if (List.length members =? 0)%nat then
    (Err (BusinessLogicError "Se requiere un array de miembros válido"), db)
  else
    match hd_error (filter (live_project projectId) (projects db)) with
    | None => (Err (NotFoundError "Proyecto"), db)
    | Some _ =>
        let '(result, db') :=
          batch_loop projectId members 0 rnd clock (mkBatchResult [] []) db in
        (Ok result, db')
    end.

(** The rows of [getByProject] and [getMember]: the memberships that satisfy
    [hit], each joined with its user. *)
Definition joined (hit : ProjectMembership -> bool) (db : Db) : list MemberView :=
  flat_map (fun m =>
    map (fun u => mkMemberView (pm_project_id m) (pm_user_id m) (pm_role m)
                               (pm_created_at m) (pm_updated_at m) (Some u))
        (filter (fun u => (user_id u =? pm_user_id m)%string) (users db)))
    (filter hit (project_memberships db)).

Definition getByProject (projectId : string) (db : Db) : result (list MemberView) :=
  match hd_error (filter (live_project projectId) (projects db)) with
  | None => Err (NotFoundError "Proyecto")
  | Some _ =>
      Ok (order_desc_by mv_created_at
            (joined (fun m => (pm_project_id m =? projectId)%string) db))
  end.

(** [getMember]: [None] is the [null] of [queryOne]. *)
Definition getMember (projectId userId : string) (db : Db) : option MemberView :=
  hd_error (joined (member_of projectId userId) db).

End ProjectMembershipsService.

(** ** Users service ([services/users.service]) *)

Module UsersService.

(** [String(membershipCount)] *)
Fixpoint digits (fuel n : nat) (acc : string) : string :=
  match fuel with
  | O => acc
  | S fuel' =>
      let acc' := String (ascii_of_nat (48 + n mod 10)) acc in
      if (n / 10 =? 0)%nat then acc' else digits fuel' (n / 10) acc'
  end.

Definition string_of_nat (n : nat) : string := digits (S n) n EmptyString.

Definition delete_body (id : string) : Tx bool :=
  membershipCount <- query (fun db =>
      List.length (filter (fun m => (om_user_id m =? id)%string)
                          (organization_memberships db))) ;;
  if (0 <? membershipCount)%nat then
    throw (BusinessLogicError
             ("No se puede eliminar el usuario porque pertenece a "
              ++ string_of_nat membershipCount ++ " organización(es). "
              ++ "Elimine primero las membresías del usuario."))
  else
    exec (set_accounts (sql_delete (fun a => (acc_user_id a =? id)%string))) ;;;
    exec (set_sessions (sql_delete (fun x => (ses_user_id x =? id)%string))) ;;;
    result <- query (fun db => filter (fun u => (user_id u =? id)%string) (users db)) ;;
    exec (set_users (sql_delete (fun u => (user_id u =? id)%string))) ;;;
    if (List.length result =? 0)%nat then throw (NotFoundError "Usuario")
    else ret true.

Definition delete (id : string) (db : Db) : result bool * Db :=
  transaction (delete_body id) db.

(** [getById]: [None] is the [null] of [queryOne]. *)
Definition getById (id : string) (db : Db) : option User :=
  hd_error (filter (fun u => (user_id u =? id)%string) (users db)).

End UsersService.

(** ** API keys service ([services/api-keys.service]) *)

(** The [expiresAt] argument as JavaScript sees it: left out, [null], another
    falsy value (the empty string, [0], [false]), or a truthy value that
    [new Date(...)] turns into a time in milliseconds, [None] when the date is
    invalid ([getTime()] is [NaN]). *)
Inductive DateArg : Type :=
| ArgUndefined
| ArgNull
| ArgFalsy
| ArgDate (time : option Z).

(** The rows of [getByProject], [updateExpiration] and [updateNote]. *)
Record KeyView : Type := mkKeyView
  { kv_id : string; kv_created_at : Z; kv_public_key : string;
    kv_display_secret_key : string; kv_last_used_at : option Z;
    kv_note : option string; kv_expires_at : option Z }.

(** The row of [getById], joined with its project. *)
Record KeyDetail : Type := mkKeyDetail
  { kd_key : KeyView; kd_project_id : string; kd_project_name : string }.

(** What [create] answers: the [RETURNING] columns and the secret key. *)
Record CreatedKey : Type := mkCreatedKey
  { ck_id : string; ck_created_at : Z; ck_public_key : string;
    ck_display_secret_key : string; ck_note : option string;
    ck_expires_at : option Z; ck_secretKey : string }.

(** What [regenerate] answers. *)
Record RegeneratedKey : Type := mkRegeneratedKey
  { rk_key : option KeyView; rk_secretKey : string }.

(** What [verify] answers: the project without [deleted_at]. *)
Record ProjectData : Type := mkProjectData
  { pd_id : string; pd_org_id : string; pd_name : string }.

(** One row of [getExpired]: the listing columns and the project. *)
Record ExpiredKey : Type := mkExpiredKey { ek_key : KeyView; ek_project_id : string }.

Module ApiKeysService.

Definition key_view (k : ApiKey) : KeyView :=
  mkKeyView (ak_id k) (ak_created_at k) (ak_public_key k) (ak_display_secret_key k)
            (ak_last_used_at k) (ak_note k) (ak_expires_at k).

(** [ORDER BY created_at DESC] *)
Fixpoint insert_desc (k : ApiKey) (sorted : list ApiKey) : list ApiKey :=
  match sorted with
  | [] => [k]
  | k' :: rest =>
      if ak_created_at k' <? ak_created_at k then k :: sorted
      else k' :: insert_desc k rest
  end.

Definition order_desc (rows : list ApiKey) : list ApiKey :=
  fold_right insert_desc [] rows.

Definition getByProject (projectId : string) (db : Db) : list KeyView :=
  map key_view
      (order_desc (filter (fun k => (ak_project_id k =? projectId)%string) (api_keys db))).

Definition live (p : Project) : bool :=
  match prj_deleted_at p with None => true | Some _ => false end.

Definition getById (id : string) (db : Db) : result KeyDetail :=
  let joined :=
    flat_map (fun k =>
      map (fun p => mkKeyDetail (key_view k) (prj_id p) (prj_name p))
          (filter (fun p => (prj_id p =? ak_project_id k)%string && live p) (projects db)))
      (filter (fun k => (ak_id k =? id)%string) (api_keys db)) in
  match joined with
  | [] => Err (NotFoundError "API key")
  | apiKey :: _ => Ok apiKey
  end.

(** The validation that opens [create], [regenerate] and [updateExpiration]:
    a truthy [expiresAt] must parse and lie strictly after the clock. *)
Definition parseExpiresAt (expiresAt : DateArg) (now : Z) : result (option Z) :=
  match expiresAt with
  | ArgDate None => Err (BusinessLogicError "Formato de fecha de expiración inválido")
  | ArgDate (Some t) =>
      if t <=? now then Err (BusinessLogicError "La fecha de expiración debe ser futura")
      else Ok (Some t)
  | _ => Ok None
  end.

Definition create_body (projectId : string) (note : option string)
  (parsedExpiresAt : option Z) (pkBytes skBytes : list Byte.byte) (keyRnd : string)
  (now : Z) : Tx CreatedKey :=
  projectCheck <- query (fun db =>
      filter (fun p => (prj_id p =? projectId)%string && live p) (projects db)) ;;
  if (List.length projectCheck =? 0)%nat then throw (NotFoundError "Proyecto")
  else
    let publicKey := generateApiKey "pk" pkBytes in
    let secretKey := generateApiKey "sk" skBytes in
    let hashedSecretKey := hashSecretKey secretKey in
    let apiKeyId := generateId "key" keyRnd in
    let row := mkApiKey apiKeyId projectId now None publicKey hashedSecretKey
                        (displaySecretKey secretKey) note parsedExpiresAt None in
    exec (set_api_keys (fun t => t ++ [row])%list) ;;;
    ret (mkCreatedKey (ak_id row) (ak_created_at row) (ak_public_key row)
                      (ak_display_secret_key row) (ak_note row) (ak_expires_at row)
                      secretKey).

Definition create (projectId : string) (note : option string) (expiresAt : DateArg)
  (pkBytes skBytes : list Byte.byte) (keyRnd : string) (now : Z) (db : Db)
  : result CreatedKey * Db :=
  match parseExpiresAt expiresAt now with
  | Err e => (Err e, db)
  | Ok parsedExpiresAt =>
      transaction (create_body projectId note parsedExpiresAt pkBytes skBytes keyRnd now) db
  end.

(** [SET public_key = $1, hashed_secret_key = $2, display_secret_key = $3,
     updated_at = CURRENT_TIMESTAMP, expires_at = $4] *)
Definition rekey (publicKey hashedSecretKey display : string) (expires : option Z)
  (now : Z) (k : ApiKey) : ApiKey :=
  mkApiKey (ak_id k) (ak_project_id k) (ak_created_at k) (Some now) publicKey
           hashedSecretKey display (ak_note k) expires (ak_last_used_at k).

(** [expiresAt === null] after the default [expiresAt = null] has been applied *)
Definition is_null (expiresAt : DateArg) : bool :=
  match expiresAt with
  | ArgUndefined | ArgNull => true
  | _ => false
  end.

Definition regenerate_body (id : string) (expiresAt : DateArg) (parsed : option Z)
  (pkBytes skBytes : list Byte.byte) (now : Z) : Tx RegeneratedKey :=
  apiKeyCheck <- query (fun db => filter (fun k => (ak_id k =? id)%string) (api_keys db)) ;;
  match apiKeyCheck with
  | [] => throw (NotFoundError "API key")
  | existingKey :: _ =>
      let parsedExpiresAt :=
        match is_null expiresAt, ak_expires_at existingKey with
        | true, Some stored => Some stored
        | _, _ => parsed
        end in
      let publicKey := generateApiKey "pk" pkBytes in
      let secretKey := generateApiKey "sk" skBytes in
      let hashedSecretKey := hashSecretKey secretKey in
      let change := rekey publicKey hashedSecretKey (displaySecretKey secretKey)
                          parsedExpiresAt now in
      apiKeyResult <- (fun db =>
          Ok (sql_returning (fun k => (ak_id k =? id)%string) change (api_keys db),
              set_api_keys (sql_update (fun k => (ak_id k =? id)%string) change) db)) ;;
      (* {...apiKeyResult.rows[0], secretKey} *)
      ret (mkRegeneratedKey (option_map key_view (hd_error apiKeyResult)) secretKey)
  end.

Definition regenerate (id : string) (expiresAt : DateArg)
  (pkBytes skBytes : list Byte.byte) (now : Z) (db : Db) : result RegeneratedKey * Db :=
  match parseExpiresAt expiresAt now with
  | Err e => (Err e, db)
  | Ok parsed => transaction (regenerate_body id expiresAt parsed pkBytes skBytes now) db
  end.

Definition with_expiration (expires : option Z) (now : Z) (k : ApiKey) : ApiKey :=
  mkApiKey (ak_id k) (ak_project_id k) (ak_created_at k) (Some now) (ak_public_key k)
           (ak_hashed_secret_key k) (ak_display_secret_key k) (ak_note k) expires
           (ak_last_used_at k).

Definition updateExpiration (id : string) (expiresAt : DateArg) (now : Z) (db : Db)
  : result KeyView * Db :=
  match parseExpiresAt expiresAt now with
  | Err e => (Err e, db)
  | Ok parsedExpiresAt =>
      let hit := fun k => (ak_id k =? id)%string in
      let result := sql_returning hit (with_expiration parsedExpiresAt now) (api_keys db) in
      let db' := set_api_keys (sql_update hit (with_expiration parsedExpiresAt now)) db in
      match result with
      | [] => (Err (NotFoundError "API key"), db')
      | row :: _ => (Ok (key_view row), db')
      end
  end.

Definition with_note (note : option string) (now : Z) (k : ApiKey) : ApiKey :=
  mkApiKey (ak_id k) (ak_project_id k) (ak_created_at k) (Some now) (ak_public_key k)
           (ak_hashed_secret_key k) (ak_display_secret_key k) note (ak_expires_at k)
           (ak_last_used_at k).

Definition updateNote (id : string) (note : option string) (now : Z) (db : Db)
  : result KeyView * Db :=
  let hit := fun k => (ak_id k =? id)%string in
  let result := sql_returning hit (with_note note now) (api_keys db) in
  let db' := set_api_keys (sql_update hit (with_note note now)) db in
  match result with
  | [] => (Err (NotFoundError "API key"), db')
  | row :: _ => (Ok (key_view row), db')
  end.

Definition delete (id : string) (db : Db) : result bool * Db :=
  let hit := fun k => (ak_id k =? id)%string in
  match filter hit (api_keys db) with
  | [] => (Err (NotFoundError "API key"), set_api_keys (sql_delete hit) db)
  | _ :: _ => (Ok true, set_api_keys (sql_delete hit) db)
  end.

(** [expires_at IS NOT NULL AND expires_at < CURRENT_TIMESTAMP] *)
Definition expired (now : Z) (k : ApiKey) : bool :=
  match ak_expires_at k with
  | Some t => t <? now
  | None => false
  end.

Definition cleanupExpired (now : Z) (db : Db) : nat * Db :=
  (List.length (filter (expired now) (api_keys db)),
   set_api_keys (sql_delete (expired now)) db).

Definition touch (now : Z) (k : ApiKey) : ApiKey :=
  mkApiKey (ak_id k) (ak_project_id k) (ak_created_at k) (ak_updated_at k)
           (ak_public_key k) (ak_hashed_secret_key k) (ak_display_secret_key k)
           (ak_note k) (ak_expires_at k) (Some now).

(** [verify]: [None] is the [null] answered to invalid credentials. *)
Definition verify (publicKey secretKey : string) (now : Z) (db : Db)
  : option ProjectData * Db :=
  if falsy publicKey || falsy secretKey then (None, db)
  else
    match hd_error (filter (fun k => (ak_public_key k =? publicKey)%string) (api_keys db)) with
    | None => (None, db)
    | Some apiKey =>
        if expired now apiKey then (None, db)
        else
          let hashedSecret := hashSecretKey secretKey in
          if negb (hashedSecret =? ak_hashed_secret_key apiKey)%string then (None, db)
          else
            match hd_error (filter (fun p => (prj_id p =? ak_project_id apiKey)%string)
                                   (projects db)) with
            | None => (None, db)
            | Some project =>
                if negb (live project) then (None, db)
                else
                  (Some (mkProjectData (prj_id project) (prj_org_id project)
                                       (prj_name project)),
                   set_api_keys
                     (sql_update (fun k => (ak_public_key k =? publicKey)%string) (touch now))
                     db)
            end
    end.

(** [getExpired]: the keys with [expires_at < CURRENT_TIMESTAMP], by
    [expires_at ASC]. *)
Definition getExpired (now : Z) (db : Db) : list ExpiredKey :=
  map (fun k => mkExpiredKey (key_view k) (ak_project_id k))
      (order_asc_by (fun k => match ak_expires_at k with Some t => t | None => 0 end)
                    (filter (expired now) (api_keys db))).

End ApiKeysService.

(** ** Projects service ([services/projects.service]) *)

(** What [ProjectsService.create] answers: the project row and its first
    pair of keys. *)
Record CreatedProject : Type := mkCreatedProject
  { cp_project : Project; cp_publicKey : string; cp_secretKey : string }.

Module ProjectsService.

Definition create_body (name orgId prjRnd : string) (pkBytes skBytes : list Byte.byte)
  (keyRnd : string) (now : Z) : Tx CreatedProject :=
  orgCheck <- query (fun db =>
      filter (fun o => (org_id o =? orgId)%string) (organizations db)) ;;
  if (List.length orgCheck =? 0)%nat then throw (NotFoundError "Organización")
  else
    let projectId := generateId "prj" prjRnd in
    let project := mkProject projectId (trim name) orgId now now None in
    exec (set_projects (fun t => t ++ [project])%list) ;;;
    let publicKey := generateApiKey "pk" pkBytes in
    let secretKey := generateApiKey "sk" skBytes in
    let hashedSecretKey := hashSecretKey secretKey in
    let apiKeyId := generateId "key" keyRnd in
    exec (set_api_keys
            (fun t => t ++ [mkApiKey apiKeyId projectId now None publicKey hashedSecretKey
                                     (displaySecretKey secretKey) None None None])%list) ;;;
    ret (mkCreatedProject project publicKey secretKey).

Definition create (name orgId prjRnd : string) (pkBytes skBytes : list Byte.byte)
  (keyRnd : string) (now : Z) (db : Db) : result CreatedProject * Db :=
  if falsy name || falsy (trim name) then
    (Err (BusinessLogicError "El nombre es requerido"), db)
  else if falsy orgId then
    (Err (BusinessLogicError "El ID de organización es requerido"), db)
  else transaction (create_body name orgId prjRnd pkBytes skBytes keyRnd now) db.

(** [UPDATE projects SET deleted_at = CURRENT_TIMESTAMP ... WHERE id = $1 AND
     deleted_at IS NULL] *)
Definition delete (id : string) (now : Z) (db : Db) : result bool * Db :=
  let hit := fun p => (prj_id p =? id)%string && ApiKeysService.live p in
  let mark := fun p => mkProject (prj_id p) (prj_name p) (prj_org_id p)
                                 (prj_created_at p) now (Some now) in
  match filter hit (projects db) with
  | [] => (Err (NotFoundError "Proyecto"), set_projects (sql_update hit mark) db)
  | _ :: _ => (Ok true, set_projects (sql_update hit mark) db)
  end.

(** [getAll]: the projects that are not deleted, of one organization when
    [orgId] is truthy, newest first. *)
Definition getAll (orgId : string) (db : Db) : list Project :=
  order_desc_by prj_created_at
    (filter (fun p => ApiKeysService.live p &&
                      (if falsy orgId then true else (prj_org_id p =? orgId)%string))
            (projects db)).

(** [getById]: [None] is the [null] of [queryOne]. *)
Definition getById (id : string) (db : Db) : option Project :=
  hd_error (filter (fun p => (prj_id p =? id)%string && ApiKeysService.live p)
                   (projects db)).

(** [SET name = $1, updated_at = CURRENT_TIMESTAMP] *)
Definition rename (name : string) (now : Z) (p : Project) : Project :=
  mkProject (prj_id p) name (prj_org_id p) (prj_created_at p) now (prj_deleted_at p).

(** [update]: [Ok None] is the [null] answered when no live row has the id. *)
Definition update (id name : string) (now : Z) (db : Db) : result (option Project) * Db :=
  if falsy name || falsy (trim name) then
    (Err (BusinessLogicError "El nombre es requerido"), db)
  else
    let hit := fun p => (prj_id p =? id)%string && ApiKeysService.live p in
    let result := sql_returning hit (rename (trim name) now) (projects db) in
    let db' := set_projects (sql_update hit (rename (trim name) now)) db in
    match result with
    | [] => (Ok None, db')
    | row :: _ => (Ok (Some row), db')
    end.

End ProjectsService.

(** ** Operation sequences and membership invariants *)

(** A call of the organization membership manager. *)
Inductive OrgOp : Type :=
| OrgCreate (name userId orgRnd omRnd : string) (now : Z)
| OrgAddMember (orgId userId : string) (role : option string) (omRnd : string) (now : Z)
| OrgUpdateMember (orgId userId role : string) (now : Z)
| OrgRemoveMember (orgId userId : string).

(** The store a call leaves behind, whether it succeeds or throws. *)
Definition org_apply (op : OrgOp) (db : Db) : Db :=
  match op with
  | OrgCreate name userId orgRnd omRnd now =>
      snd (OrganizationsService.create name userId orgRnd omRnd now db)
  | OrgAddMember orgId userId role omRnd now =>
      snd (OrganizationsService.addMember orgId userId role omRnd now db)
  | OrgUpdateMember orgId userId role now =>
      snd (OrganizationsService.updateMember orgId userId role now db)
  | OrgRemoveMember orgId userId =>
      snd (OrganizationsService.removeMember orgId userId db)
  end.

Definition org_run (ops : list OrgOp) (db : Db) : Db :=
  fold_left (fun d op => org_apply op d) ops db.

(** The identifier drawn for a new organization is not in use yet. *)
Definition org_id_fresh (id : string) (db : Db) : Prop :=
  forall m, In m (organization_memberships db) -> om_org_id m <> id.

(** Collision freedom of the identifier generator along a run. *)
Fixpoint org_ids_fresh (ops : list OrgOp) (db : Db) : Prop :=
  match ops with
  | [] => True
  | op :: rest =>
      match op with
      | OrgCreate _ _ orgRnd _ _ => org_id_fresh (generateId "org" orgRnd) db
      | _ => True
      end /\ org_ids_fresh rest (org_apply op db)
  end.

Definition org_key (m : OrgMembership) : string * string := (om_org_id m, om_user_id m).

(** At most one membership per organization and user. *)
Definition org_unique (db : Db) : Prop :=
  NoDup (map org_key (organization_memberships db)).

(** Every organization row has an OWNER. *)
Definition org_owned (db : Db) : Prop :=
  forall o, In o (organizations db) ->
    (1 <= OrganizationsService.ownersCount (org_id o) db)%nat.

(** Every organization with at least one membership has an OWNER. *)
Definition org_members_owned (db : Db) : Prop :=
  forall m, In m (organization_memberships db) ->
    (1 <= OrganizationsService.ownersCount (om_org_id m) db)%nat.

Definition org_invariant (db : Db) : Prop :=
  org_unique db /\ org_owned db /\ org_members_owned db.

(** A call of the project membership manager. *)
Inductive PmOp : Type :=
| PmAddMember (projectId userId : string) (role : option string) (omRnd : string) (now : Z)
| PmUpdateMember (projectId userId role : string) (now : Z)
| PmRemoveMember (projectId userId : string).

Definition pm_apply (op : PmOp) (db : Db) : Db :=
  match op with
  | PmAddMember projectId userId role omRnd now =>
      snd (ProjectMembershipsService.addMember projectId userId role omRnd now db)
  | PmUpdateMember projectId userId role now =>
      snd (ProjectMembershipsService.updateMember projectId userId role now db)
  | PmRemoveMember projectId userId =>
      snd (ProjectMembershipsService.removeMember projectId userId db)
  end.

Definition pm_run (ops : list PmOp) (db : Db) : Db :=
  fold_left (fun d op => pm_apply op d) ops db.

Definition pm_key (m : ProjectMembership) : string * string :=
  (pm_project_id m, pm_user_id m).

(** At most one membership per project and user. *)
Definition pm_unique (db : Db) : Prop :=
  NoDup (map pm_key (project_memberships db)).

(** The memberships of one project. *)
Definition members_of_project (projectId : string) (db : Db) : list ProjectMembership :=
  filter (fun m => (pm_project_id m =? projectId)%string) (project_memberships db).

(** Maintenance calls on API keys that do not take a secret. *)
Inductive KeyOp : Type :=
| KeyUpdateNote (id : string) (note : option string) (now : Z)
| KeyUpdateExpiration (id : string) (expiresAt : DateArg) (now : Z)
| KeyDelete (id : string)
| KeyCleanupExpired (now : Z).

Definition key_apply (op : KeyOp) (db : Db) : Db :=
  match op with
  | KeyUpdateNote id note now => snd (ApiKeysService.updateNote id note now db)
  | KeyUpdateExpiration id expiresAt now =>
      snd (ApiKeysService.updateExpiration id expiresAt now db)
  | KeyDelete id => snd (ApiKeysService.delete id db)
  | KeyCleanupExpired now => snd (ApiKeysService.cleanupExpired now db)
  end.

Definition key_run (ops : list KeyOp) (db : Db) : Db :=
  fold_left (fun d op => key_apply op d) ops db.

(** A key row with the hash column blanked: all that a read can depend on. *)
Definition erase_hash (k : ApiKey) : ApiKey :=
  mkApiKey (ak_id k) (ak_project_id k) (ak_created_at k) (ak_updated_at k)
           (ak_public_key k) "" (ak_display_secret_key k) (ak_note k)
           (ak_expires_at k) (ak_last_used_at k).

(** Two stores that differ at most in stored hashes. *)
Definition same_but_hashes (db1 db2 : Db) : Prop :=
  map erase_hash (api_keys db1) = map erase_hash (api_keys db2) /\
  projects db1 = projects db2.

(** [Partitioned xs ys zs]: the list [zs] is split, in order, into [xs] and
    [ys]; every entry of [zs] goes to exactly one side. *)
Inductive Partitioned {A : Type} : list A -> list A -> list A -> Prop :=
| Partitioned_nil : Partitioned [] [] []
| Partitioned_left (a : A) (xs ys zs : list A) :
    Partitioned xs ys zs -> Partitioned (a :: xs) ys (a :: zs)
| Partitioned_right (a : A) (xs ys zs : list A) :
    Partitioned xs ys zs -> Partitioned xs (a :: ys) (a :: zs).

(** The role a batch entry asks for ([role = 'VIEWER'] when left out). *)
Definition batch_role (m : BatchMember) : string :=
  match bm_role m with Some r => r | None => "VIEWER" end.

(** The failure reasons a batch can report: the entry without a user id, the
    role rejected by [addMember], and the message of a failed transaction. *)
Definition batch_reasons : list string :=
  ["ID de usuario requerido";
   "Rol inválido. Debe ser OWNER, ADMIN, MEMBER o VIEWER";
   tx_failed].

(** The membership returned to the caller is a row of the store. *)
Definition persisted (v : MemberView) (db : Db) : Prop :=
  exists omId,
    In (mkProjectMembership (mv_project_id v) (mv_user_id v) omId (mv_role v)
                            (mv_created_at v) (mv_updated_at v))
       (project_memberships db).

(** Referential integrity of projects: the organization of every project
    has a row. *)
Definition projects_in_orgs (db : Db) : Prop :=
  forall p, In p (projects db) ->
    exists o, In o (organizations db) /\ org_id o = prj_org_id p.

(** Referential integrity of project memberships: [org_membership_id] is the
    identifier of an organization membership of the same user. *)
Definition pm_refs (db : Db) : Prop :=
  forall pm, In pm (project_memberships db) ->
    exists om, In om (organization_memberships db) /\
               om_id om = pm_org_membership_id pm /\ om_user_id om = pm_user_id pm.

(** A call of either membership manager. *)
Inductive AdminOp : Type :=
| OrgCall (op : OrgOp)
| PmCall (op : PmOp).

Definition admin_apply (op : AdminOp) (db : Db) : Db :=
  match op with
  | OrgCall o => org_apply o db
  | PmCall p => pm_apply p db
  end.

Definition admin_run (ops : list AdminOp) (db : Db) : Db :=
  fold_left (fun d op => admin_apply op d) ops db.

(** Collision freedom of the organization identifiers along a mixed run. *)
Fixpoint admin_fresh (ops : list AdminOp) (db : Db) : Prop :=
  match ops with
  | [] => True
  | op :: rest =>
      match op with
      | OrgCall (OrgCreate _ _ orgRnd _ _) => org_id_fresh (generateId "org" orgRnd) db
      | _ => True
      end /\ admin_fresh rest (admin_apply op db)
  end.

(** The membership tables are consistent. *)
Definition consistent (db : Db) : Prop :=
  org_invariant db /\ pm_unique db /\ projects_in_orgs db /\ pm_refs db.

(** The columns of a key that [verify] reads. *)
Definition credential (k : ApiKey) : string * string * option Z * string :=
  (ak_public_key k, ak_hashed_secret_key k, ak_expires_at k, ak_project_id k).

(** ** Request validation ([middleware/validation.middleware]) *)

(** The character classes [[a-z]] and [[a-z0-9]] *)
Definition is_lower (c : ascii) : bool :=
  let n := N_of_ascii c in ((97 <=? n) && (n <=? 122))%N.

Definition is_lower_or_digit (c : ascii) : bool :=
  let n := N_of_ascii c in is_lower c || ((48 <=? n) && (n <=? 57))%N.

Fixpoint all_chars (class : ascii -> bool) (s : string) : bool :=
  match s with
  | EmptyString => true
  | String c s' => class c && all_chars class s'
  end.

(** [[a-z0-9]+$] *)
Definition alnum_plus (s : string) : bool :=
  negb (s =? "")%string && all_chars is_lower_or_digit s.

(** [[a-z]*_[a-z0-9]+$]: the underscore is the first character that is not
    a lowercase letter. *)
Fixpoint letters_then_rest (s : string) : bool :=
  match s with
  | EmptyString => false
  | String c s' =>
      if is_lower c then letters_then_rest s'
      else if (c =? "_")%char then alnum_plus s'
      else false
  end.

(** [idSchema]: the pattern [/(^[a-z]+_[a-z0-9]+$)|(^c[a-z0-9]+$)/] *)
Definition idSchema (value : string) : bool :=
  match value with
  | EmptyString => false
  | String c rest =>
      (is_lower c && letters_then_rest rest) ||
      ((c =? "c")%char && alnum_plus rest)
  end.

(** ** A small installation used in the examples *)

Module Sample.

Definition ana : User := mkUser "usr_ana" "Ana" "ana@example.org" None.
Definition bo : User := mkUser "usr_bo" "Bo" "bo@example.org" None.

(** Two users and nothing else. *)
Definition people : Db := set_users (fun _ => [ana; bo]) empty_db.

(** The organization Acme, owned by Ana alone. *)
Definition acme : Db :=
  snd (OrganizationsService.create "Acme" "usr_ana" "corg1" "m1" 10 people).

Definition pk1 : list Byte.byte :=
  [Byte.x00; Byte.x11; Byte.x22; Byte.x33; Byte.x44; Byte.x55; Byte.x66; Byte.x77;
   Byte.x88; Byte.x99; Byte.xaa; Byte.xbb; Byte.xcc; Byte.xdd; Byte.xee; Byte.xff].

Definition sk1 : list Byte.byte :=
  [Byte.x0f; Byte.x1e; Byte.x2d; Byte.x3c; Byte.x4b; Byte.x5a; Byte.x69; Byte.x78;
   Byte.x87; Byte.x96; Byte.xa5; Byte.xb4; Byte.xc3; Byte.xd2; Byte.xe1; Byte.xf0].

Definition pk2 : list Byte.byte := rev pk1.
Definition sk2 : list Byte.byte := rev sk1.

(** Acme with the project Site: no project membership yet, one API key. *)
Definition site : Db :=
  snd (ProjectsService.create "Site" "corg1" "cprj1" pk1 sk1 "k1" 20 acme).

(** Site with Ana as its only member, an OWNER. *)
Definition site_owned : Db :=
  snd (ProjectMembershipsService.addMember "cprj1" "usr_ana" (Some "OWNER") "m2" 30 site).

(** Site with a second key that expires at time 5000. *)
Definition site_expiring : Db :=
  snd (ApiKeysService.create "cprj1" (Some "ci") (ArgDate (Some 5000)) pk2 sk2 "k2" 100 site).

Definition acme_ops : list OrgOp :=
  [OrgCreate "Acme" "usr_ana" "corg1" "m1" 10;
   OrgAddMember "corg1" "usr_bo" (Some "ADMIN") "m3" 11;
   OrgUpdateMember "corg1" "usr_ana" "VIEWER" 12;
   OrgRemoveMember "corg1" "usr_bo"].

Definition site_ops : list PmOp :=
  [PmAddMember "cprj1" "usr_bo" None "m4" 31;
   PmUpdateMember "cprj1" "usr_ana" "VIEWER" 32;
   PmRemoveMember "cprj1" "usr_ana"].

(** A no-break space (U+00A0) and a byte order mark (U+FEFF), in UTF-8 *)
Definition nbsp : string := String (ascii_of_nat 194) (String (ascii_of_nat 160) "").
Definition bom : string :=
  String (ascii_of_nat 239) (String (ascii_of_nat 187) (String (ascii_of_nat 191) "")).

End Sample.

(** * Properties *)

(** ** Rows, filters and statements *)

Section TableFacts.

Context {R : Type}.
Implicit Types (p q : R -> bool) (f : R -> R) (t : list R).

Lemma filter_none p t :
  (forall r, In r t -> p r = false) -> filter p t = [].
Proof.
  induction t as [|r t IH]; intros H; [reflexivity|].
  simpl. rewrite (H r (or_introl eq_refl)). apply IH. intros x Hx. apply H. now right.
Qed.

Lemma sql_update_none p f t :
  (forall r, In r t -> p r = false) -> sql_update p f t = t.
Proof.
  induction t as [|r t IH]; intros H; [reflexivity|].
  unfold sql_update in *. simpl. rewrite (H r (or_introl eq_refl)). f_equal.
  apply IH. intros x Hx. apply H. now right.
Qed.

Lemma sql_delete_none p t :
  (forall r, In r t -> p r = false) -> sql_delete p t = t.
Proof.
  induction t as [|r t IH]; intros H; [reflexivity|].
  unfold sql_delete in *. simpl. rewrite (H r (or_introl eq_refl)). simpl. f_equal.
  apply IH. intros x Hx. apply H. now right.
Qed.

Lemma filter_empty_none p t :
  filter p t = [] -> forall r, In r t -> p r = false.
Proof.
  intros H r Hr. destruct (p r) eqn:E; [|reflexivity].
  assert (In r (filter p t)) as Hin by (apply filter_In; auto).
  rewrite H in Hin. destruct Hin.
Qed.

Lemma filter_andb p q t :
  filter (fun r => p r && q r) t = filter q (filter p t).
Proof.
  induction t as [|r t IH]; [reflexivity|].
  simpl. destruct (p r); simpl; [destruct (q r)|]; now rewrite IH.
Qed.

Lemma sql_update_app p f t1 t2 :
  sql_update p f (t1 ++ t2) = (sql_update p f t1 ++ sql_update p f t2)%list.
Proof. unfold sql_update. apply map_app. Qed.

Lemma sql_delete_app p t1 t2 :
  sql_delete p (t1 ++ t2) = (sql_delete p t1 ++ sql_delete p t2)%list.
Proof. unfold sql_delete. apply filter_app. Qed.

Lemma filter_length_app p t1 t2 :
  List.length (filter p (t1 ++ t2)) =
  (List.length (filter p t1) + List.length (filter p t2))%nat.
Proof. now rewrite filter_app, length_app. Qed.

End TableFacts.

(** ** The gateway *)

Lemma transaction_commit {A : Type} (c : Tx A) (db db' : Db) (a : A) :
  c db = Ok (a, db') -> transaction c db = (Ok a, db').
Proof. intros H. unfold transaction. now rewrite H. Qed.

Lemma transaction_abort {A : Type} (c : Tx A) (db : Db) (e : AppError) :
  c db = Err e ->
  transaction c db = (Err (DatabaseError tx_failed e), db).
Proof. intros H. unfold transaction. now rewrite H. Qed.

(** A transaction that throws leaves the store as it found it. *)
Lemma transaction_rollback {A : Type} (c : Tx A) (db db' : Db) (e : AppError) :
  transaction c db = (Err e, db') -> db' = db.
Proof.
  unfold transaction. destruct (c db) as [[a d]|e']; intros H; inversion H. reflexivity.
Qed.

Lemma member_of_true orgId userId m :
  OrganizationsService.member_of orgId userId m = true <->
  om_org_id m = orgId /\ om_user_id m = userId.
Proof.
  unfold OrganizationsService.member_of.
  rewrite andb_true_iff, !String.eqb_eq. tauto.
Qed.

Lemma pm_member_of_true projectId userId m :
  ProjectMembershipsService.member_of projectId userId m = true <->
  pm_project_id m = projectId /\ pm_user_id m = userId.
Proof.
  unfold ProjectMembershipsService.member_of.
  rewrite andb_true_iff, !String.eqb_eq. tauto.
Qed.

(** ** Test vectors of the digest (FIPS 180-4, appendix B) and of the helpers *)

Example sha256_abc :
  Sha256.sha256_hex "abc"
  = "ba7816bf8f01cfea414140de5dae2223b00361a396177a9cb410ff61f20015ad".
Proof. vm_compute. reflexivity. Qed.

Example sha256_empty :
  Sha256.sha256_hex ""
  = "e3b0c44298fc1c149afbf4c8996fb92427ae41e4649b934ca495991b7852b855".
Proof. vm_compute. reflexivity. Qed.

Example sha256_two_blocks :
  Sha256.sha256_hex "abcdbcdecdefdefgefghfghighijhijkijkljklmklmnlmnomnopnopq"
  = "248d6a61d20638b8e5c026930c3e6039a33ce45964ff2167f6ecedd419db06c1".
Proof. vm_compute. reflexivity. Qed.

Example hashSecretKey_sample :
  hashSecretKey "sk_0f1e2d3c4b5a69788796a5b4c3d2e1f0"
  = "799a8301110f0f54e6558e58daad7222e400e4b9df5025d4cc41209f87ac23cc".
Proof. vm_compute. reflexivity. Qed.

Example string_of_nat_samples :
  UsersService.string_of_nat 0 = "0" /\ UsersService.string_of_nat 12 = "12" /\
  UsersService.string_of_nat 305 = "305".
Proof. repeat split. Qed.

Example trim_samples :
  trim "  Acme Corp " = "Acme Corp" /\ trim "   " = "" /\ trim "x" = "x".
Proof. repeat split. Qed.

(** White space outside ASCII is stripped too, and only white space: a
    no-break space and a byte order mark go, accented letters and the euro
    sign stay. *)
Example trim_unicode_samples :
  trim Sample.nbsp = "" /\
  trim ("Site" ++ Sample.nbsp) = "Site" /\
  trim (Sample.bom ++ " Acme" ++ Sample.nbsp ++ "Labs" ++ Sample.nbsp ++ " ")
    = "Acme" ++ Sample.nbsp ++ "Labs" /\
  trim "Organización" = "Organización" /\
  trim " € 5 € " = "€ 5 €".
Proof. repeat split. Qed.

Example generateId_samples :
  generateId "org" "cm84umiqf001bpp07fzmk5q26" = "cm84umiqf001bpp07fzmk5q26" /\
  generateId "om" "m8abc1234XyZ" = "om_m8abc1234XyZ".
Proof. split; reflexivity. Qed.

(** ** Closed forms of the service methods *)

Ltac run_tx :=
  unfold transaction, bind, query, exec, throw, ret; cbn.

Lemma org_removeMember_eq (orgId userId : string) (db : Db) :
  OrganizationsService.removeMember orgId userId db =
  match filter (OrganizationsService.member_of orgId userId)
               (organization_memberships db) with
  | [] => (Err (DatabaseError tx_failed (NotFoundError "Membresía")), db)
  | current :: _ =>
      if (om_role current =? "OWNER")%string &&
         (OrganizationsService.ownersCount orgId db <=? 1)%nat
      then (Err (DatabaseError tx_failed
                   (BusinessLogicError "No se puede eliminar al último propietario")), db)
      else
        (Ok true,
         set_organization_memberships
           (sql_delete (OrganizationsService.member_of orgId userId))
           (set_project_memberships
              (sql_delete (fun pm =>
                 includes (map om_id (filter (OrganizationsService.member_of orgId userId)
                                             (organization_memberships db)))
                          (pm_org_membership_id pm))) db))
  end.
Proof.
  unfold OrganizationsService.removeMember, OrganizationsService.removeMember_body.
  run_tx.
  destruct (filter _ (organization_memberships db)) as [|current rest] eqn:E; [reflexivity|].
  destruct (om_role current =? "OWNER")%string; cbn.
  - destruct (OrganizationsService.ownersCount orgId db <=? 1)%nat; cbn; [reflexivity|].
    rewrite E. reflexivity.
  - rewrite E. reflexivity.
Qed.

Lemma pm_removeMember_eq (projectId userId : string) (db : Db) :
  ProjectMembershipsService.removeMember projectId userId db =
  match filter (ProjectMembershipsService.member_of projectId userId)
               (project_memberships db) with
  | [] => (Err (DatabaseError tx_failed (NotFoundError "Membresía de proyecto")), db)
  | current :: _ =>
      if (pm_role current =? "OWNER")%string &&
         (ProjectMembershipsService.ownersCount projectId db <=? 1)%nat
      then (Err (DatabaseError tx_failed
                   (BusinessLogicError "No se puede eliminar al último propietario")), db)
      else
        (Ok true,
         set_project_memberships
           (sql_delete (ProjectMembershipsService.member_of projectId userId)) db)
  end.
Proof.
  unfold ProjectMembershipsService.removeMember, ProjectMembershipsService.removeMember_body.
  run_tx.
  destruct (filter _ (project_memberships db)) as [|current rest] eqn:E; [reflexivity|].
  destruct (pm_role current =? "OWNER")%string; cbn.
  - destruct (ProjectMembershipsService.ownersCount projectId db <=? 1)%nat; cbn;
      [reflexivity|].
    rewrite E. reflexivity.
  - rewrite E. reflexivity.
Qed.

Lemma org_updateMember_eq (orgId userId role : string) (now : Z) (db : Db) :
  OrganizationsService.updateMember orgId userId role now db =
  let hit := OrganizationsService.member_of orgId userId in
  let change := OrganizationsService.with_role role now in
  let db' := set_organization_memberships (sql_update hit change) db in
  if falsy role then (Err (BusinessLogicError "El rol es requerido"), db)
  else if negb (includes OrganizationsService.validRoles role) then
    (Err (BusinessLogicError "Rol inválido. Debe ser OWNER, ADMIN, VIEWER o NONE"), db)
  else
    match filter hit (organization_memberships db) with
    | [] =>
        if negb (role =? "OWNER")%string
        then (Err (DatabaseError tx_failed (NotFoundError "Membresía")), db)
        else (Err (NotFoundError "Membresía"), db')
    | current :: _ =>
        if negb (role =? "OWNER")%string && (om_role current =? "OWNER")%string &&
           (OrganizationsService.ownersCount orgId db <=? 1)%nat
        then (Err (DatabaseError tx_failed
                (BusinessLogicError "No se puede cambiar el rol del último propietario")), db)
        else (Ok (change current), db')
    end.
Proof.
  unfold OrganizationsService.updateMember, OrganizationsService.updateMember_body,
    OrganizationsService.update_role, sql_returning.
  cbv zeta.
  destruct (falsy role); [reflexivity|].
  destruct (negb (includes _ role)); [reflexivity|].
  destruct (negb (role =? "OWNER")%string); run_tx.
  - destruct (filter _ (organization_memberships db)) as [|current rest] eqn:E;
      [reflexivity|].
    destruct (om_role current =? "OWNER")%string; cbn.
    + destruct (OrganizationsService.ownersCount orgId db <=? 1)%nat; cbn; [reflexivity|].
      rewrite E. reflexivity.
    + rewrite E. reflexivity.
  - destruct (filter _ (organization_memberships db)) as [|current rest] eqn:E;
      reflexivity.
Qed.

Lemma org_addMember_eq (orgId userId : string) (role : option string) (omRnd : string)
  (now : Z) (db : Db) :
  OrganizationsService.addMember orgId userId role omRnd now db =
  let role' := match role with Some r => r | None => "VIEWER" end in
  let row := mkOrgMembership (generateId "om" omRnd) orgId userId role' now now in
  if falsy userId then (Err (BusinessLogicError "El ID de usuario es requerido"), db)
  else if negb (includes OrganizationsService.validRoles role') then
    (Err (BusinessLogicError "Rol inválido. Debe ser OWNER, ADMIN, VIEWER o NONE"), db)
  else if (List.length (filter (fun u => (user_id u =? userId)%string) (users db)) =? 0)%nat
  then (Err (DatabaseError tx_failed (NotFoundError "Usuario")), db)
  else if (List.length (filter (fun o => (org_id o =? orgId)%string)
                               (organizations db)) =? 0)%nat
  then (Err (DatabaseError tx_failed (NotFoundError "Organización")), db)
  else if (0 <? List.length (filter (OrganizationsService.member_of orgId userId)
                                    (organization_memberships db)))%nat
  then (Err (DatabaseError tx_failed
               (ConflictError "El usuario ya es miembro de esta organización")), db)
  else (Ok row, set_organization_memberships (fun t => t ++ [row])%list db).
Proof.
  unfold OrganizationsService.addMember, OrganizationsService.addMember_body.
  cbv zeta.
  destruct (falsy userId); [reflexivity|].
  destruct (negb (includes _ _)); [reflexivity|].
  run_tx.
  destruct (List.length (filter _ (users db)) =? 0)%nat; [reflexivity|]. cbn.
  destruct (List.length (filter _ (organizations db)) =? 0)%nat; [reflexivity|]. cbn.
  destruct (filter (OrganizationsService.member_of orgId userId)
                   (organization_memberships db)); reflexivity.
Qed.

Lemma org_create_eq (name userId orgRnd omRnd : string) (now : Z) (db : Db) :
  OrganizationsService.create name userId orgRnd omRnd now db =
  let id := generateId "org" orgRnd in
  let organization := mkOrganization id (trim name) now now in
  let owner := mkOrgMembership (generateId "om" omRnd) id userId "OWNER" now now in
  if falsy name || falsy (trim name) then
    (Err (BusinessLogicError "El nombre es requerido"), db)
  else if falsy userId then
    (Err (BusinessLogicError
            "El ID de usuario es obligatorio para crear una organización"), db)
  else if (List.length (filter (fun u => (user_id u =? userId)%string) (users db)) =? 0)%nat
  then (Err (DatabaseError tx_failed (NotFoundError "Usuario no encontrado")), db)
  else (Ok organization,
        set_organization_memberships (fun t => t ++ [owner])%list
          (set_organizations (fun t => t ++ [organization])%list db)).
Proof.
  unfold OrganizationsService.create, OrganizationsService.create_body.
  cbv zeta.
  destruct (falsy name || falsy (trim name)); [reflexivity|].
  destruct (falsy userId); [reflexivity|].
  run_tx.
  destruct (List.length (filter _ (users db)) =? 0)%nat; reflexivity.
Qed.

(** ** Unique keys *)

Lemma unique_split {R K : Type} (key : R -> K) (t : list R) (r : R) :
  NoDup (map key t) -> In r t ->
  exists t1 t2, t = (t1 ++ r :: t2)%list /\
                forall x, In x (t1 ++ t2)%list -> key x <> key r.
Proof.
  intros Hnd Hin.
  destruct (in_split _ _ Hin) as (t1 & t2 & ->).
  exists t1, t2. split; [reflexivity|].
  rewrite map_app in Hnd. simpl in Hnd. apply NoDup_remove_2 in Hnd.
  intros x Hx Hk. apply Hnd. rewrite <- map_app, <- Hk. now apply in_map.
Qed.

Lemma count_split {R : Type} (q : R -> bool) (t1 t2 : list R) (r : R) :
  List.length (filter q (t1 ++ r :: t2)) =
  (List.length (filter q t1) + (if q r then 1 else 0) + List.length (filter q t2))%nat.
Proof.
  rewrite filter_app, length_app. simpl. destruct (q r); simpl; lia.
Qed.

Lemma sql_update_split {R : Type} (p : R -> bool) (f : R -> R) (t1 t2 : list R) (r : R) :
  p r = true -> (forall x, In x (t1 ++ t2)%list -> p x = false) ->
  sql_update p f (t1 ++ r :: t2) = (t1 ++ f r :: t2)%list.
Proof.
  intros Hr Hx. rewrite sql_update_app.
  rewrite (sql_update_none p f t1) by (intros; apply Hx, in_or_app; auto).
  unfold sql_update at 1. simpl. rewrite Hr. fold (sql_update p f t2).
  rewrite (sql_update_none p f t2) by (intros; apply Hx, in_or_app; auto).
  reflexivity.
Qed.

Lemma sql_delete_split {R : Type} (p : R -> bool) (t1 t2 : list R) (r : R) :
  p r = true -> (forall x, In x (t1 ++ t2)%list -> p x = false) ->
  sql_delete p (t1 ++ r :: t2) = (t1 ++ t2)%list.
Proof.
  intros Hr Hx. rewrite sql_delete_app.
  rewrite (sql_delete_none p t1) by (intros; apply Hx, in_or_app; auto).
  unfold sql_delete at 1. simpl. rewrite Hr. simpl. fold (sql_delete p t2).
  rewrite (sql_delete_none p t2) by (intros; apply Hx, in_or_app; auto).
  reflexivity.
Qed.

Lemma sql_update_keys {R K : Type} (key : R -> K) (p : R -> bool) (f : R -> R) (t : list R) :
  (forall r, key (f r) = key r) -> map key (sql_update p f t) = map key t.
Proof.
  intros H. unfold sql_update. rewrite map_map. apply map_ext.
  intros r. destruct (p r); auto.
Qed.

Lemma NoDup_map_filter {R K : Type} (key : R -> K) (p : R -> bool) (t : list R) :
  NoDup (map key t) -> NoDup (map key (filter p t)).
Proof.
  induction t as [|r t IH]; intros H; simpl; [constructor|].
  inversion H as [|? ? Hn Hd]; subst.
  destruct (p r); simpl; [constructor|]; auto.
  intros Hin. apply Hn. apply in_map_iff in Hin as (x & Hx & Hf).
  apply filter_In in Hf as [Hf _]. rewrite <- Hx. now apply in_map.
Qed.

(** ** The organization invariant *)

(** The membership of [(orgId, userId)], when memberships are unique, sits
    alone among rows of other keys. *)
Lemma org_member_split (db : Db) (orgId userId : string) (current : OrgMembership)
  (rest : list OrgMembership) :
  org_unique db ->
  filter (OrganizationsService.member_of orgId userId) (organization_memberships db)
    = current :: rest ->
  om_org_id current = orgId /\ om_user_id current = userId /\
  exists t1 t2,
    organization_memberships db = (t1 ++ current :: t2)%list /\
    forall x, In x (t1 ++ t2)%list -> OrganizationsService.member_of orgId userId x = false.
Proof.
  intros Hu E.
  assert (In current (filter (OrganizationsService.member_of orgId userId)
                             (organization_memberships db))) as Hin
      by (rewrite E; now left).
  apply filter_In in Hin as [Hin Hc]. apply member_of_true in Hc as [Ho Hus].
  split; [exact Ho|]. split; [exact Hus|].
  destruct (unique_split org_key _ _ Hu Hin) as (t1 & t2 & Heq & Hk).
  exists t1, t2. split; [exact Heq|].
  intros x Hx. destruct (OrganizationsService.member_of orgId userId x) eqn:Ex;
    [|reflexivity].
  apply member_of_true in Ex as [Ho' Hu']. exfalso. apply (Hk x Hx).
  unfold org_key. now rewrite Ho, Hus, Ho', Hu'.
Qed.

Lemma owner_of_true orgId m :
  OrganizationsService.owner_of orgId m = true <->
  om_org_id m = orgId /\ om_role m = "OWNER".
Proof.
  unfold OrganizationsService.owner_of. rewrite andb_true_iff, !String.eqb_eq. tauto.
Qed.

(** Owner counts that were positive stay positive across [updateMember]. *)
Lemma org_updateMember_owners (orgId userId role : string) (now : Z) (db : Db) (o : string) :
  org_unique db ->
  (1 <= OrganizationsService.ownersCount o db)%nat ->
  (1 <= OrganizationsService.ownersCount o
          (snd (OrganizationsService.updateMember orgId userId role now db)))%nat.
Proof.
  intros Hu Hpos. rewrite org_updateMember_eq. cbv zeta.
  destruct (falsy role); [exact Hpos|].
  destruct (negb (includes _ role)); [exact Hpos|].
  destruct (filter _ (organization_memberships db)) as [|current rest] eqn:E.
  - destruct (negb (role =? "OWNER")%string); [exact Hpos|]. cbn [snd].
    unfold OrganizationsService.ownersCount. cbn.
    rewrite sql_update_none by (now apply filter_empty_none). exact Hpos.
  - destruct (org_member_split _ _ _ _ _ Hu E) as (Ho & Hus & t1 & t2 & Heq & Hx).
    destruct (negb (role =? "OWNER")%string && (om_role current =? "OWNER")%string &&
              (OrganizationsService.ownersCount orgId db <=? 1)%nat) eqn:G;
      [exact Hpos|].
    cbn [snd]. unfold OrganizationsService.ownersCount in *. cbn.
    rewrite Heq in *.
    rewrite sql_update_split by (auto; apply member_of_true; auto).
    rewrite count_split in *.
    destruct (OrganizationsService.owner_of o current) eqn:Oc.
    + apply owner_of_true in Oc as [Oo Or].
      assert (o = orgId) as -> by congruence.
      rewrite Or in G. cbn in G.
      destruct (role =? "OWNER")%string eqn:Er.
      * apply String.eqb_eq in Er. subst role.
        replace (OrganizationsService.owner_of orgId
                   (OrganizationsService.with_role "OWNER" now current)) with true; [lia|].
        symmetry. apply owner_of_true. cbn. auto.
      * cbn in G. apply Nat.leb_gt in G.
        assert (OrganizationsService.owner_of orgId current = true) as Oc'
            by (apply owner_of_true; auto).
        rewrite Oc' in G.
        destruct (OrganizationsService.owner_of orgId _); lia.
    + destruct (OrganizationsService.owner_of o _); lia.
Qed.

Lemma org_removeMember_owners (orgId userId : string) (db : Db) (o : string) :
  org_unique db ->
  (1 <= OrganizationsService.ownersCount o db)%nat ->
  (1 <= OrganizationsService.ownersCount o
          (snd (OrganizationsService.removeMember orgId userId db)))%nat.
Proof.
  intros Hu Hpos. rewrite org_removeMember_eq.
  destruct (filter _ (organization_memberships db)) as [|current rest] eqn:E;
    [exact Hpos|].
  destruct (org_member_split _ _ _ _ _ Hu E) as (Ho & Hus & t1 & t2 & Heq & Hx).
  destruct ((om_role current =? "OWNER")%string &&
            (OrganizationsService.ownersCount orgId db <=? 1)%nat) eqn:G; [exact Hpos|].
  cbn [snd]. unfold OrganizationsService.ownersCount in *.
  change (organization_memberships (set_organization_memberships ?f ?d))
    with (f (organization_memberships d)).
  change (organization_memberships (set_project_memberships ?f db))
    with (organization_memberships db).
  rewrite Heq in *.
  rewrite sql_delete_split by (auto; apply member_of_true; auto).
  rewrite count_split in *. rewrite filter_app, length_app.
  destruct (OrganizationsService.owner_of o current) eqn:Oc; [|lia].
  apply owner_of_true in Oc as [Oo Or].
  assert (o = orgId) as -> by congruence.
  rewrite Or in G. cbn in G. apply Nat.leb_gt in G.
  assert (OrganizationsService.owner_of orgId current = true) as Oc'
      by (apply owner_of_true; auto).
  rewrite Oc' in G. lia.
Qed.

Lemma org_addMember_owners (orgId userId : string) (role : option string) (omRnd : string)
  (now : Z) (db : Db) (o : string) :
  (OrganizationsService.ownersCount o db <=
   OrganizationsService.ownersCount o
     (snd (OrganizationsService.addMember orgId userId role omRnd now db)))%nat.
Proof.
  rewrite org_addMember_eq. cbv zeta.
  repeat match goal with
         | |- context [if ?c then _ else _] => destruct c; [apply Nat.le_refl|]
         end.
  cbn [snd]. unfold OrganizationsService.ownersCount. cbn.
  rewrite filter_app, length_app. lia.
Qed.

Lemma org_create_owners (name userId orgRnd omRnd : string) (now : Z) (db : Db) (o : string) :
  (OrganizationsService.ownersCount o db <=
   OrganizationsService.ownersCount o
     (snd (OrganizationsService.create name userId orgRnd omRnd now db)))%nat.
Proof.
  rewrite org_create_eq. cbv zeta.
  repeat match goal with
         | |- context [if ?c then _ else _] => destruct c; [apply Nat.le_refl|]
         end.
  cbn [snd]. unfold OrganizationsService.ownersCount. cbn.
  rewrite filter_app, length_app. lia.
Qed.

(** No call lowers a positive owner count to zero. *)
Lemma org_apply_owners (op : OrgOp) (db : Db) (o : string) :
  org_unique db ->
  (1 <= OrganizationsService.ownersCount o db)%nat ->
  (1 <= OrganizationsService.ownersCount o (org_apply op db))%nat.
Proof.
  intros Hu Hpos. destruct op; cbn [org_apply].
  - eapply Nat.le_trans; [exact Hpos | apply org_create_owners].
  - eapply Nat.le_trans; [exact Hpos | apply org_addMember_owners].
  - now apply org_updateMember_owners.
  - now apply org_removeMember_owners.
Qed.

Lemma NoDup_snoc {K : Type} (ks : list K) (k : K) :
  NoDup ks -> ~ In k ks -> NoDup (ks ++ [k]).
Proof.
  induction ks as [|x ks IH]; intros Hnd Hk; simpl.
  - constructor; [intros []|constructor].
  - inversion Hnd as [|? ? Hn Hd]; subst. constructor.
    + intros Hin. apply in_app_or in Hin as [Hin|[Hin|[]]]; [now apply Hn|].
      apply Hk. now left.
    + apply IH; [exact Hd|]. intros Hin. apply Hk. now right.
Qed.

Lemma org_apply_unique (op : OrgOp) (db : Db) :
  org_unique db ->
  match op with
  | OrgCreate _ _ orgRnd _ _ => org_id_fresh (generateId "org" orgRnd) db
  | _ => True
  end ->
  org_unique (org_apply op db).
Proof.
  unfold org_unique. intros Hu Hf. destruct op; cbn [org_apply].
  - rewrite org_create_eq. cbv zeta.
    repeat match goal with
           | |- context [if ?c then _ else _] => destruct c; [exact Hu|]
           end.
    cbn. rewrite map_app. apply NoDup_snoc; [exact Hu|].
    intros Hin. apply in_map_iff in Hin as (m & Hk & Hm).
    apply (Hf m Hm). unfold org_key in Hk. now inversion Hk.
  - rewrite org_addMember_eq. cbv zeta.
    repeat match goal with
           | |- context [if ?c then _ else _] => destruct c eqn:?; [exact Hu|]
           end.
    cbn. rewrite map_app. apply NoDup_snoc; [exact Hu|].
    intros Hin. apply in_map_iff in Hin as (m & Hk & Hm).
    unfold org_key in Hk. cbn in Hk. inversion Hk as [[Ho Hus]].
    assert (In m (filter (OrganizationsService.member_of orgId userId)
                         (organization_memberships db))) as Hin
        by (apply filter_In; split; [exact Hm | now apply member_of_true]).
    destruct (filter (OrganizationsService.member_of orgId userId)
                     (organization_memberships db)); [destruct Hin | discriminate].
  - rewrite org_updateMember_eq. cbv zeta.
    assert (NoDup (map org_key
              (sql_update (OrganizationsService.member_of orgId userId)
                 (OrganizationsService.with_role role now)
                 (organization_memberships db)))) as Hu'
        by (rewrite sql_update_keys; [exact Hu | reflexivity]).
    repeat match goal with
           | |- context [if ?c then _ else _] => destruct c; try exact Hu; try exact Hu'
           | |- context [match ?l with [] => _ | _ :: _ => _ end] =>
               destruct l; try exact Hu; try exact Hu'
           end.
  - rewrite org_removeMember_eq.
    repeat match goal with
           | |- context [if ?c then _ else _] => destruct c; try exact Hu
           | |- context [match ?l with [] => _ | _ :: _ => _ end] => destruct l; try exact Hu
           end.
    cbn [snd].
    change (organization_memberships (set_organization_memberships ?f ?d))
      with (f (organization_memberships d)).
    change (organization_memberships (set_project_memberships ?f db))
      with (organization_memberships db).
    apply NoDup_map_filter. exact Hu.
Qed.

Lemma sql_update_In {R : Type} (p : R -> bool) (f : R -> R) (t : list R) (r : R) :
  In r (sql_update p f t) -> exists r0, In r0 t /\ (r = r0 \/ r = f r0).
Proof.
  unfold sql_update. intros H. apply in_map_iff in H as (r0 & Hr & Hin).
  exists r0. split; [exact Hin|]. destruct (p r0); auto.
Qed.

Lemma sql_delete_In {R : Type} (p : R -> bool) (t : list R) (r : R) :
  In r (sql_delete p t) -> In r t.
Proof. unfold sql_delete. intros H. now apply filter_In in H. Qed.

Lemma filter_nonempty_In {R : Type} (p : R -> bool) (t : list R) :
  (List.length (filter p t) =? 0)%nat = false -> exists r, In r t /\ p r = true.
Proof.
  destruct (filter p t) as [|r rest] eqn:E; [discriminate|]. intros _.
  exists r. apply filter_In. rewrite E. now left.
Qed.

(** Where the organization rows of the store after a call come from. *)
Lemma org_apply_organizations (op : OrgOp) (db : Db) (o : Organization) :
  In o (organizations (org_apply op db)) ->
  In o (organizations db) \/
  (1 <= OrganizationsService.ownersCount (org_id o) (org_apply op db))%nat.
Proof.
  destruct op; cbn [org_apply].
  - rewrite org_create_eq. cbv zeta.
    repeat match goal with
           | |- context [if ?c then _ else _] => destruct c; [now left|]
           end.
    cbn [snd]. unfold OrganizationsService.ownersCount. cbn.
    intros H. apply in_app_or in H as [H|[<-|[]]]; [now left|right].
    rewrite filter_app, length_app. cbn.
    unfold OrganizationsService.owner_of. cbn. rewrite String.eqb_refl. cbn. lia.
  - rewrite org_addMember_eq. cbv zeta.
    repeat match goal with
           | |- context [if ?c then _ else _] => destruct c; [now left|]
           end.
    now left.
  - rewrite org_updateMember_eq. cbv zeta.
    repeat match goal with
           | |- context [if ?c then _ else _] => destruct c; try (now left)
           | |- context [match ?l with [] => _ | _ :: _ => _ end] =>
               destruct l; try (now left)
           end.
  - rewrite org_removeMember_eq.
    repeat match goal with
           | |- context [if ?c then _ else _] => destruct c; try (now left)
           | |- context [match ?l with [] => _ | _ :: _ => _ end] =>
               destruct l; try (now left)
           end.
Qed.

(** Where the membership rows of the store after a call come from. *)
Lemma org_apply_memberships (op : OrgOp) (db : Db) (m : OrgMembership) :
  In m (organization_memberships (org_apply op db)) ->
  (exists m0, In m0 (organization_memberships db) /\ om_org_id m0 = om_org_id m) \/
  (exists o, In o (organizations db) /\ org_id o = om_org_id m) \/
  (1 <= OrganizationsService.ownersCount (om_org_id m) (org_apply op db))%nat.
Proof.
  assert (forall db', In m (organization_memberships db') ->
            organization_memberships db' = organization_memberships db ->
            exists m0, In m0 (organization_memberships db) /\ om_org_id m0 = om_org_id m)
    as Same by (intros db' H E; rewrite E in H; eauto).
  destruct op; cbn [org_apply].
  - rewrite org_create_eq. cbv zeta.
    repeat match goal with
           | |- context [if ?c then _ else _] =>
               destruct c; [intros H; left; now apply (Same _ H)|]
           end.
    cbn [snd]. unfold OrganizationsService.ownersCount. cbn.
    intros H. apply in_app_or in H as [H|[<-|[]]]; [left; eauto|right; right].
    rewrite filter_app, length_app. cbn.
    unfold OrganizationsService.owner_of. cbn. rewrite String.eqb_refl. cbn. lia.
  - rewrite org_addMember_eq. cbv zeta.
    destruct (falsy userId); [intros H; left; now apply (Same _ H)|].
    destruct (negb _); [intros H; left; now apply (Same _ H)|].
    destruct (_ =? 0)%nat; [intros H; left; now apply (Same _ H)|].
    destruct (_ =? 0)%nat eqn:Eo; [intros H; left; now apply (Same _ H)|].
    destruct (0 <? _)%nat; [intros H; left; now apply (Same _ H)|].
    cbn. intros H. apply in_app_or in H as [H|[<-|[]]]; [left; eauto|right; left].
    apply filter_nonempty_In in Eo as (o & Ho & Hid). apply String.eqb_eq in Hid.
    exists o. cbn. auto.
  - rewrite org_updateMember_eq. cbv zeta.
    assert (In m (sql_update (OrganizationsService.member_of orgId userId)
                    (OrganizationsService.with_role role now) (organization_memberships db)) ->
            exists m0, In m0 (organization_memberships db) /\ om_org_id m0 = om_org_id m)
      as Upd.
    { intros H. apply sql_update_In in H as (m0 & Hin & [->| ->]); exists m0; auto. }
    repeat match goal with
           | |- context [if ?c then _ else _] =>
               destruct c; try (intros H; left; now apply (Same _ H));
               try (intros H; left; now apply Upd)
           | |- context [match ?l with [] => _ | _ :: _ => _ end] =>
               destruct l; try (intros H; left; now apply (Same _ H));
               try (intros H; left; now apply Upd)
           end.
  - rewrite org_removeMember_eq.
    repeat match goal with
           | |- context [if ?c then _ else _] =>
               destruct c; try (intros H; left; now apply (Same _ H))
           | |- context [match ?l with [] => _ | _ :: _ => _ end] =>
               destruct l; try (intros H; left; now apply (Same _ H))
           end.
    cbn [snd].
    change (organization_memberships (set_organization_memberships ?f ?d))
      with (f (organization_memberships d)).
    change (organization_memberships (set_project_memberships ?f db))
      with (organization_memberships db).
    intros H. apply sql_delete_In in H. left. eauto.
Qed.

(** Every call of the organization membership manager keeps the invariant. *)
Lemma org_apply_invariant (op : OrgOp) (db : Db) :
  org_invariant db ->
  match op with
  | OrgCreate _ _ orgRnd _ _ => org_id_fresh (generateId "org" orgRnd) db
  | _ => True
  end ->
  org_invariant (org_apply op db).
Proof.
  intros (Hu & Ho & Hm) Hf. split; [now apply org_apply_unique|]. split.
  - intros o Hin. apply org_apply_organizations in Hin as [Hin|Hin]; [|exact Hin].
    apply org_apply_owners; auto.
  - intros m Hin.
    apply org_apply_memberships in Hin as [(m0 & Hin & E)|[(o & Hin & E)|Hin]];
      [| |exact Hin]; rewrite <- E; apply org_apply_owners; auto.
Qed.

Lemma org_run_invariant (ops : list OrgOp) (db : Db) :
  org_invariant db -> org_ids_fresh ops db -> org_invariant (org_run ops db).
Proof.
  revert db. induction ops as [|op ops IH]; intros db Hi Hf; [exact Hi|].
  destruct Hf as [Hf Hrest]. cbn. apply IH; [|exact Hrest].
  now apply org_apply_invariant.
Qed.

(** ** Closed forms of the project membership manager *)

Lemma pm_addMember_eq (projectId userId : string) (role : option string) (omRnd : string)
  (now : Z) (db : Db) :
  ProjectMembershipsService.addMember projectId userId role omRnd now db =
  let role' := match role with Some r => r | None => "VIEWER" end in
  if falsy userId then (Err (BusinessLogicError "El ID de usuario es requerido"), db)
  else if negb (includes ProjectMembershipsService.validRoles role') then
    (Err (BusinessLogicError "Rol inválido. Debe ser OWNER, ADMIN, MEMBER o VIEWER"), db)
  else
    match filter (ProjectMembershipsService.live_project projectId) (projects db) with
    | [] => (Err (DatabaseError tx_failed (NotFoundError "Proyecto")), db)
    | project :: _ =>
        let userRows := filter (fun u => (user_id u =? userId)%string) (users db) in
        let existing := filter (OrganizationsService.member_of (prj_org_id project) userId)
                               (organization_memberships db) in
        let orgMembershipId :=
          match existing with
          | [] => generateId "om" omRnd
          | e :: _ => om_id e
          end in
        let db1 :=
          match existing with
          | [] => set_organization_memberships
                    (fun t => t ++ [mkOrgMembership (generateId "om" omRnd)
                                      (prj_org_id project) userId "VIEWER" now now])%list db
          | _ :: _ => db
          end in
        let row := mkProjectMembership projectId userId orgMembershipId role' now now in
        if (List.length userRows =? 0)%nat then
          (Err (DatabaseError tx_failed (NotFoundError "Usuario")), db)
        else
          match filter (ProjectMembershipsService.member_of projectId userId)
                       (project_memberships db) with
          | _ :: _ =>
              (Err (DatabaseError tx_failed
                      (ConflictError "El usuario ya es miembro de este proyecto")), db)
          | [] =>
              (Ok (ProjectMembershipsService.view row userRows),
               set_project_memberships (fun t => t ++ [row])%list db1)
          end
    end.
Proof.
  unfold ProjectMembershipsService.addMember, ProjectMembershipsService.addMember_body.
  cbv zeta.
  destruct (falsy userId); [reflexivity|].
  destruct (negb (includes _ _)); [reflexivity|].
  run_tx.
  destruct (filter _ (projects db)) as [|project ?]; [reflexivity|]. cbn.
  destruct (List.length (filter _ (users db)) =? 0)%nat; [reflexivity|]. cbn.
  destruct (filter (OrganizationsService.member_of _ _) (organization_memberships db));
    cbn;
    destruct (filter (ProjectMembershipsService.member_of projectId userId)
                     (project_memberships db)); reflexivity.
Qed.

Lemma pm_updateMember_eq (projectId userId role : string) (now : Z) (db : Db) :
  ProjectMembershipsService.updateMember projectId userId role now db =
  let hit := ProjectMembershipsService.member_of projectId userId in
  let change := ProjectMembershipsService.with_role role now in
  let db' := set_project_memberships (sql_update hit change) db in
  if falsy role then (Err (BusinessLogicError "El rol es requerido"), db)
  else if negb (includes ProjectMembershipsService.validRoles role) then
    (Err (BusinessLogicError "Rol inválido. Debe ser OWNER, ADMIN, MEMBER o VIEWER"), db)
  else
    match filter hit (project_memberships db) with
    | [] => (Err (DatabaseError tx_failed (NotFoundError "Membresía de proyecto")), db)
    | current :: _ =>
        if negb (role =? "OWNER")%string && (pm_role current =? "OWNER")%string &&
           (ProjectMembershipsService.ownersCount projectId db <=? 1)%nat
        then (Err (DatabaseError tx_failed
                (BusinessLogicError "No se puede cambiar el rol del último propietario")), db)
        else (Ok (ProjectMembershipsService.view (change current)
                    (filter (fun u => (user_id u =? userId)%string) (users db))), db')
    end.
Proof.
  unfold ProjectMembershipsService.updateMember, ProjectMembershipsService.updateMember_body,
    ProjectMembershipsService.promote_body, ProjectMembershipsService.update_role,
    sql_returning.
  cbv zeta.
  destruct (falsy role); [reflexivity|].
  destruct (negb (includes _ role)); [reflexivity|].
  destruct (negb (role =? "OWNER")%string); run_tx.
  - destruct (filter _ (project_memberships db)) as [|current rest] eqn:E;
      [reflexivity|].
    destruct (pm_role current =? "OWNER")%string; cbn.
    + destruct (ProjectMembershipsService.ownersCount projectId db <=? 1)%nat; cbn;
        [reflexivity|].
      rewrite E. reflexivity.
    + rewrite E. reflexivity.
  - destruct (filter _ (project_memberships db)) as [|current rest] eqn:E;
      reflexivity.
Qed.

(** ** The project owner count *)

Lemma pm_owner_of_true projectId m :
  ProjectMembershipsService.owner_of projectId m = true <->
  pm_project_id m = projectId /\ pm_role m = "OWNER".
Proof.
  unfold ProjectMembershipsService.owner_of. rewrite andb_true_iff, !String.eqb_eq. tauto.
Qed.

Lemma pm_member_split (db : Db) (projectId userId : string) (current : ProjectMembership)
  (rest : list ProjectMembership) :
  pm_unique db ->
  filter (ProjectMembershipsService.member_of projectId userId) (project_memberships db)
    = current :: rest ->
  pm_project_id current = projectId /\ pm_user_id current = userId /\
  exists t1 t2,
    project_memberships db = (t1 ++ current :: t2)%list /\
    forall x, In x (t1 ++ t2)%list ->
              ProjectMembershipsService.member_of projectId userId x = false.
Proof.
  intros Hu E.
  assert (In current (filter (ProjectMembershipsService.member_of projectId userId)
                             (project_memberships db))) as Hin
      by (rewrite E; now left).
  apply filter_In in Hin as [Hin Hc]. apply pm_member_of_true in Hc as [Ho Hus].
  split; [exact Ho|]. split; [exact Hus|].
  destruct (unique_split pm_key _ _ Hu Hin) as (t1 & t2 & Heq & Hk).
  exists t1, t2. split; [exact Heq|].
  intros x Hx. destruct (ProjectMembershipsService.member_of projectId userId x) eqn:Ex;
    [|reflexivity].
  apply pm_member_of_true in Ex as [Ho' Hu']. exfalso. apply (Hk x Hx).
  unfold pm_key. now rewrite Ho, Hus, Ho', Hu'.
Qed.

Lemma pm_updateMember_owners (projectId userId role : string) (now : Z) (db : Db)
  (p : string) :
  pm_unique db ->
  (1 <= ProjectMembershipsService.ownersCount p db)%nat ->
  (1 <= ProjectMembershipsService.ownersCount p
          (snd (ProjectMembershipsService.updateMember projectId userId role now db)))%nat.
Proof.
  intros Hu Hpos. rewrite pm_updateMember_eq. cbv zeta.
  destruct (falsy role); [exact Hpos|].
  destruct (negb (includes _ role)); [exact Hpos|].
  destruct (filter _ (project_memberships db)) as [|current rest] eqn:E; [exact Hpos|].
  destruct (pm_member_split _ _ _ _ _ Hu E) as (Ho & Hus & t1 & t2 & Heq & Hx).
  destruct (negb (role =? "OWNER")%string && (pm_role current =? "OWNER")%string &&
            (ProjectMembershipsService.ownersCount projectId db <=? 1)%nat) eqn:G;
    [exact Hpos|].
  cbn [snd]. unfold ProjectMembershipsService.ownersCount in *.
  change (project_memberships (set_project_memberships ?f ?d))
    with (f (project_memberships d)).
  rewrite Heq in *.
  rewrite sql_update_split by (auto; apply pm_member_of_true; auto).
  rewrite count_split in *.
  destruct (ProjectMembershipsService.owner_of p current) eqn:Oc.
  - apply pm_owner_of_true in Oc as [Oo Or].
    assert (p = projectId) as -> by congruence.
    rewrite Or in G. cbn in G.
    destruct (role =? "OWNER")%string eqn:Er.
    + apply String.eqb_eq in Er. subst role.
      replace (ProjectMembershipsService.owner_of projectId
                 (ProjectMembershipsService.with_role "OWNER" now current)) with true; [lia|].
      symmetry. apply pm_owner_of_true. cbn. auto.
    + cbn in G. apply Nat.leb_gt in G.
      assert (ProjectMembershipsService.owner_of projectId current = true) as Oc'
          by (apply pm_owner_of_true; auto).
      rewrite Oc' in G.
      destruct (ProjectMembershipsService.owner_of projectId _); lia.
  - destruct (ProjectMembershipsService.owner_of p _); lia.
Qed.

Lemma pm_removeMember_owners (projectId userId : string) (db : Db) (p : string) :
  pm_unique db ->
  (1 <= ProjectMembershipsService.ownersCount p db)%nat ->
  (1 <= ProjectMembershipsService.ownersCount p
          (snd (ProjectMembershipsService.removeMember projectId userId db)))%nat.
Proof.
  intros Hu Hpos. rewrite pm_removeMember_eq.
  destruct (filter _ (project_memberships db)) as [|current rest] eqn:E;
    [exact Hpos|].
  destruct (pm_member_split _ _ _ _ _ Hu E) as (Ho & Hus & t1 & t2 & Heq & Hx).
  destruct ((pm_role current =? "OWNER")%string &&
            (ProjectMembershipsService.ownersCount projectId db <=? 1)%nat) eqn:G;
    [exact Hpos|].
  cbn [snd]. unfold ProjectMembershipsService.ownersCount in *.
  change (project_memberships (set_project_memberships ?f ?d))
    with (f (project_memberships d)).
  rewrite Heq in *.
  rewrite sql_delete_split by (auto; apply pm_member_of_true; auto).
  rewrite count_split in *. rewrite filter_app, length_app.
  destruct (ProjectMembershipsService.owner_of p current) eqn:Oc; [|lia].
  apply pm_owner_of_true in Oc as [Oo Or].
  assert (p = projectId) as -> by congruence.
  rewrite Or in G. cbn in G. apply Nat.leb_gt in G.
  assert (ProjectMembershipsService.owner_of projectId current = true) as Oc'
      by (apply pm_owner_of_true; auto).
  rewrite Oc' in G. lia.
Qed.

(** The project memberships after [addMember]: the table as it was, or with
    one row appended. *)
Lemma pm_addMember_rows (projectId userId : string) (role : option string) (omRnd : string)
  (now : Z) (db : Db) :
  let db' := snd (ProjectMembershipsService.addMember projectId userId role omRnd now db) in
  project_memberships db' = project_memberships db \/
  (filter (ProjectMembershipsService.member_of projectId userId) (project_memberships db) = []
   /\ exists omId,
      project_memberships db' =
      (project_memberships db ++
       [mkProjectMembership projectId userId omId
          (match role with Some r => r | None => "VIEWER" end) now now])%list).
Proof.
  cbv zeta. rewrite pm_addMember_eq. cbv zeta.
  destruct (falsy userId); [now left|].
  destruct (negb _); [now left|].
  destruct (filter _ (projects db)) as [|project ?]; [now left|].
  destruct (_ =? 0)%nat; [now left|].
  destruct (filter (ProjectMembershipsService.member_of projectId userId)
                   (project_memberships db)) eqn:E; [|now left].
  right. split; [reflexivity|].
  destruct (filter (OrganizationsService.member_of _ _) (organization_memberships db));
    eexists; reflexivity.
Qed.

Lemma pm_addMember_owners (projectId userId : string) (role : option string) (omRnd : string)
  (now : Z) (db : Db) (p : string) :
  (ProjectMembershipsService.ownersCount p db <=
   ProjectMembershipsService.ownersCount p
     (snd (ProjectMembershipsService.addMember projectId userId role omRnd now db)))%nat.
Proof.
  unfold ProjectMembershipsService.ownersCount.
  destruct (pm_addMember_rows projectId userId role omRnd now db) as [E|(_ & omId & E)];
    cbv zeta in E; rewrite E; [apply Nat.le_refl|].
  rewrite filter_app, length_app. lia.
Qed.

Lemma pm_apply_owners (op : PmOp) (db : Db) (p : string) :
  pm_unique db ->
  (1 <= ProjectMembershipsService.ownersCount p db)%nat ->
  (1 <= ProjectMembershipsService.ownersCount p (pm_apply op db))%nat.
Proof.
  intros Hu Hpos. destruct op; cbn [pm_apply].
  - eapply Nat.le_trans; [exact Hpos | apply pm_addMember_owners].
  - now apply pm_updateMember_owners.
  - now apply pm_removeMember_owners.
Qed.

Lemma pm_apply_unique (op : PmOp) (db : Db) :
  pm_unique db -> pm_unique (pm_apply op db).
Proof.
  unfold pm_unique. intros Hu. destruct op; cbn [pm_apply].
  - destruct (pm_addMember_rows projectId userId role omRnd now db) as [E|(Hno & omId & E)];
      cbv zeta in E; rewrite E; [exact Hu|].
    rewrite map_app. apply NoDup_snoc; [exact Hu|].
    intros Hin. apply in_map_iff in Hin as (m & Hk & Hm).
    unfold pm_key in Hk. cbn in Hk. inversion Hk as [[Ho Hus]].
    assert (ProjectMembershipsService.member_of projectId userId m = false) as Hf
        by (eapply filter_empty_none; eauto).
    assert (ProjectMembershipsService.member_of projectId userId m = true) as Ht
        by (now apply pm_member_of_true).
    congruence.
  - rewrite pm_updateMember_eq. cbv zeta.
    assert (NoDup (map pm_key
              (sql_update (ProjectMembershipsService.member_of projectId userId)
                 (ProjectMembershipsService.with_role role now)
                 (project_memberships db)))) as Hu'
        by (rewrite sql_update_keys; [exact Hu | reflexivity]).
    repeat match goal with
           | |- context [if ?c then _ else _] => destruct c; try exact Hu; try exact Hu'
           | |- context [match ?l with [] => _ | _ :: _ => _ end] =>
               destruct l; try exact Hu; try exact Hu'
           end.
  - rewrite pm_removeMember_eq.
    repeat match goal with
           | |- context [if ?c then _ else _] => destruct c; try exact Hu
           | |- context [match ?l with [] => _ | _ :: _ => _ end] => destruct l; try exact Hu
           end.
    cbn [snd].
    change (project_memberships (set_project_memberships ?f ?d))
      with (f (project_memberships d)).
    apply NoDup_map_filter. exact Hu.
Qed.

Lemma pm_run_owners (ops : list PmOp) (db : Db) (p : string) :
  pm_unique db ->
  (1 <= ProjectMembershipsService.ownersCount p db)%nat ->
  pm_unique (pm_run ops db) /\
  (1 <= ProjectMembershipsService.ownersCount p (pm_run ops db))%nat.
Proof.
  revert db. induction ops as [|op ops IH]; intros db Hu Hpos; [split; assumption|].
  cbn. apply IH; [now apply pm_apply_unique | now apply pm_apply_owners].
Qed.

Lemma valid_role_not_falsy (roles : list string) (role : string) :
  includes roles role = true -> In role roles.
Proof.
  unfold includes. intros H. apply existsb_exists in H as (x & Hx & E).
  apply String.eqb_eq in E. now subst.
Qed.

Lemma org_unique_filter (db : Db) (m : OrgMembership) :
  org_unique db -> In m (organization_memberships db) ->
  filter (OrganizationsService.member_of (om_org_id m) (om_user_id m))
         (organization_memberships db) = [m].
Proof.
  intros Hu Hin.
  destruct (unique_split org_key _ _ Hu Hin) as (t1 & t2 & Heq & Hk).
  assert (forall x, In x (t1 ++ t2)%list ->
            OrganizationsService.member_of (om_org_id m) (om_user_id m) x = false) as Hx.
  { intros x Hx. destruct (OrganizationsService.member_of _ _ x) eqn:E; [|reflexivity].
    apply member_of_true in E as [E1 E2]. exfalso. apply (Hk x Hx).
    unfold org_key. now rewrite E1, E2. }
  rewrite Heq, filter_app. cbn.
  replace (OrganizationsService.member_of (om_org_id m) (om_user_id m) m) with true
    by (symmetry; now apply member_of_true).
  rewrite !filter_none; [reflexivity| |]; intros; apply Hx, in_or_app; auto.
Qed.

(** The owner invariant of the organization manager.  Starting from a store
    that satisfies the organization invariant (the empty store does) and
    along any sequence of [create], [addMember], [updateMember] and
    [removeMember] in which the identifiers drawn for new organizations are
    fresh, every organization that has a membership has at least one OWNER
    membership.  [create] succeeds for a name that is not blank and a user
    that exists, and inserts the organization together with its OWNER
    membership; demoting or removing an OWNER while the organization counts
    one OWNER makes the transaction throw the business-rule error, which the
    gateway hands to the caller as the cause of its [DatabaseError], and the
    store is left as it was. *)
Lemma org_owner_count_invariant (db0 : Db) (ops : list OrgOp) :
  org_invariant db0 -> org_ids_fresh ops db0 ->
  let db := org_run ops db0 in
  (forall m, In m (organization_memberships db) ->
     (1 <= OrganizationsService.ownersCount (om_org_id m) db)%nat) /\
  (forall name userId orgRnd omRnd now,
     falsy name || falsy (trim name) = false -> falsy userId = false ->
     filter (fun u => (user_id u =? userId)%string) (users db) <> [] ->
     exists o db',
       OrganizationsService.create name userId orgRnd omRnd now db = (Ok o, db') /\
       o = mkOrganization (generateId "org" orgRnd) (trim name) now now /\
       organizations db' = (organizations db ++ [o])%list /\
       organization_memberships db' =
         (organization_memberships db ++
          [mkOrgMembership (generateId "om" omRnd) (org_id o) userId "OWNER" now now])%list) /\
  (forall m, In m (organization_memberships db) -> om_role m = "OWNER" ->
     OrganizationsService.ownersCount (om_org_id m) db = 1%nat ->
     (forall role now,
        includes OrganizationsService.validRoles role = true -> role <> "OWNER" ->
        OrganizationsService.updateMember (om_org_id m) (om_user_id m) role now db =
        (Err (DatabaseError tx_failed
                (BusinessLogicError "No se puede cambiar el rol del último propietario")),
         db)) /\
     OrganizationsService.removeMember (om_org_id m) (om_user_id m) db =
     (Err (DatabaseError tx_failed
             (BusinessLogicError "No se puede eliminar al último propietario")), db)).
Proof.
  intros Hi Hf db.
  destruct (org_run_invariant ops db0 Hi Hf) as (Hu & Ho & Hm). fold db in Hu, Ho, Hm.
  split; [exact Hm|]. split.
  - intros name userId orgRnd omRnd now Hname Huser Hrow. rewrite org_create_eq. cbv zeta.
    rewrite Hname, Huser.
    destruct (filter (fun u => (user_id u =? userId)%string) (users db)) as [|u us];
      [now elim Hrow|].
    cbn [List.length Nat.eqb]. eexists. eexists. repeat split.
  - intros m Hin Hrole Hone. pose proof (org_unique_filter db m Hu Hin) as E. split.
    + intros role now Hvalid Hno. rewrite org_updateMember_eq. cbv zeta.
      apply valid_role_not_falsy in Hvalid as Hmem.
      assert (falsy role = false) as ->.
      { unfold falsy. apply String.eqb_neq. intros ->. cbn in Hmem.
        repeat destruct Hmem as [Hmem|Hmem]; try discriminate; auto. }
      rewrite Hvalid, E, Hrole, Hone. cbn [negb].
      apply String.eqb_neq in Hno. rewrite Hno. reflexivity.
    + rewrite org_removeMember_eq, E, Hrole, Hone. reflexivity.
Qed.

Lemma org_invariant_people : org_invariant Sample.people.
Proof.
  split; [constructor|]. split; intros x [].
Defined.

Lemma org_owner_count_invariant_witness :
  org_invariant Sample.people /\ org_ids_fresh Sample.acme_ops Sample.people /\
  forall m,
    In m (organization_memberships (org_run Sample.acme_ops Sample.people)) ->
    (1 <= OrganizationsService.ownersCount (om_org_id m)
            (org_run Sample.acme_ops Sample.people))%nat.
Proof.
  assert (org_ids_fresh Sample.acme_ops Sample.people) as Hf.
  { cbn. repeat split. intros m []. }
  split; [exact org_invariant_people|]. split; [exact Hf|].
  exact (proj1 (org_owner_count_invariant Sample.people Sample.acme_ops
                  org_invariant_people Hf)).
Defined.

(** The scenario of the organization Acme: Ana creates it, Bo joins as ADMIN,
    Ana cannot step down while she is the only OWNER, and can once Bo has
    been promoted. *)
Example acme_scenario :
  let db1 := snd (OrganizationsService.addMember "corg1" "usr_bo" (Some "ADMIN") "m3" 11
                    Sample.acme) in
  let db2 := snd (OrganizationsService.updateMember "corg1" "usr_bo" "OWNER" 13 db1) in
  fst (OrganizationsService.updateMember "corg1" "usr_ana" "VIEWER" 12 db1)
    = Err (DatabaseError tx_failed
             (BusinessLogicError "No se puede cambiar el rol del último propietario")) /\
  fst (OrganizationsService.updateMember "corg1" "usr_ana" "VIEWER" 14 db2)
    = Ok (mkOrgMembership "om_m1" "corg1" "usr_ana" "VIEWER" 10 14) /\
  fst (OrganizationsService.addMember "corg1" "usr_bo" None "m9" 15 db2)
    = Err (DatabaseError tx_failed
             (ConflictError "El usuario ya es miembro de esta organización")).
Proof. cbv zeta. repeat split; vm_compute; reflexivity. Qed.

(** C1. Ana is the only OWNER of Acme.  Demoting her and removing her are
    both refused and the store is left as it was, so Acme keeps its OWNER;
    but what the caller receives is not the business-rule error: it is the
    gateway's [DatabaseError] with the generic message and status 500, and
    the business-rule error (status 400) is only its cause. *)
Theorem sole_owner_rejection_error :
  OrganizationsService.ownersCount "corg1" Sample.acme = 1%nat /\
  (exists e,
     OrganizationsService.updateMember "corg1" "usr_ana" "VIEWER" 12 Sample.acme
       = (Err e, Sample.acme) /\
     e = DatabaseError "Error al ejecutar transacción"
           (BusinessLogicError "No se puede cambiar el rol del último propietario") /\
     error_code e = "DATABASE_ERROR" /\ error_status e = 500 /\
     error_message e = "Error al ejecutar transacción") /\
  (exists e,
     OrganizationsService.removeMember "corg1" "usr_ana" Sample.acme
       = (Err e, Sample.acme) /\
     e = DatabaseError "Error al ejecutar transacción"
           (BusinessLogicError "No se puede eliminar al último propietario") /\
     error_code e = "DATABASE_ERROR" /\ error_status e = 500 /\
     error_message e = "Error al ejecutar transacción") /\
  error_code (BusinessLogicError "No se puede eliminar al último propietario")
    = "BUSINESS_LOGIC_ERROR" /\
  error_status (BusinessLogicError "No se puede eliminar al último propietario") = 400.
Proof.
  split; [reflexivity|].
  split; [eexists; split; [vm_compute; reflexivity|repeat split]|].
  split; [eexists; split; [vm_compute; reflexivity|repeat split]|].
  split; reflexivity.
Qed.

Lemma pm_owners_of_members (projectId : string) (db : Db) :
  ProjectMembershipsService.ownersCount projectId db =
  List.length (filter (fun m => (pm_role m =? "OWNER")%string)
                      (members_of_project projectId db)).
Proof.
  unfold ProjectMembershipsService.ownersCount, members_of_project.
  rewrite <- filter_andb. reflexivity.
Qed.

Lemma org_owners_of_members (orgId : string) (db : Db) :
  OrganizationsService.ownersCount orgId db =
  List.length (filter (fun m => (om_role m =? "OWNER")%string)
                      (filter (fun m => (om_org_id m =? orgId)%string)
                              (organization_memberships db))).
Proof.
  unfold OrganizationsService.ownersCount.
  rewrite <- filter_andb. reflexivity.
Qed.

(** C2, as stated, fails: Bo joins the memberless project Site as a VIEWER
    and the project then has a membership and no OWNER. *)
Lemma pm_first_member_counterexample :
  let db' := snd (ProjectMembershipsService.addMember
                    "cprj1" "usr_bo" (Some "VIEWER") "m4" 31 Sample.site) in
  members_of_project "cprj1" Sample.site = [] /\
  members_of_project "cprj1" db' <> [] /\
  ~ (1 <= ProjectMembershipsService.ownersCount "cprj1" db')%nat.
Proof.
  cbv zeta. split; [reflexivity|]. split.
  - vm_compute. discriminate.
  - vm_compute. intros H. inversion H.
Qed.

(** C2, amended. In a store with at most one membership per project and
    user, a project that has an OWNER membership still has one after any
    sequence of [addMember], [updateMember] and [removeMember] of the project
    membership manager.  [addMember] stores the role it is given: the first
    member of a memberless project is the project's only membership, and it
    is an OWNER exactly when the role passed is OWNER. *)
Theorem pm_owner_count_kept (db0 : Db) (ops : list PmOp) (projectId : string) :
  pm_unique db0 ->
  (1 <= ProjectMembershipsService.ownersCount projectId db0)%nat ->
  (1 <= ProjectMembershipsService.ownersCount projectId (pm_run ops db0))%nat /\
  (forall db userId role omRnd now v db',
     members_of_project projectId db = [] ->
     ProjectMembershipsService.addMember projectId userId role omRnd now db = (Ok v, db') ->
     let role' := match role with Some r => r | None => "VIEWER" end in
     (exists omId, members_of_project projectId db' =
                   [mkProjectMembership projectId userId omId role' now now]) /\
     ProjectMembershipsService.ownersCount projectId db' =
       (if (role' =? "OWNER")%string then 1 else 0)%nat).
Proof.
  intros Hu Hpos. split; [now apply pm_run_owners|].
  intros db userId role omRnd now v db' Hnone Hadd. cbv zeta.
  pose proof (pm_addMember_rows projectId userId role omRnd now db) as Hrows.
  cbv zeta in Hrows. rewrite Hadd in Hrows. cbn [snd] in Hrows.
  assert (exists omId, project_memberships db' =
            (project_memberships db ++
             [mkProjectMembership projectId userId omId
                (match role with Some r => r | None => "VIEWER" end) now now])%list)
    as (omId & E).
  { destruct Hrows as [Same|(_ & omId & E)]; [|eauto]. exfalso.
    revert Hadd. rewrite pm_addMember_eq. cbv zeta.
    repeat match goal with
           | |- context [if ?c then _ else _] => destruct c; try discriminate
           | |- context [match ?l with [] => _ | _ :: _ => _ end] =>
               destruct l; try discriminate
           end;
      intros H; inversion H; subst db'; cbn in Same;
      apply (f_equal (@List.length _)) in Same; rewrite length_app in Same;
      cbn in Same; lia. }
  assert (members_of_project projectId db' =
          [mkProjectMembership projectId userId omId
             (match role with Some r => r | None => "VIEWER" end) now now]) as Hm.
  { unfold members_of_project in *. rewrite E, filter_app, Hnone. cbn.
    now rewrite String.eqb_refl. }
  split; [eauto|].
  rewrite pm_owners_of_members, Hm. cbn.
  destruct (_ =? "OWNER")%string; reflexivity.
Qed.

Lemma pm_owner_count_kept_witness :
  pm_unique Sample.site_owned /\
  (1 <= ProjectMembershipsService.ownersCount "cprj1" Sample.site_owned)%nat /\
  (1 <= ProjectMembershipsService.ownersCount "cprj1"
          (pm_run Sample.site_ops Sample.site_owned))%nat.
Proof.
  assert (pm_unique Sample.site_owned) as Hu.
  { unfold pm_unique. vm_compute. constructor; [intros []|constructor]. }
  assert (1 <= ProjectMembershipsService.ownersCount "cprj1" Sample.site_owned)%nat as Hp.
  { vm_compute. constructor. }
  split; [exact Hu|]. split; [exact Hp|].
  exact (proj1 (pm_owner_count_kept Sample.site_owned Sample.site_ops "cprj1" Hu Hp)).
Defined.

Lemma sql_delete_clears {R : Type} (p : R -> bool) (t : list R) :
  filter p (sql_delete p t) = [].
Proof.
  apply filter_none. intros r Hr. unfold sql_delete in Hr.
  apply filter_In in Hr as [_ Hr]. now destruct (p r).
Qed.

(** C5, as stated, fails: Ana is the only member of Acme and of the project
    Site, an OWNER of both; removing her is rejected both times and her
    memberships stay. *)
Lemma sole_owner_removal_counterexample :
  (filter (fun m => (om_org_id m =? "corg1")%string)
          (organization_memberships Sample.acme)
   = [mkOrgMembership "om_m1" "corg1" "usr_ana" "OWNER" 10 10] /\
   fst (OrganizationsService.removeMember "corg1" "usr_ana" Sample.acme) <> Ok true /\
   snd (OrganizationsService.removeMember "corg1" "usr_ana" Sample.acme) = Sample.acme) /\
  (members_of_project "cprj1" Sample.site_owned
   = [mkProjectMembership "cprj1" "usr_ana" "om_m1" "OWNER" 30 30] /\
   fst (ProjectMembershipsService.removeMember "cprj1" "usr_ana" Sample.site_owned)
     <> Ok true /\
   snd (ProjectMembershipsService.removeMember "cprj1" "usr_ana" Sample.site_owned)
     = Sample.site_owned).
Proof.
  repeat split; try (vm_compute; reflexivity); vm_compute; discriminate.
Qed.

(** C5, amended. [removeMember] of an organization, and of a project,
    rejects the removal of an OWNER whenever the OWNER count is at most one,
    and leaves the store as it was; this includes the sole remaining
    membership, which therefore cannot be removed.  Any other existing
    membership (not an OWNER, or an OWNER among at least two) is removed. *)
Theorem removeMember_owner_guard :
  (forall db orgId userId current rest,
     filter (OrganizationsService.member_of orgId userId) (organization_memberships db)
       = current :: rest ->
     if (om_role current =? "OWNER")%string &&
        (OrganizationsService.ownersCount orgId db <=? 1)%nat
     then exists e, OrganizationsService.removeMember orgId userId db = (Err e, db)
     else exists db',
          OrganizationsService.removeMember orgId userId db = (Ok true, db') /\
          filter (OrganizationsService.member_of orgId userId)
                 (organization_memberships db') = []) /\
  (forall db projectId userId current rest,
     filter (ProjectMembershipsService.member_of projectId userId) (project_memberships db)
       = current :: rest ->
     if (pm_role current =? "OWNER")%string &&
        (ProjectMembershipsService.ownersCount projectId db <=? 1)%nat
     then exists e, ProjectMembershipsService.removeMember projectId userId db = (Err e, db)
     else exists db',
          ProjectMembershipsService.removeMember projectId userId db = (Ok true, db') /\
          filter (ProjectMembershipsService.member_of projectId userId)
                 (project_memberships db') = []) /\
  (forall db orgId m,
     filter (fun x => (om_org_id x =? orgId)%string) (organization_memberships db) = [m] ->
     om_role m = "OWNER" ->
     exists e, OrganizationsService.removeMember orgId (om_user_id m) db = (Err e, db)) /\
  (forall db projectId m,
     members_of_project projectId db = [m] ->
     pm_role m = "OWNER" ->
     exists e,
       ProjectMembershipsService.removeMember projectId (pm_user_id m) db = (Err e, db)).
Proof.
  split; [|split; [|split]].
  - intros db orgId userId current rest E. rewrite org_removeMember_eq, E.
    destruct (_ && _); [eauto|].
    eexists. split; [reflexivity|]. cbn. apply sql_delete_clears.
  - intros db projectId userId current rest E. rewrite pm_removeMember_eq, E.
    destruct (_ && _); [eauto|].
    eexists. split; [reflexivity|]. cbn. apply sql_delete_clears.
  - intros db orgId m E Hrole. rewrite org_removeMember_eq.
    unfold OrganizationsService.member_of. rewrite filter_andb, E. cbn.
    rewrite String.eqb_refl, Hrole, org_owners_of_members, E. cbn.
    rewrite Hrole. cbn. eauto.
  - intros db projectId m E Hrole. rewrite pm_removeMember_eq.
    unfold ProjectMembershipsService.member_of. rewrite filter_andb.
    fold (members_of_project projectId db). rewrite E. cbn.
    rewrite String.eqb_refl, Hrole, pm_owners_of_members, E. cbn.
    rewrite Hrole. cbn. eauto.
Qed.

Lemma removeMember_owner_guard_witness :
  filter (fun x => (om_org_id x =? "corg1")%string) (organization_memberships Sample.acme)
    = [mkOrgMembership "om_m1" "corg1" "usr_ana" "OWNER" 10 10] /\
  exists e, OrganizationsService.removeMember "corg1" "usr_ana" Sample.acme
            = (Err e, Sample.acme).
Proof.
  assert (filter (fun x => (om_org_id x =? "corg1")%string)
                 (organization_memberships Sample.acme)
          = [mkOrgMembership "om_m1" "corg1" "usr_ana" "OWNER" 10 10]) as E
      by reflexivity.
  split; [exact E|].
  exact (proj1 (proj2 (proj2 removeMember_owner_guard)) Sample.acme "corg1" _ E eq_refl).
Defined.

(** C6. [addMember] of the project membership manager, for an existing user
    and an existing project that is not soft-deleted, when the user has no
    membership in the project's organization: a successful call appends
    exactly one organization membership, a VIEWER, and exactly one project
    membership that refers to it, and changes nothing else; a call that fails,
    for whatever reason, leaves the store as it was; the call succeeds
    whenever the user id is non-empty, the role is one of the four project
    roles and the user is not yet a member of the project; and when the user
    already is a member, the conflict is raised after the organization
    membership has been inserted, and the rollback removes it again. *)
Theorem addMember_cascade (db : Db) (projectId userId : string) (role : option string)
  (omRnd : string) (now : Z) (project : Project) :
  hd_error (filter (ProjectMembershipsService.live_project projectId) (projects db))
    = Some project ->
  filter (fun u => (user_id u =? userId)%string) (users db) <> [] ->
  filter (OrganizationsService.member_of (prj_org_id project) userId)
         (organization_memberships db) = [] ->
  let role' := match role with Some r => r | None => "VIEWER" end in
  let om := mkOrgMembership (generateId "om" omRnd) (prj_org_id project) userId
                            "VIEWER" now now in
  let pm := mkProjectMembership projectId userId (om_id om) role' now now in
  match ProjectMembershipsService.addMember projectId userId role omRnd now db with
  | (Ok v, db') =>
      db' = mkDb (users db) (organizations db)
                 (organization_memberships db ++ [om])%list (projects db)
                 (project_memberships db ++ [pm])%list
                 (api_keys db) (accounts db) (sessions db) /\
      v = ProjectMembershipsService.view pm
            (filter (fun u => (user_id u =? userId)%string) (users db))
  | (Err _, db') => db' = db
  end /\
  (falsy userId = false ->
   includes ProjectMembershipsService.validRoles role' = true ->
   filter (ProjectMembershipsService.member_of projectId userId) (project_memberships db)
     = [] ->
   exists v db',
     ProjectMembershipsService.addMember projectId userId role omRnd now db = (Ok v, db')) /\
  (falsy userId = false ->
   includes ProjectMembershipsService.validRoles role' = true ->
   filter (ProjectMembershipsService.member_of projectId userId) (project_memberships db)
     <> [] ->
   ProjectMembershipsService.addMember projectId userId role omRnd now db =
   (Err (DatabaseError tx_failed
           (ConflictError "El usuario ya es miembro de este proyecto")), db) /\
   ProjectMembershipsService.addMember_body projectId userId role' omRnd now db =
   Err (ConflictError "El usuario ya es miembro de este proyecto")).
Proof.
  intros Hp Hu Hom. cbv zeta. rewrite pm_addMember_eq. cbv zeta.
  destruct (filter (ProjectMembershipsService.live_project projectId) (projects db))
    as [|p ps] eqn:Eprj; [discriminate|].
  cbn in Hp. inversion Hp; subst p. rewrite Hom.
  destruct (filter (fun u => (user_id u =? userId)%string) (users db)) as [|u us] eqn:Eu;
    [now destruct Hu|].
  cbn [List.length Nat.eqb].
  split; [|split].
  - destruct (falsy userId); [reflexivity|].
    destruct (negb _); [reflexivity|].
    destruct (filter (ProjectMembershipsService.member_of projectId userId)
                     (project_memberships db)); [|reflexivity].
    split; reflexivity.
  - intros -> -> ->. cbn [negb]. eauto.
  - intros -> -> Hpm. cbn [negb].
    destruct (filter (ProjectMembershipsService.member_of projectId userId)
                     (project_memberships db)) as [|pm0 pms] eqn:Epm; [now destruct Hpm|].
    split; [reflexivity|].
    unfold ProjectMembershipsService.addMember_body. run_tx.
    rewrite Eprj. cbn. rewrite Eu. cbn. rewrite Hom. cbn. rewrite Epm. reflexivity.
Qed.

Lemma addMember_cascade_witness :
  exists v db',
    ProjectMembershipsService.addMember "cprj1" "usr_bo" (Some "MEMBER") "m4" 31 Sample.site
      = (Ok v, db') /\
    organization_memberships db' =
      [mkOrgMembership "om_m1" "corg1" "usr_ana" "OWNER" 10 10;
       mkOrgMembership "om_m4" "corg1" "usr_bo" "VIEWER" 31 31] /\
    project_memberships db' = [mkProjectMembership "cprj1" "usr_bo" "om_m4" "MEMBER" 31 31].
Proof.
  pose proof (addMember_cascade Sample.site "cprj1" "usr_bo" (Some "MEMBER") "m4" 31
                (mkProject "cprj1" "Site" "corg1" 20 20 None)
                eq_refl ltac:(discriminate) eq_refl) as [H _].
  cbv zeta in H.
  destruct (ProjectMembershipsService.addMember "cprj1" "usr_bo" (Some "MEMBER") "m4" 31
              Sample.site) as [[v|e] db'] eqn:E.
  - destruct H as [Hdb Hv]. exists v, db'. split; [reflexivity|]. subst db'.
    split; reflexivity.
  - exfalso. vm_compute in E. discriminate.
Defined.

(** ** Deleting a user *)

Lemma users_delete_eq (id : string) (db : Db) :
  UsersService.delete id db =
  let count := List.length (filter (fun m => (om_user_id m =? id)%string)
                                   (organization_memberships db)) in
  if (0 <? count)%nat then
    (Err (DatabaseError tx_failed
            (BusinessLogicError
               ("No se puede eliminar el usuario porque pertenece a "
                ++ UsersService.string_of_nat count ++ " organización(es). "
                ++ "Elimine primero las membresías del usuario."))), db)
  else
    match filter (fun u => (user_id u =? id)%string) (users db) with
    | [] => (Err (DatabaseError tx_failed (NotFoundError "Usuario")), db)
    | _ :: _ =>
        (Ok true,
         set_users (sql_delete (fun u => (user_id u =? id)%string))
           (set_sessions (sql_delete (fun x => (ses_user_id x =? id)%string))
              (set_accounts (sql_delete (fun a => (acc_user_id a =? id)%string)) db)))
    end.
Proof.
  unfold UsersService.delete, UsersService.delete_body. cbv zeta.
  unfold transaction, bind, query, exec, throw, ret.
  destruct (0 <? _)%nat; [reflexivity|]. cbn.
  destruct (filter _ (users db)); reflexivity.
Qed.

(** The guard of [delete]: a user with memberships is kept, with the linked
    accounts and sessions; a user without any is removed together with them. *)
Lemma users_delete_guard (id : string) (db : Db) :
  match UsersService.delete id db with
  | (Ok _, db') =>
      filter (fun m => (om_user_id m =? id)%string) (organization_memberships db) = [] /\
      filter (fun u => (user_id u =? id)%string) (users db') = [] /\
      filter (fun a => (acc_user_id a =? id)%string) (accounts db') = [] /\
      filter (fun x => (ses_user_id x =? id)%string) (sessions db') = []
  | (Err _, db') => db' = db
  end.
Proof.
  rewrite users_delete_eq. cbv zeta.
  destruct (filter _ (organization_memberships db)) eqn:E; cbn; [|reflexivity].
  destruct (filter _ (users db)); [reflexivity|].
  cbn. repeat split; apply sql_delete_clears.
Qed.

(** C7. Ana belongs to one organization.  [delete] keeps her row, but what
    the caller receives is the gateway's [DatabaseError] with the generic
    message and status 500; the business-rule error that names the count is
    only its cause. *)
Theorem delete_user_with_membership_error :
  exists e,
    UsersService.delete "usr_ana" Sample.acme = (Err e, Sample.acme) /\
    e = DatabaseError "Error al ejecutar transacción"
          (BusinessLogicError
             ("No se puede eliminar el usuario porque pertenece a 1 organización(es). "
              ++ "Elimine primero las membresías del usuario.")) /\
    error_code e = "DATABASE_ERROR" /\ error_status e = 500 /\
    error_message e = "Error al ejecutar transacción".
Proof.
  eexists. split; [vm_compute; reflexivity|]. repeat split.
Qed.

(** ** Batches *)

Lemma pm_addMember_ok (projectId userId : string) (role : option string) (omRnd : string)
  (now : Z) (db db1 : Db) (v : MemberView) :
  ProjectMembershipsService.addMember projectId userId role omRnd now db = (Ok v, db1) ->
  exists omId,
    let row := mkProjectMembership projectId userId omId
                 (match role with Some r => r | None => "VIEWER" end) now now in
    v = ProjectMembershipsService.view row
          (filter (fun u => (user_id u =? userId)%string) (users db)) /\
    project_memberships db1 = (project_memberships db ++ [row])%list.
Proof.
  rewrite pm_addMember_eq. cbv zeta.
  repeat match goal with
         | |- context [if ?c then _ else _] => destruct c; try discriminate
         | |- context [match ?l with [] => _ | _ :: _ => _ end] =>
             destruct l; try discriminate
         end;
    intros H; inversion H; subst; eexists; split; reflexivity.
Qed.

Lemma pm_addMember_grows (projectId userId : string) (role : option string) (omRnd : string)
  (now : Z) (db : Db) (row : ProjectMembership) :
  In row (project_memberships db) ->
  In row (project_memberships
            (snd (ProjectMembershipsService.addMember projectId userId role omRnd now db))).
Proof.
  intros Hin.
  destruct (pm_addMember_rows projectId userId role omRnd now db) as [E|(_ & omId & E)];
    cbv zeta in E; rewrite E; [exact Hin|].
  apply in_or_app. now left.
Qed.

(** A failed [addMember] leaves the store as it was. *)
Lemma pm_addMember_err (projectId userId : string) (role : option string) (omRnd : string)
  (now : Z) (db db1 : Db) (e : AppError) :
  ProjectMembershipsService.addMember projectId userId role omRnd now db = (Err e, db1) ->
  db1 = db.
Proof.
  rewrite pm_addMember_eq. cbv zeta.
  repeat match goal with
         | |- context [if ?c then _ else _] => destruct c
         | |- context [match ?l with [] => _ | _ :: _ => _ end] => destruct l
         end;
    intros H; inversion H; reflexivity.
Qed.

(** The messages [addMember] can fail with once the user id is there: the
    role validation, and the gateway's message for every failure inside the
    transaction. *)
Lemma pm_addMember_reason (projectId userId : string) (role : option string)
  (omRnd : string) (now : Z) (db db1 : Db) (e : AppError) :
  falsy userId = false ->
  ProjectMembershipsService.addMember projectId userId role omRnd now db = (Err e, db1) ->
  In (error_message e)
     ["Rol inválido. Debe ser OWNER, ADMIN, MEMBER o VIEWER"; tx_failed].
Proof.
  intros Hf. rewrite pm_addMember_eq. cbv zeta. rewrite Hf.
  repeat match goal with
         | |- context [if ?c then _ else _] => destruct c
         | |- context [match ?l with [] => _ | _ :: _ => _ end] => destruct l
         end;
    intros H; inversion H; cbn; tauto.
Qed.

Lemma batch_loop_grows (projectId : string) (members : list BatchMember) (i : nat)
  (rnd : nat -> string) (clock : nat -> Z) (acc : BatchResult) (db : Db)
  (row : ProjectMembership) :
  In row (project_memberships db) ->
  In row (project_memberships
            (snd (ProjectMembershipsService.batch_loop projectId members i rnd clock acc db))).
Proof.
  revert i acc db. induction members as [|m rest IH]; intros i acc db Hin; [exact Hin|].
  cbn [ProjectMembershipsService.batch_loop].
  destruct (falsy (bm_userId m)); [now apply IH|].
  destruct (ProjectMembershipsService.addMember _ _ _ _ _ db) as [[v|e] db1] eqn:E;
    apply IH;
    pose proof (pm_addMember_grows projectId (bm_userId m)
                  (Some (match bm_role m with Some r => r | None => "VIEWER" end))
                  (rnd i) (clock i) db row Hin) as G;
    rewrite E in G; exact G.
Qed.

Lemma batch_loop_spec (projectId : string) (members : list BatchMember) (i : nat)
  (rnd : nat -> string) (clock : nat -> Z) (acc : BatchResult) (db : Db) :
  exists vs es ok failed,
    let '(r, db') := ProjectMembershipsService.batch_loop projectId members i rnd clock acc db in
    success r = (success acc ++ vs)%list /\
    errors r = (errors acc ++ es)%list /\
    Partitioned ok failed members /\
    Forall2 (fun m v => mv_project_id v = projectId /\ mv_user_id v = bm_userId m /\
                        mv_role v = batch_role m /\ persisted v db') ok vs /\
    Forall2 (fun m e => be_userId e = ProjectMembershipsService.or_unknown (bm_userId m) /\
                        In (be_error e) batch_reasons)
            failed es.
Proof.
  revert i acc db. induction members as [|m rest IH]; intros i acc db.
  - exists [], [], [], []. cbn. rewrite !app_nil_r. repeat split; constructor.
  - cbn [ProjectMembershipsService.batch_loop].
    destruct (falsy (bm_userId m)) eqn:Ef.
    + match goal with
      | |- context [ProjectMembershipsService.batch_loop _ _ _ _ _ ?a ?d] =>
          destruct (IH (S i) a d) as (vs & es & ok & failed & H)
      end.
      destruct (ProjectMembershipsService.batch_loop _ rest _ _ _ _ _) as [r db'].
      destruct H as (Hs & He & Hp & Hok & Hfail). cbn in Hs, He.
      exists vs, (mkBatchError (ProjectMembershipsService.or_unknown (bm_userId m))
                               "ID de usuario requerido" :: es), ok, (m :: failed).
      split; [exact Hs|]. split; [now rewrite He, <- app_assoc|].
      split; [now constructor|]. split; [exact Hok|].
      constructor; [split; [reflexivity|now left]|exact Hfail].
    + destruct (ProjectMembershipsService.addMember _ _ _ _ _ db) as [[v|e] db1] eqn:E.
      * match goal with
        | |- context [ProjectMembershipsService.batch_loop _ _ _ _ _ ?a ?d] =>
            destruct (IH (S i) a d) as (vs & es & ok & failed & H);
            pose proof (fun row => batch_loop_grows projectId rest (S i) rnd clock a d row)
              as Hgrow
        end.
        destruct (ProjectMembershipsService.batch_loop _ rest _ _ _ _ _) as [r db'].
        destruct H as (Hs & He & Hp & Hok & Hfail). cbn in Hs, He, Hgrow.
        exists (v :: vs), es, (m :: ok), failed.
        split; [now rewrite Hs, <- app_assoc|]. split; [exact He|].
        split; [now constructor|]. split; [|exact Hfail].
        constructor; [|exact Hok].
        apply pm_addMember_ok in E as (omId & Hv & Hrows). cbv zeta in Hv, Hrows.
        subst v. cbn. repeat split.
        exists omId. apply Hgrow. rewrite Hrows. apply in_or_app. right. now left.
      * match goal with
        | |- context [ProjectMembershipsService.batch_loop _ _ _ _ _ ?a ?d] =>
            destruct (IH (S i) a d) as (vs & es & ok & failed & H)
        end.
        destruct (ProjectMembershipsService.batch_loop _ rest _ _ _ _ _) as [r db'].
        destruct H as (Hs & He & Hp & Hok & Hfail). cbn in Hs, He.
        exists vs, (mkBatchError (ProjectMembershipsService.or_unknown (bm_userId m))
                                 (error_message e) :: es), ok, (m :: failed).
        split; [exact Hs|]. split; [now rewrite He, <- app_assoc|].
        split; [now constructor|]. split; [exact Hok|].
        constructor; [split; [reflexivity|]|exact Hfail].
        apply pm_addMember_reason in E; [|exact Ef]. cbn in *. tauto.
Qed.

(** The store a batch leaves behind is the one obtained by calling
    [addMember] for the entries one after the other, each call a transaction
    of its own. *)
Lemma batch_loop_store (projectId : string) (members : list BatchMember) (i : nat)
  (rnd : nat -> string) (clock : nat -> Z) (acc : BatchResult) (db : Db) :
  snd (ProjectMembershipsService.batch_loop projectId members i rnd clock acc db) =
  fold_left
    (fun d im =>
       if falsy (bm_userId (snd im)) then d
       else snd (ProjectMembershipsService.addMember projectId (bm_userId (snd im))
                   (Some (batch_role (snd im))) (rnd (fst im)) (clock (fst im)) d))
    (combine (seq i (List.length members)) members) db.
Proof.
  revert i acc db. induction members as [|m rest IH]; intros i acc db; [reflexivity|].
  cbn [ProjectMembershipsService.batch_loop List.length seq combine fold_left fst snd].
  destruct (falsy (bm_userId m)); [apply IH|].
  unfold batch_role at 1.
  destruct (ProjectMembershipsService.addMember _ _ _ _ _ db) as [[v|e] db1];
    cbn [snd]; apply IH.
Qed.

Lemma Partitioned_length {A : Type} (xs ys zs : list A) :
  Partitioned xs ys zs -> (List.length xs + List.length ys = List.length zs)%nat.
Proof. induction 1; cbn; lia. Qed.

(** C8. For a non-empty batch on an existing project that is not
    soft-deleted, [addBatchMembers] returns normally; the entries are split, in
    order, into those that succeeded and those that failed; each success is
    the membership of its entry and is a row of the final store, whatever
    happened to the other entries; each failure carries the user id of its
    entry (the placeholder [unknown] when the entry has none) next to the
    message of the error, which is one of the validation messages or the
    gateway's message for a failed transaction; and the final store is the one
    reached by calling [addMember] for the entries one after the other, a
    failed call leaving the store of the calls before it. *)
Theorem addBatchMembers_partial_success (db : Db) (projectId : string)
  (members : list BatchMember) (rnd : nat -> string) (clock : nat -> Z) :
  members <> [] ->
  filter (ProjectMembershipsService.live_project projectId) (projects db) <> [] ->
  exists r db' ok failed,
    ProjectMembershipsService.addBatchMembers projectId members rnd clock db = (Ok r, db') /\
    Partitioned ok failed members /\
    Forall2 (fun m v => mv_project_id v = projectId /\ mv_user_id v = bm_userId m /\
                        mv_role v = batch_role m /\ persisted v db') ok (success r) /\
    Forall2 (fun m e => (bm_userId m <> "" -> be_userId e = bm_userId m) /\
                        (bm_userId m = "" -> be_userId e = "unknown") /\
                        In (be_error e) batch_reasons) failed (errors r) /\
    (List.length (success r) + List.length (errors r) = List.length members)%nat /\
    db' = fold_left
            (fun d im =>
               if falsy (bm_userId (snd im)) then d
               else snd (ProjectMembershipsService.addMember projectId (bm_userId (snd im))
                           (Some (batch_role (snd im))) (rnd (fst im)) (clock (fst im)) d))
            (combine (seq 0 (List.length members)) members) db.
Proof.
  intros Hne Hp. unfold ProjectMembershipsService.addBatchMembers.
  destruct members as [|m0 rest] eqn:Em; [now destruct Hne|]. rewrite <- Em.
  replace (List.length members =? 0)%nat with false by (now rewrite Em).
  destruct (filter _ (projects db)) as [|p ps]; [now destruct Hp|]. cbn [hd_error].
  destruct (batch_loop_spec projectId members 0 rnd clock (mkBatchResult [] []) db)
    as (vs & es & ok & failed & H).
  pose proof (batch_loop_store projectId members 0 rnd clock (mkBatchResult [] []) db)
    as Hstore.
  destruct (ProjectMembershipsService.batch_loop _ members _ _ _ _ _) as [r db'].
  cbn [snd] in Hstore.
  destruct H as (Hs & He & Hpart & Hok & Hfail). cbn in Hs, He. subst vs es.
  exists r, db', ok, failed. split; [reflexivity|]. split; [exact Hpart|].
  split; [exact Hok|]. split; [|split; [|exact Hstore]].
  - eapply Forall2_impl; [|exact Hfail]. intros m e [Hid Hreason].
    unfold ProjectMembershipsService.or_unknown, falsy in Hid.
    split; [|split; [|exact Hreason]].
    + intros Hn. apply String.eqb_neq in Hn. now rewrite Hn in Hid.
    + intros Hn. now rewrite Hn in Hid.
  - apply Forall2_length in Hok, Hfail. apply Partitioned_length in Hpart. lia.
Qed.

Lemma addBatchMembers_partial_success_witness :
  exists r db',
    ProjectMembershipsService.addBatchMembers "cprj1"
      [mkBatchMember "usr_bo" (Some "ADMIN"); mkBatchMember "usr_nobody" None]
      (fun i => if (i =? 0)%nat then "m5" else "m6") (fun _ => 40) Sample.site
    = (Ok r, db') /\
    List.length (success r) = 1%nat /\
    errors r = [mkBatchError "usr_nobody" "Error al ejecutar transacción"] /\
    project_memberships db' = [mkProjectMembership "cprj1" "usr_bo" "om_m5" "ADMIN" 40 40].
Proof.
  destruct (addBatchMembers_partial_success Sample.site "cprj1"
              [mkBatchMember "usr_bo" (Some "ADMIN"); mkBatchMember "usr_nobody" None]
              (fun i => if (i =? 0)%nat then "m5" else "m6") (fun _ => 40)
              ltac:(discriminate) ltac:(discriminate))
    as (r & db' & ok & failed & E & _).
  exists r, db'. split; [exact E|].
  vm_compute in E. inversion E. subst r db'. repeat split.
Defined.

(** ** Key material *)

Lemma string_length_app (s1 s2 : string) :
  String.length (s1 ++ s2) = (String.length s1 + String.length s2)%nat.
Proof. induction s1 as [|c s1 IH]; cbn; [reflexivity|now rewrite IH]. Qed.

Lemma to_hex_length (bytes : list Byte.byte) :
  String.length (to_hex bytes) = (2 * List.length bytes)%nat.
Proof.
  induction bytes as [|b bytes IH]; [reflexivity|].
  unfold to_hex in *. cbn [fold_right List.length].
  unfold hex_of_byte at 1. cbv zeta. cbn [String.length]. rewrite IH. lia.
Qed.

Lemma generateApiKey_length (prefix : string) (bytes : list Byte.byte) :
  String.length (generateApiKey prefix bytes) =
  (String.length prefix + 1 + 2 * List.length bytes)%nat.
Proof.
  unfold generateApiKey. rewrite !string_length_app, to_hex_length. cbn. lia.
Qed.

Lemma sha256_hex_length (s : string) : String.length (Sha256.sha256_hex s) = 64%nat.
Proof. reflexivity. Qed.

Lemma substring_prefix_length (n : nat) (s : string) :
  String.length (substring 0 n s) = Nat.min n (String.length s).
Proof.
  revert s. induction n as [|n IH]; intros [|c s]; cbn; try reflexivity.
  now rewrite IH.
Qed.

Lemma displaySecretKey_length (secretKey : string) :
  (8 <= String.length secretKey)%nat ->
  String.length (displaySecretKey secretKey) = 11%nat.
Proof.
  intros H. unfold displaySecretKey.
  rewrite string_length_app, substring_prefix_length.
  change (String.length "...") with 3%nat. lia.
Qed.

(** With sixteen random bytes, the secret differs from everything that is
    derived from it and stored. *)
Lemma secret_not_stored (pkBytes skBytes : list Byte.byte) (keyRnd : string) :
  List.length skBytes = 16%nat ->
  let secretKey := generateApiKey "sk" skBytes in
  String.length secretKey = 35%nat /\
  hashSecretKey secretKey <> secretKey /\
  displaySecretKey secretKey <> secretKey /\
  String.length (displaySecretKey secretKey) = 11%nat /\
  generateApiKey "pk" pkBytes <> secretKey /\
  generateId "key" keyRnd <> secretKey.
Proof.
  intros Hlen secretKey.
  assert (String.length secretKey = 35%nat) as L
      by (unfold secretKey; rewrite generateApiKey_length, Hlen; reflexivity).
  assert (String.length (displaySecretKey secretKey) = 11%nat) as D
      by (apply displaySecretKey_length; lia).
  split; [exact L|]. split; [|split; [|split; [exact D|split]]].
  - intros E. apply (f_equal String.length) in E.
    unfold hashSecretKey in E. rewrite sha256_hex_length, L in E. discriminate.
  - intros E. apply (f_equal String.length) in E. rewrite D, L in E. discriminate.
  - unfold secretKey, generateApiKey. cbn. discriminate.
  - unfold secretKey, generateApiKey, generateId. cbn. discriminate.
Qed.

(** C10. [ProjectsService.create] either fails and leaves the store as it
    was, or appends, together, the project row and exactly one API key row
    of that project, holding a fresh public key, the salted hash of a fresh
    secret and the display fragment (the first eight characters of the secret
    followed by an ellipsis); the call answers the secret, which no column of
    the new key row equals.  It succeeds whenever the name is not blank and
    the organization exists. *)
Theorem project_create_provisions_key (name orgId prjRnd : string)
  (pkBytes skBytes : list Byte.byte) (keyRnd : string) (now : Z) (db : Db) :
  let publicKey := generateApiKey "pk" pkBytes in
  let secretKey := generateApiKey "sk" skBytes in
  let project := mkProject (generateId "prj" prjRnd) (trim name) orgId now now None in
  let key := mkApiKey (generateId "key" keyRnd) (prj_id project) now None publicKey
                      (hashSecretKey secretKey) (substring 0 8 secretKey ++ "...")
                      None None None in
  match ProjectsService.create name orgId prjRnd pkBytes skBytes keyRnd now db with
  | (Ok r, db') =>
      r = mkCreatedProject project publicKey secretKey /\
      db' = mkDb (users db) (organizations db) (organization_memberships db)
                 (projects db ++ [project])%list (project_memberships db)
                 (api_keys db ++ [key])%list (accounts db) (sessions db)
  | (Err _, db') => db' = db
  end /\
  (falsy name || falsy (trim name) = false -> falsy orgId = false ->
   filter (fun o => (org_id o =? orgId)%string) (organizations db) <> [] ->
   exists r db',
     ProjectsService.create name orgId prjRnd pkBytes skBytes keyRnd now db = (Ok r, db')) /\
  (List.length skBytes = 16%nat ->
   ak_hashed_secret_key key <> secretKey /\
   ak_display_secret_key key <> secretKey /\
   String.length (ak_display_secret_key key) = 11%nat /\
   ak_public_key key <> secretKey /\
   ak_id key <> secretKey).
Proof.
  cbv zeta. split; [|split].
  - unfold ProjectsService.create, ProjectsService.create_body.
    destruct (falsy name || falsy (trim name)); [reflexivity|].
    destruct (falsy orgId); [reflexivity|].
    run_tx.
    destruct (filter _ (organizations db)); cbn; [reflexivity|].
    split; reflexivity.
  - unfold ProjectsService.create, ProjectsService.create_body.
    intros -> -> Ho. run_tx.
    destruct (filter _ (organizations db)); [now destruct Ho|]. cbn. eauto.
  - intros Hlen.
    destruct (secret_not_stored pkBytes skBytes keyRnd Hlen) as (_ & H1 & H2 & H3 & H4 & H5).
    cbn. repeat split; assumption.
Qed.

Lemma project_create_provisions_key_witness :
  exists r db',
    ProjectsService.create "Site" "corg1" "cprj1" Sample.pk1 Sample.sk1 "k1" 20 Sample.acme
      = (Ok r, db') /\
    cp_secretKey r = "sk_0f1e2d3c4b5a69788796a5b4c3d2e1f0" /\
    map ak_display_secret_key (api_keys db') = ["sk_0f1e2..."] /\
    map ak_hashed_secret_key (api_keys db')
      = ["799a8301110f0f54e6558e58daad7222e400e4b9df5025d4cc41209f87ac23cc"].
Proof.
  destruct (proj1 (proj2 (project_create_provisions_key
                            "Site" "corg1" "cprj1" Sample.pk1 Sample.sk1 "k1" 20 Sample.acme))
              eq_refl eq_refl ltac:(discriminate)) as (r & db' & E).
  exists r, db'. split; [exact E|].
  vm_compute in E. inversion E. subst r db'. repeat split.
Defined.

(** Names are trimmed as JavaScript does it: a name of a no-break space is
    blank and rejected before anything is written, and a no-break space at
    the end of a name is not stored. *)
Example project_create_unicode_names :
  ProjectsService.create Sample.nbsp "corg1" "cprj1" Sample.pk1 Sample.sk1 "k1" 20 Sample.acme
    = (Err (BusinessLogicError "El nombre es requerido"), Sample.acme) /\
  map prj_name
      (projects (snd (ProjectsService.create ("Site" ++ Sample.nbsp) "corg1" "cprj1"
                        Sample.pk1 Sample.sk1 "k1" 20 Sample.acme))) = ["Site"] /\
  OrganizationsService.create Sample.nbsp "usr_ana" "corg2" "m7" 11 Sample.people
    = (Err (BusinessLogicError "El nombre es requerido"), Sample.people) /\
  map org_name
      (organizations (snd (OrganizationsService.create ("Acme" ++ Sample.nbsp) "usr_ana"
                             "corg2" "m7" 11 Sample.people))) = ["Acme"].
Proof. repeat split; vm_compute; reflexivity. Qed.

(** ** API keys: what is stored and what is read *)

Lemma apikey_create_eq (projectId : string) (note : option string) (expiresAt : DateArg)
  (pkBytes skBytes : list Byte.byte) (keyRnd : string) (now : Z) (db : Db) :
  ApiKeysService.create projectId note expiresAt pkBytes skBytes keyRnd now db =
  match ApiKeysService.parseExpiresAt expiresAt now with
  | Err e => (Err e, db)
  | Ok parsed =>
      let secretKey := generateApiKey "sk" skBytes in
      let row := mkApiKey (generateId "key" keyRnd) projectId now None
                          (generateApiKey "pk" pkBytes) (hashSecretKey secretKey)
                          (displaySecretKey secretKey) note parsed None in
      match filter (fun p => (prj_id p =? projectId)%string && ApiKeysService.live p)
                   (projects db) with
      | [] => (Err (DatabaseError tx_failed (NotFoundError "Proyecto")), db)
      | _ :: _ =>
          (Ok (mkCreatedKey (ak_id row) now (ak_public_key row) (ak_display_secret_key row)
                            note parsed secretKey),
           set_api_keys (fun t => t ++ [row])%list db)
      end
  end.
Proof.
  unfold ApiKeysService.create, ApiKeysService.create_body.
  destruct (ApiKeysService.parseExpiresAt expiresAt now); [|reflexivity].
  run_tx. destruct (filter _ (projects db)); reflexivity.
Qed.

Lemma regenerate_eq (id : string) (expiresAt : DateArg) (pkBytes skBytes : list Byte.byte)
  (now : Z) (db : Db) :
  ApiKeysService.regenerate id expiresAt pkBytes skBytes now db =
  match ApiKeysService.parseExpiresAt expiresAt now with
  | Err e => (Err e, db)
  | Ok parsed =>
      match filter (fun k => (ak_id k =? id)%string) (api_keys db) with
      | [] => (Err (DatabaseError tx_failed (NotFoundError "API key")), db)
      | existingKey :: _ =>
          let expires :=
            match ApiKeysService.is_null expiresAt, ak_expires_at existingKey with
            | true, Some stored => Some stored
            | _, _ => parsed
            end in
          let secretKey := generateApiKey "sk" skBytes in
          let change := ApiKeysService.rekey (generateApiKey "pk" pkBytes)
                          (hashSecretKey secretKey) (displaySecretKey secretKey)
                          expires now in
          (Ok (mkRegeneratedKey (Some (ApiKeysService.key_view (change existingKey)))
                                secretKey),
           set_api_keys (sql_update (fun k => (ak_id k =? id)%string) change) db)
      end
  end.
Proof.
  unfold ApiKeysService.regenerate, ApiKeysService.regenerate_body, sql_returning.
  destruct (ApiKeysService.parseExpiresAt expiresAt now); [|reflexivity].
  run_tx. destruct (filter _ (api_keys db)) as [|existingKey rest] eqn:E; [reflexivity|].
  cbn. rewrite E. reflexivity.
Qed.

Lemma filter_sql_update {R : Type} (p : R -> bool) (f : R -> R) (t : list R) :
  (forall r, p (f r) = p r) -> filter p (sql_update p f t) = map f (filter p t).
Proof.
  intros H. unfold sql_update. induction t as [|r t IH]; [reflexivity|].
  cbn. destruct (p r) eqn:E; [rewrite H, E|rewrite E]; cbn; now rewrite IH.
Qed.

Lemma insert_desc_In (k x : ApiKey) (sorted : list ApiKey) :
  In x (ApiKeysService.insert_desc k sorted) <-> x = k \/ In x sorted.
Proof.
  induction sorted as [|k' rest IH]; cbn.
  - intuition congruence.
  - destruct (_ <? _); cbn; [intuition congruence|]. rewrite IH. intuition congruence.
Qed.

Lemma order_desc_In (x : ApiKey) (rows : list ApiKey) :
  In x (ApiKeysService.order_desc rows) <-> In x rows.
Proof.
  induction rows as [|k rows IH]; cbn; [tauto|].
  rewrite insert_desc_In, IH. intuition congruence.
Qed.

(** A listing shows stored rows, through [key_view]. *)
Lemma getByProject_In (projectId : string) (db : Db) (v : KeyView) :
  In v (ApiKeysService.getByProject projectId db) <->
  exists k, In k (api_keys db) /\ ak_project_id k = projectId /\
            v = ApiKeysService.key_view k.
Proof.
  unfold ApiKeysService.getByProject. rewrite in_map_iff. split.
  - intros (k & <- & Hk). apply order_desc_In, filter_In in Hk as [Hk E].
    apply String.eqb_eq in E. eauto.
  - intros (k & Hk & E & ->). exists k. split; [reflexivity|].
    apply order_desc_In, filter_In. split; [exact Hk|]. now apply String.eqb_eq.
Qed.

Lemma getById_In (id : string) (db : Db) (d : KeyDetail) :
  ApiKeysService.getById id db = Ok d ->
  exists k, In k (api_keys db) /\ ak_id k = id /\ kd_key d = ApiKeysService.key_view k.
Proof.
  unfold ApiKeysService.getById.
  destruct (flat_map _ _) as [|d0 rest] eqn:E; [discriminate|].
  intros H. inversion H; subst d0.
  assert (In d (flat_map
    (fun k => map (fun p => mkKeyDetail (ApiKeysService.key_view k) (prj_id p) (prj_name p))
                  (filter (fun p => (prj_id p =? ak_project_id k)%string &&
                                    ApiKeysService.live p) (projects db)))
    (filter (fun k => (ak_id k =? id)%string) (api_keys db)))) as Hin
      by (rewrite E; now left).
  apply in_flat_map in Hin as (k & Hk & Hd). apply filter_In in Hk as [Hk Ei].
  apply String.eqb_eq in Ei. apply in_map_iff in Hd as (p & <- & _).
  exists k. auto.
Qed.

(** ** Reads cannot tell stored hashes apart *)

Lemma cons_eq_inv {A : Type} (a b : A) (l l' : list A) :
  a :: l = b :: l' -> a = b /\ l = l'.
Proof. intros H. now inversion H. Qed.

Lemma erased_filter (q : ApiKey -> bool) (t1 t2 : list ApiKey) :
  (forall a b, erase_hash a = erase_hash b -> q a = q b) ->
  map erase_hash t1 = map erase_hash t2 ->
  map erase_hash (filter q t1) = map erase_hash (filter q t2).
Proof.
  intros Hq. revert t2. induction t1 as [|a t1 IH]; intros [|b t2] E; try discriminate;
    [reflexivity|].
  cbn in E. apply cons_eq_inv in E as [Eab Et]. cbn. rewrite (Hq a b Eab).
  destruct (q b); cbn; [rewrite Eab; f_equal|]; now apply IH.
Qed.

Lemma erased_update (p : ApiKey -> bool) (f : ApiKey -> ApiKey) (t1 t2 : list ApiKey) :
  (forall a b, erase_hash a = erase_hash b ->
     p a = p b /\ erase_hash (f a) = erase_hash (f b)) ->
  map erase_hash t1 = map erase_hash t2 ->
  map erase_hash (sql_update p f t1) = map erase_hash (sql_update p f t2).
Proof.
  intros Hpf. revert t2. induction t1 as [|a t1 IH]; intros [|b t2] E; try discriminate;
    [reflexivity|].
  cbn in E. apply cons_eq_inv in E as [Eab Et]. destruct (Hpf a b Eab) as [Hp Hf].
  unfold sql_update in *. cbn. rewrite Hp. f_equal; [|now apply IH].
  destruct (p b); assumption.
Qed.

Lemma erased_insert (a b : ApiKey) (s1 s2 : list ApiKey) :
  erase_hash a = erase_hash b -> map erase_hash s1 = map erase_hash s2 ->
  map erase_hash (ApiKeysService.insert_desc a s1) =
  map erase_hash (ApiKeysService.insert_desc b s2).
Proof.
  intros Eab. revert s2. induction s1 as [|x s1 IH]; intros [|y s2] E; try discriminate.
  - cbn. now rewrite Eab.
  - cbn in E. apply cons_eq_inv in E as [Exy Es]. cbn.
    replace (ak_created_at x) with (ak_created_at y)
      by (change (ak_created_at (erase_hash y) = ak_created_at (erase_hash x));
          now rewrite Exy).
    replace (ak_created_at a) with (ak_created_at b)
      by (change (ak_created_at (erase_hash b) = ak_created_at (erase_hash a));
          now rewrite Eab).
    destruct (_ <? _); cbn; [now rewrite Eab, Exy, Es|].
    rewrite Exy. f_equal. now apply IH.
Qed.

Lemma erased_order (t1 t2 : list ApiKey) :
  map erase_hash t1 = map erase_hash t2 ->
  map erase_hash (ApiKeysService.order_desc t1) =
  map erase_hash (ApiKeysService.order_desc t2).
Proof.
  revert t2. induction t1 as [|a t1 IH]; intros [|b t2] E; try discriminate;
    [reflexivity|].
  cbn in E. apply cons_eq_inv in E as [Eab Et]. cbn. apply erased_insert; [exact Eab|now apply IH].
Qed.

Lemma erased_views (t1 t2 : list ApiKey) :
  map erase_hash t1 = map erase_hash t2 ->
  map ApiKeysService.key_view t1 = map ApiKeysService.key_view t2.
Proof.
  intros E.
  assert (forall t, map ApiKeysService.key_view t =
                    map ApiKeysService.key_view (map erase_hash t)) as V
      by (intros t; rewrite map_map; reflexivity).
  now rewrite (V t1), (V t2), E.
Qed.

Lemma erased_field {B : Type} (g : ApiKey -> B) (a b : ApiKey) :
  (forall k, g (erase_hash k) = g k) -> erase_hash a = erase_hash b -> g a = g b.
Proof. intros Hg E. now rewrite <- (Hg a), <- (Hg b), E. Qed.

(** The two reads answer the same on stores that differ only in hashes. *)
Lemma reads_ignore_hashes (db1 db2 : Db) :
  same_but_hashes db1 db2 ->
  (forall p, ApiKeysService.getByProject p db1 = ApiKeysService.getByProject p db2) /\
  (forall i, ApiKeysService.getById i db1 = ApiKeysService.getById i db2).
Proof.
  intros [Ek Ep]. split.
  - intros p. unfold ApiKeysService.getByProject.
    apply erased_views, erased_order, erased_filter; [|exact Ek].
    intros a b E. now rewrite (erased_field ak_project_id a b).
  - intros i. unfold ApiKeysService.getById. rewrite Ep.
    assert (map erase_hash (filter (fun k => (ak_id k =? i)%string) (api_keys db1)) =
            map erase_hash (filter (fun k => (ak_id k =? i)%string) (api_keys db2))) as E.
    { apply erased_filter; [|exact Ek].
      intros a b E. now rewrite (erased_field ak_id a b). }
    match goal with
    | |- match ?l1 with _ => _ end = match ?l2 with _ => _ end =>
        assert (l1 = l2) as ->; [|reflexivity]
    end.
    revert E. generalize (filter (fun k => (ak_id k =? i)%string) (api_keys db1)).
    generalize (filter (fun k => (ak_id k =? i)%string) (api_keys db2)).
    intros l2 l1. revert l2. induction l1 as [|a l1 IH]; intros [|b l2] E;
      try discriminate; [reflexivity|].
    cbn in E. apply cons_eq_inv in E as [Eab El]. cbn.
    rewrite (erased_field ak_project_id a b), (erased_field ApiKeysService.key_view a b)
      by (reflexivity || exact Eab).
    f_equal. now apply IH.
Qed.

Lemma erased_delete (p : ApiKey -> bool) (t1 t2 : list ApiKey) :
  (forall a b, erase_hash a = erase_hash b -> p a = p b) ->
  map erase_hash t1 = map erase_hash t2 ->
  map erase_hash (sql_delete p t1) = map erase_hash (sql_delete p t2).
Proof.
  intros Hp. unfold sql_delete. apply erased_filter.
  intros a b E. now rewrite (Hp a b E).
Qed.

Lemma key_apply_same (op : KeyOp) (db1 db2 : Db) :
  same_but_hashes db1 db2 -> same_but_hashes (key_apply op db1) (key_apply op db2).
Proof.
  intros [Ek Ep]. destruct op; cbn [key_apply].
  - unfold ApiKeysService.updateNote. cbv zeta.
    assert (same_but_hashes
              (set_api_keys (sql_update (fun k => (ak_id k =? id)%string)
                                        (ApiKeysService.with_note note now)) db1)
              (set_api_keys (sql_update (fun k => (ak_id k =? id)%string)
                                        (ApiKeysService.with_note note now)) db2)) as S.
    { split; [|exact Ep]. cbn. apply erased_update; [|exact Ek].
      intros a b E. split; [now rewrite (erased_field ak_id a b)|].
      change (ApiKeysService.with_note note now (erase_hash a) =
              ApiKeysService.with_note note now (erase_hash b)). now rewrite E. }
    repeat match goal with
           | |- context [match ?l with [] => _ | _ :: _ => _ end] => destruct l
           end; exact S.
  - unfold ApiKeysService.updateExpiration.
    destruct (ApiKeysService.parseExpiresAt expiresAt now) as [parsed|e];
      [|split; assumption].
    cbv zeta.
    assert (same_but_hashes
              (set_api_keys (sql_update (fun k => (ak_id k =? id)%string)
                                        (ApiKeysService.with_expiration parsed now)) db1)
              (set_api_keys (sql_update (fun k => (ak_id k =? id)%string)
                                        (ApiKeysService.with_expiration parsed now)) db2)) as S.
    { split; [|exact Ep]. cbn. apply erased_update; [|exact Ek].
      intros a b E. split; [now rewrite (erased_field ak_id a b)|].
      change (ApiKeysService.with_expiration parsed now (erase_hash a) =
              ApiKeysService.with_expiration parsed now (erase_hash b)). now rewrite E. }
    repeat match goal with
           | |- context [match ?l with [] => _ | _ :: _ => _ end] => destruct l
           end; exact S.
  - unfold ApiKeysService.delete. cbv zeta.
    assert (same_but_hashes
              (set_api_keys (sql_delete (fun k => (ak_id k =? id)%string)) db1)
              (set_api_keys (sql_delete (fun k => (ak_id k =? id)%string)) db2)) as S.
    { split; [|exact Ep]. cbn. apply erased_delete; [|exact Ek].
      intros a b E. now rewrite (erased_field ak_id a b). }
    repeat match goal with
           | |- context [match ?l with [] => _ | _ :: _ => _ end] => destruct l
           end; exact S.
  - unfold ApiKeysService.cleanupExpired. cbn [snd].
    split; [|exact Ep]. cbn. apply erased_delete; [|exact Ek].
    intros a b E. unfold ApiKeysService.expired.
    now rewrite (erased_field ak_expires_at a b).
Qed.

Lemma key_run_same (ops : list KeyOp) (db1 db2 : Db) :
  same_but_hashes db1 db2 -> same_but_hashes (key_run ops db1) (key_run ops db2).
Proof.
  revert db1 db2. induction ops as [|op ops IH]; intros db1 db2 S; [exact S|].
  cbn. apply IH. now apply key_apply_same.
Qed.

(** Rotating a key with either of two secrets that show the same fragment
    leaves stores that differ only in the hash. *)
Lemma regenerate_same (db : Db) (id : string) (expiresAt : DateArg)
  (pkBytes skA skB : list Byte.byte) (now : Z) :
  displaySecretKey (generateApiKey "sk" skA) = displaySecretKey (generateApiKey "sk" skB) ->
  same_but_hashes (snd (ApiKeysService.regenerate id expiresAt pkBytes skA now db))
                  (snd (ApiKeysService.regenerate id expiresAt pkBytes skB now db)).
Proof.
  intros Hd. rewrite !regenerate_eq.
  destruct (ApiKeysService.parseExpiresAt expiresAt now); [|split; reflexivity].
  destruct (filter _ (api_keys db)) as [|existingKey rest]; [split; reflexivity|].
  cbv zeta. cbn [snd]. split; [|reflexivity].
  unfold set_api_keys. cbn [api_keys]. unfold sql_update. rewrite !map_map.
  apply map_ext. intros k. destruct (ak_id k =? id)%string; [|reflexivity].
  unfold erase_hash, ApiKeysService.rekey.
  cbn [ak_id ak_project_id ak_created_at ak_updated_at ak_public_key
       ak_display_secret_key ak_note ak_expires_at ak_last_used_at].
  now rewrite Hd.
Qed.

(** ** The digest is printed in hexadecimal *)

Lemma hex_digit_cases (d : Z) :
  0 <= d < 16 ->
  In (Sha256.hex_digit d)
     (list_ascii_of_string "0123456789abcdef").
Proof.
  intros H.
  assert (d = 0 \/ d = 1 \/ d = 2 \/ d = 3 \/ d = 4 \/ d = 5 \/ d = 6 \/ d = 7 \/
          d = 8 \/ d = 9 \/ d = 10 \/ d = 11 \/ d = 12 \/ d = 13 \/ d = 14 \/ d = 15)
    as C by lia.
  repeat destruct C as [->|C]; try subst d; cbn; tauto.
Qed.

Lemma nibble_cases (x k : Z) :
  0 <= k -> In (Sha256.nibble x k) (list_ascii_of_string "0123456789abcdef").
Proof.
  intros Hk. unfold Sha256.nibble. apply hex_digit_cases.
  change 15 with (Z.ones 4). rewrite Z.land_ones by lia.
  apply Z.mod_pos_bound. reflexivity.
Qed.

(** A digest never starts with one of the letters that open an identifier or
    a key. *)
Lemma sha256_hex_head (s : string) :
  exists c rest, Sha256.sha256_hex s = String c rest /\
                 In c (list_ascii_of_string "0123456789abcdef").
Proof.
  unfold Sha256.sha256_hex, Sha256.hex_of_regs.
  set (r := Sha256.digest _). unfold Sha256.hex8 at 1.
  eexists _, _. split; [reflexivity|]. now apply nibble_cases.
Qed.

Lemma not_hex_head (c : ascii) (rest s : string) :
  ~ In c (list_ascii_of_string "0123456789abcdef") ->
  String c rest <> Sha256.sha256_hex s.
Proof.
  intros Hc E. destruct (sha256_hex_head s) as (c' & rest' & E' & Hin).
  rewrite E' in E. inversion E; subst. now apply Hc.
Qed.

(** C9. The secret is answered by [create] (and by [regenerate]), and what
    [getByProject] and [getById] return afterwards for the new key is its
    identifier, creation time, public key, the display fragment (eight
    characters of the secret and an ellipsis), the caller's note and the
    expiration: none of the strings generated for the key equals the secret
    or its stored hash, the views have no hash column, and neither read, now
    or after any sequence of note, expiration, delete and clean-up calls, can
    tell apart two secrets with the same display fragment, whether issued by
    [create] or by [regenerate]. *)
Theorem secret_shown_only_once (db : Db) (projectId : string) (note : option string)
  (expiresAt : DateArg) (pkBytes skBytes : list Byte.byte) (keyRnd : string) (now : Z)
  (r : CreatedKey) (db1 : Db) :
  List.length skBytes = 16%nat ->
  ApiKeysService.create projectId note expiresAt pkBytes skBytes keyRnd now db = (Ok r, db1) ->
  let secretKey := generateApiKey "sk" skBytes in
  let shown := mkKeyView (generateId "key" keyRnd) now (generateApiKey "pk" pkBytes)
                         (substring 0 8 secretKey ++ "...") None note (ck_expires_at r) in
  ck_secretKey r = secretKey /\
  In shown (ApiKeysService.getByProject projectId db1) /\
  (forall p v, In v (ApiKeysService.getByProject p db1) ->
     v = shown \/ In v (ApiKeysService.getByProject p db)) /\
  (forall i d, ApiKeysService.getById i db1 = Ok d ->
     kd_key d = shown \/
     exists k, In k (api_keys db) /\ kd_key d = ApiKeysService.key_view k) /\
  (kv_id shown <> secretKey /\ kv_public_key shown <> secretKey /\
   kv_display_secret_key shown <> secretKey) /\
  (kv_id shown <> hashSecretKey secretKey /\
   kv_public_key shown <> hashSecretKey secretKey /\
   kv_display_secret_key shown <> hashSecretKey secretKey) /\
  (forall skBytes' ops,
     displaySecretKey (generateApiKey "sk" skBytes') = displaySecretKey secretKey ->
     let db2 := snd (ApiKeysService.create projectId note expiresAt pkBytes skBytes'
                                           keyRnd now db) in
     (forall p, ApiKeysService.getByProject p (key_run ops db1) =
                ApiKeysService.getByProject p (key_run ops db2)) /\
     (forall i, ApiKeysService.getById i (key_run ops db1) =
                ApiKeysService.getById i (key_run ops db2))) /\
  (forall id' expiresAt' pkBytes' skA skB now' ops,
     displaySecretKey (generateApiKey "sk" skA) = displaySecretKey (generateApiKey "sk" skB) ->
     let dbA := snd (ApiKeysService.regenerate id' expiresAt' pkBytes' skA now' db1) in
     let dbB := snd (ApiKeysService.regenerate id' expiresAt' pkBytes' skB now' db1) in
     (forall rk, fst (ApiKeysService.regenerate id' expiresAt' pkBytes' skA now' db1) = Ok rk ->
                 rk_secretKey rk = generateApiKey "sk" skA) /\
     (forall p, ApiKeysService.getByProject p (key_run ops dbA) =
                ApiKeysService.getByProject p (key_run ops dbB)) /\
     (forall i, ApiKeysService.getById i (key_run ops dbA) =
                ApiKeysService.getById i (key_run ops dbB))).
Proof.
  intros Hlen Hc. cbv zeta.
  pose proof (apikey_create_eq projectId note expiresAt pkBytes skBytes keyRnd now db) as Eq.
  rewrite Hc in Eq.
  destruct (ApiKeysService.parseExpiresAt expiresAt now) as [parsed|e] eqn:Ep;
    [|discriminate].
  cbv zeta in Eq.
  destruct (filter _ (projects db)) as [|p0 ps] eqn:Eprj; [discriminate|].
  inversion Eq; subst r db1. clear Eq. cbn [ck_secretKey ck_expires_at ak_id].
  set (secretKey := generateApiKey "sk" skBytes).
  set (row := mkApiKey (generateId "key" keyRnd) projectId now None
                       (generateApiKey "pk" pkBytes) (hashSecretKey secretKey)
                       (displaySecretKey secretKey) note parsed None).
  set (shown := mkKeyView _ _ _ _ _ _ _).
  assert (ApiKeysService.key_view row = shown) as Hv by reflexivity.
  destruct (secret_not_stored pkBytes skBytes keyRnd Hlen)
    as (L & H1 & H2 & H3 & H4 & H5). fold secretKey in L, H1, H2, H3, H4, H5.
  split; [reflexivity|]. split; [|split; [|split; [|split; [|split; [|split]]]]].
  - apply getByProject_In. exists row. split; [|split; [reflexivity|now symmetry]].
    cbn. apply in_or_app. right. now left.
  - intros p v Hin. apply getByProject_In in Hin as (k & Hk & Ek & ->).
    cbn in Hk. apply in_app_or in Hk as [Hk|[<-|[]]]; [right|now left].
    apply getByProject_In. eauto.
  - intros i d Hd. apply getById_In in Hd as (k & Hk & Ek & Hkd).
    cbn in Hk. apply in_app_or in Hk as [Hk|[<-|[]]]; [right; eauto|left].
    now rewrite Hkd.
  - repeat split; assumption.
  - unfold hashSecretKey. repeat split; apply not_hex_head; cbn;
      intuition discriminate.
  - intros skBytes' ops Hd. cbv zeta. apply reads_ignore_hashes, key_run_same.
    rewrite apikey_create_eq, Ep. cbv zeta. rewrite Eprj. cbn [snd].
    split; [|reflexivity]. unfold set_api_keys. cbn [api_keys].
    rewrite !map_app. f_equal. cbn [map]. f_equal. unfold erase_hash.
    cbn [ak_id ak_project_id ak_created_at ak_updated_at ak_public_key
         ak_display_secret_key ak_note ak_expires_at ak_last_used_at].
    fold secretKey. now rewrite Hd.
  - intros id' expiresAt' pkBytes' skA skB now' ops Hd. cbv zeta. split.
    + intros rk. rewrite regenerate_eq.
      destruct (ApiKeysService.parseExpiresAt expiresAt' now'); [|discriminate].
      destruct (filter _ (api_keys _)); [discriminate|].
      cbv zeta. cbn [fst]. intros H. inversion H. reflexivity.
    + apply reads_ignore_hashes, key_run_same, regenerate_same. exact Hd.
Qed.

Lemma secret_shown_only_once_witness :
  exists r db1,
    ApiKeysService.create "cprj1" (Some "ci") (ArgDate (Some 5000)) Sample.pk2 Sample.sk2
                          "k2" 100 Sample.site = (Ok r, db1) /\
    ck_secretKey r = "sk_f0e1d2c3b4a5968778695a4b3c2d1e0f" /\
    In (mkKeyView "key_k2" 100 "pk_ffeeddccbbaa99887766554433221100" "sk_f0e1d..."
                  None (Some "ci") (Some 5000))
       (ApiKeysService.getByProject "cprj1" db1).
Proof.
  destruct (ApiKeysService.create "cprj1" (Some "ci") (ArgDate (Some 5000)) Sample.pk2
              Sample.sk2 "k2" 100 Sample.site) as [[r|e] db1] eqn:E;
    [|exfalso; vm_compute in E; discriminate].
  exists r, db1. split; [reflexivity|].
  destruct (secret_shown_only_once Sample.site "cprj1" (Some "ci") (ArgDate (Some 5000))
              Sample.pk2 Sample.sk2 "k2" 100 r db1 eq_refl E) as (Hs & Hin & _).
  assert (ck_expires_at r = Some 5000) as Hx
      by (vm_compute in E; inversion E; reflexivity).
  rewrite Hx in Hin. split; [exact Hs|exact Hin].
Defined.

(** ** Rotating a key *)

(** C4, as stated, fails: the key [key_k2] expires at 5000; regenerating it
    with an explicit [null] keeps that expiration instead of clearing it. *)
Lemma regenerate_null_counterexample :
  let db' := snd (ApiKeysService.regenerate "key_k2" ArgNull Sample.pk1 Sample.sk1 200
                    Sample.site_expiring) in
  map ak_expires_at (filter (fun k => (ak_id k =? "key_k2")%string)
                            (api_keys Sample.site_expiring)) = [Some 5000] /\
  map ak_expires_at (filter (fun k => (ak_id k =? "key_k2")%string) (api_keys db'))
    = [Some 5000] /\
  map ak_expires_at (filter (fun k => (ak_id k =? "key_k2")%string) (api_keys db'))
    <> [None].
Proof.
  cbv zeta. split; [vm_compute; reflexivity|]. split; [vm_compute; reflexivity|].
  vm_compute. discriminate.
Qed.

(** C4, amended. For an existing key, [regenerate] overwrites the public
    key, the hash and the display fragment with fresh material and keeps the
    identifier, project, creation time, note and last use.  When [expiresAt]
    is left out or is [null] the stored expiration is kept (a [null] does not
    clear it); a date strictly after the clock replaces it; a date that does
    not parse or is not in the future is rejected with a business-rule error
    and nothing is changed. *)
Theorem regenerate_rotates_key (db : Db) (id : string) (pkBytes skBytes : list Byte.byte)
  (now : Z) (existing : ApiKey) (rest : list ApiKey) :
  filter (fun k => (ak_id k =? id)%string) (api_keys db) = existing :: rest ->
  let secretKey := generateApiKey "sk" skBytes in
  let rotated := fun expires =>
    mkApiKey (ak_id existing) (ak_project_id existing) (ak_created_at existing) (Some now)
             (generateApiKey "pk" pkBytes) (hashSecretKey secretKey)
             (substring 0 8 secretKey ++ "...") (ak_note existing) expires
             (ak_last_used_at existing) in
  let done := fun expiresAt expires =>
    exists db',
      ApiKeysService.regenerate id expiresAt pkBytes skBytes now db =
        (Ok (mkRegeneratedKey (Some (ApiKeysService.key_view (rotated expires))) secretKey),
         db') /\
      hd_error (filter (fun k => (ak_id k =? id)%string) (api_keys db'))
        = Some (rotated expires) /\
      List.length (api_keys db') = List.length (api_keys db) in
  done ArgUndefined (ak_expires_at existing) /\
  done ArgNull (ak_expires_at existing) /\
  (forall t, now < t -> done (ArgDate (Some t)) (Some t)) /\
  (forall t, t <= now ->
     ApiKeysService.regenerate id (ArgDate (Some t)) pkBytes skBytes now db =
     (Err (BusinessLogicError "La fecha de expiración debe ser futura"), db)) /\
  ApiKeysService.regenerate id (ArgDate None) pkBytes skBytes now db =
  (Err (BusinessLogicError "Formato de fecha de expiración inválido"), db).
Proof.
  intros E. cbv zeta.
  assert (forall expiresAt parsed expires,
            ApiKeysService.parseExpiresAt expiresAt now = Ok parsed ->
            match ApiKeysService.is_null expiresAt, ak_expires_at existing with
            | true, Some stored => Some stored
            | _, _ => parsed
            end = expires ->
            exists db',
              ApiKeysService.regenerate id expiresAt pkBytes skBytes now db =
              (Ok (mkRegeneratedKey
                     (Some (ApiKeysService.key_view
                        (mkApiKey (ak_id existing) (ak_project_id existing)
                           (ak_created_at existing) (Some now) (generateApiKey "pk" pkBytes)
                           (hashSecretKey (generateApiKey "sk" skBytes))
                           (substring 0 8 (generateApiKey "sk" skBytes) ++ "...")
                           (ak_note existing) expires (ak_last_used_at existing))))
                     (generateApiKey "sk" skBytes)), db') /\
              hd_error (filter (fun k => (ak_id k =? id)%string) (api_keys db')) =
              Some (mkApiKey (ak_id existing) (ak_project_id existing)
                      (ak_created_at existing) (Some now) (generateApiKey "pk" pkBytes)
                      (hashSecretKey (generateApiKey "sk" skBytes))
                      (substring 0 8 (generateApiKey "sk" skBytes) ++ "...")
                      (ak_note existing) expires (ak_last_used_at existing)) /\
              List.length (api_keys db') = List.length (api_keys db)) as Done.
  { intros expiresAt parsed expires Hp Hx. rewrite regenerate_eq, Hp, E. cbv zeta.
    rewrite Hx. eexists. split; [reflexivity|]. split.
    - cbn [api_keys set_api_keys]. rewrite filter_sql_update by reflexivity.
      rewrite E. reflexivity.
    - cbn. unfold sql_update. apply length_map. }
  split; [|split; [|split; [|split]]].
  - apply (Done ArgUndefined None); [reflexivity|]. cbn. now destruct (ak_expires_at existing).
  - apply (Done ArgNull None); [reflexivity|]. cbn. now destruct (ak_expires_at existing).
  - intros t Ht. apply (Done (ArgDate (Some t)) (Some t)); [|reflexivity].
    cbn. now replace (t <=? now) with false by (symmetry; apply Z.leb_gt; lia).
  - intros t Ht. rewrite regenerate_eq. cbn.
    now replace (t <=? now) with true by (symmetry; apply Z.leb_le; lia).
  - rewrite regenerate_eq. reflexivity.
Qed.

Lemma regenerate_rotates_key_witness :
  exists db',
    fst (ApiKeysService.regenerate "key_k2" ArgUndefined Sample.pk1 Sample.sk1 200
           Sample.site_expiring)
    = Ok (mkRegeneratedKey
            (Some (mkKeyView "key_k2" 100 "pk_00112233445566778899aabbccddeeff" "sk_0f1e2..."
                             None (Some "ci") (Some 5000)))
            "sk_0f1e2d3c4b5a69788796a5b4c3d2e1f0") /\
    snd (ApiKeysService.regenerate "key_k2" ArgUndefined Sample.pk1 Sample.sk1 200
           Sample.site_expiring) = db' /\
    List.length (api_keys db') = 2%nat.
Proof.
  destruct (proj1 (regenerate_rotates_key Sample.site_expiring "key_k2" Sample.pk1 Sample.sk1
                     200
                     (mkApiKey "key_k2" "cprj1" 100 None "pk_ffeeddccbbaa99887766554433221100"
                        "fe1d6d52d84b3befd926bc66d3cd79c6fdba1ee3dbe2a225dc2a71164c38a3b3"
                        "sk_f0e1d..." (Some "ci") (Some 5000) None)
                     [] ltac:(vm_compute; reflexivity)))
    as (db' & E & _ & L).
  exists db'. rewrite E. split; [reflexivity|]. split; [reflexivity|exact L].
Defined.

(** ** Verifying a key *)


Lemma generateApiKey_truthy (prefix : string) (bytes : list Byte.byte) :
  falsy (generateApiKey prefix bytes) = false.
Proof.
  unfold falsy, generateApiKey. apply String.eqb_neq. intros E.
  apply (f_equal String.length) in E. rewrite !string_length_app in E. cbn in E. lia.
Qed.



(** * Further properties of the services *)

(** ** Ordered listings *)

Lemma insert_by_In {R : Type} (before : R -> R -> bool) (r x : R) (sorted : list R) :
  In x (insert_by before r sorted) <-> x = r \/ In x sorted.
Proof.
  induction sorted as [|r' rest IH]; cbn.
  - intuition congruence.
  - destruct (before r r'); cbn; [intuition congruence|]. rewrite IH. intuition congruence.
Qed.

Lemma order_by_In {R : Type} (before : R -> R -> bool) (x : R) (rows : list R) :
  In x (order_by before rows) <-> In x rows.
Proof.
  unfold order_by. induction rows as [|r rows IH]; cbn; [tauto|].
  rewrite insert_by_In, IH. intuition congruence.
Qed.

Lemma insert_by_length {R : Type} (before : R -> R -> bool) (r : R) (sorted : list R) :
  List.length (insert_by before r sorted) = S (List.length sorted).
Proof.
  induction sorted as [|r' rest IH]; cbn; [reflexivity|].
  destruct (before r r'); cbn; [reflexivity|]. now rewrite IH.
Qed.

Lemma order_by_length {R : Type} (before : R -> R -> bool) (rows : list R) :
  List.length (order_by before rows) = List.length rows.
Proof.
  unfold order_by. induction rows as [|r rows IH]; cbn; [reflexivity|].
  now rewrite insert_by_length, IH.
Qed.

Lemma insert_by_Permutation {R : Type} (before : R -> R -> bool) (r : R) (sorted : list R) :
  Permutation (insert_by before r sorted) (r :: sorted).
Proof.
  induction sorted as [|r' rest IH]; cbn; [reflexivity|].
  destruct (before r r'); [reflexivity|].
  rewrite IH. apply perm_swap.
Qed.

Lemma order_by_Permutation {R : Type} (before : R -> R -> bool) (rows : list R) :
  Permutation (order_by before rows) rows.
Proof.
  unfold order_by. induction rows as [|r rows IH]; cbn; [reflexivity|].
  rewrite insert_by_Permutation. now constructor.
Qed.

Lemma order_by_nil_inv {R : Type} (before : R -> R -> bool) (rows : list R) :
  order_by before rows = [] -> rows = [].
Proof.
  intros H. apply (f_equal (@List.length R)) in H. rewrite order_by_length in H.
  now destruct rows.
Qed.

Lemma insert_desc_sorted {R : Type} (key : R -> Z) (r : R) (sorted : list R) :
  Sorted (fun a b => key b <= key a) sorted ->
  Sorted (fun a b => key b <= key a) (insert_by (fun x x' => key x' <? key x) r sorted).
Proof.
  induction sorted as [|r' rest IH]; intros Hs; cbn.
  - repeat constructor.
  - destruct (key r' <? key r) eqn:E.
    + constructor; [exact Hs|]. constructor. apply Z.ltb_lt in E. lia.
    + apply Z.ltb_ge in E. inversion Hs as [|? ? Hrest Hhd]; subst.
      constructor; [now apply IH|].
      destruct rest as [|r'' rest']; cbn.
      * constructor. exact E.
      * destruct (key r'' <? key r); constructor; [exact E|].
        now inversion Hhd.
Qed.

Lemma order_desc_by_sorted {R : Type} (key : R -> Z) (rows : list R) :
  Sorted (fun a b => key b <= key a) (order_desc_by key rows).
Proof.
  unfold order_desc_by, order_by. induction rows as [|r rows IH]; cbn; [constructor|].
  now apply insert_desc_sorted.
Qed.

Lemma insert_asc_sorted {R : Type} (key : R -> Z) (r : R) (sorted : list R) :
  Sorted (fun a b => key a <= key b) sorted ->
  Sorted (fun a b => key a <= key b) (insert_by (fun x x' => key x <? key x') r sorted).
Proof.
  induction sorted as [|r' rest IH]; intros Hs; cbn.
  - repeat constructor.
  - destruct (key r <? key r') eqn:E.
    + constructor; [exact Hs|]. constructor. apply Z.ltb_lt in E. lia.
    + apply Z.ltb_ge in E. inversion Hs as [|? ? Hrest Hhd]; subst.
      constructor; [now apply IH|].
      destruct rest as [|r'' rest']; cbn.
      * constructor. exact E.
      * destruct (key r <? key r''); constructor; [exact E|].
        now inversion Hhd.
Qed.

Lemma order_asc_by_sorted {R : Type} (key : R -> Z) (rows : list R) :
  Sorted (fun a b => key a <= key b) (order_asc_by key rows).
Proof.
  unfold order_asc_by, order_by. induction rows as [|r rows IH]; cbn; [constructor|].
  now apply insert_asc_sorted.
Qed.

(** ** Statements against filters *)

Lemma filter_map_stable {R : Type} (q : R -> bool) (g : R -> R) (t : list R) :
  (forall r, q (g r) = q r) -> filter q (map g t) = map g (filter q t).
Proof.
  intros H. induction t as [|r t IH]; [reflexivity|].
  cbn. rewrite H. destruct (q r); cbn; now rewrite IH.
Qed.

Lemma filter_sql_update_stable {R : Type} (q p : R -> bool) (f : R -> R) (t : list R) :
  (forall r, q (f r) = q r) ->
  filter q (sql_update p f t) = sql_update p f (filter q t).
Proof.
  intros H. unfold sql_update. apply filter_map_stable.
  intros r. destruct (p r); auto.
Qed.

Lemma filter_sql_delete {R : Type} (q p : R -> bool) (t : list R) :
  filter q (sql_delete p t) = sql_delete p (filter q t).
Proof.
  unfold sql_delete. induction t as [|r t IH]; [reflexivity|].
  cbn. destruct (p r) eqn:Ep, (q r) eqn:Eq; cbn; rewrite ?Ep, ?Eq; cbn;
    now rewrite IH.
Qed.

Lemma hd_error_map {A B : Type} (f : A -> B) (l : list A) :
  hd_error (map f l) = option_map f (hd_error l).
Proof. now destruct l. Qed.

Lemma sql_update_length {R : Type} (p : R -> bool) (f : R -> R) (t : list R) :
  List.length (sql_update p f t) = List.length t.
Proof. unfold sql_update. apply length_map. Qed.

Lemma sql_update_filter_hit {R : Type} (p : R -> bool) (f : R -> R) (t : list R) :
  sql_update p f (filter p t) = map f (filter p t).
Proof.
  unfold sql_update. apply map_ext_in. intros r Hr.
  apply filter_In in Hr as [_ Hr]. now rewrite Hr.
Qed.

Lemma sql_update_filter_miss {R : Type} (q p : R -> bool) (f : R -> R) (t : list R) :
  (forall r, q r = true -> p r = false) ->
  sql_update p f (filter q t) = filter q t.
Proof.
  intros H. apply sql_update_none. intros r Hr.
  apply filter_In in Hr as [_ Hr]. auto.
Qed.

(** A primary key selects at most one row. *)
Lemma filter_key_unique {R : Type} (key : R -> string) (k : string) (t : list R) :
  NoDup (map key t) ->
  forall r rest, filter (fun x => (key x =? k)%string) t = r :: rest -> rest = [].
Proof.
  induction t as [|x t IH]; intros Hnd r rest; cbn; [discriminate|].
  inversion Hnd as [|? ? Hn Hd]; subst.
  destruct (key x =? k)%string eqn:E; [|now apply IH].
  intros H. inversion H; subst r rest. apply String.eqb_eq in E.
  apply filter_none. intros y Hy. apply String.eqb_neq. intros Hk.
  apply Hn. rewrite E, <- Hk. now apply in_map.
Qed.

Lemma filter_sql_update_other {R : Type} (q p : R -> bool) (f : R -> R) (t : list R) :
  (forall r, p r = true -> q r = false) ->
  (forall r, p r = true -> q (f r) = false) ->
  filter q (sql_update p f t) = filter q t.
Proof.
  intros H1 H2. unfold sql_update. induction t as [|r t IH]; [reflexivity|].
  cbn [map filter]. destruct (p r) eqn:E.
  - rewrite (H1 r E), (H2 r E). exact IH.
  - destruct (q r); [f_equal|]; exact IH.
Qed.

(** ** Organizations *)

(** X1. After a successful [addMember] the organization holds exactly one
    membership of that user, the one answered, and a second [addMember] for
    the same organization and user fails, with a conflict when its role is
    valid, and leaves the store as it is: no duplicate membership is ever
    inserted. *)
Theorem org_addMember_no_duplicate (db : Db) (orgId userId : string) (role : option string)
  (omRnd : string) (now : Z) (m : OrgMembership) (db1 : Db) :
  OrganizationsService.addMember orgId userId role omRnd now db = (Ok m, db1) ->
  filter (OrganizationsService.member_of orgId userId) (organization_memberships db1) = [m] /\
  forall role2 omRnd2 now2,
    exists e,
      OrganizationsService.addMember orgId userId role2 omRnd2 now2 db1 = (Err e, db1) /\
      (includes OrganizationsService.validRoles
                (match role2 with Some r => r | None => "VIEWER" end) = true ->
       e = DatabaseError tx_failed
             (ConflictError "El usuario ya es miembro de esta organización")).
Proof.
  rewrite org_addMember_eq. cbv zeta.
  destruct (falsy userId) eqn:Ef; [discriminate|].
  destruct (negb _); [discriminate|].
  destruct (List.length (filter _ (users db)) =? 0)%nat eqn:Eu; [discriminate|].
  destruct (List.length (filter _ (organizations db)) =? 0)%nat eqn:Eo; [discriminate|].
  destruct (filter (OrganizationsService.member_of orgId userId)
                   (organization_memberships db)) as [|x xs] eqn:Em; [|cbn; discriminate].
  cbn [List.length Nat.ltb Nat.leb]. intros H. inversion H; subst m db1. clear H.
  assert (filter (OrganizationsService.member_of orgId userId)
            (organization_memberships db ++
             [mkOrgMembership (generateId "om" omRnd) orgId userId
                (match role with Some r => r | None => "VIEWER" end) now now])
          = [mkOrgMembership (generateId "om" omRnd) orgId userId
               (match role with Some r => r | None => "VIEWER" end) now now]) as Hone.
  { rewrite filter_app, Em. cbn. unfold OrganizationsService.member_of. cbn.
    now rewrite !String.eqb_refl. }
  split; [exact Hone|].
  intros role2 omRnd2 now2. rewrite org_addMember_eq. cbv zeta. rewrite Ef.
  destruct (negb _) eqn:Ev; [eexists; split; [reflexivity|]|].
  - intros Hv. rewrite Hv in Ev. discriminate.
  - cbn [users organizations organization_memberships set_organization_memberships].
    rewrite Eu, Eo, Hone. cbn. eexists. split; [reflexivity|]. reflexivity.
Qed.

Lemma org_addMember_no_duplicate_witness :
  exists m db1,
    OrganizationsService.addMember "corg1" "usr_bo" (Some "ADMIN") "m3" 11 Sample.acme
      = (Ok m, db1) /\
    filter (OrganizationsService.member_of "corg1" "usr_bo") (organization_memberships db1)
      = [m] /\
    exists e,
      OrganizationsService.addMember "corg1" "usr_bo" (Some "OWNER") "m9" 12 db1 = (Err e, db1).
Proof.
  destruct (OrganizationsService.addMember "corg1" "usr_bo" (Some "ADMIN") "m3" 11 Sample.acme)
    as [[m|e] db1] eqn:E; [|exfalso; vm_compute in E; discriminate].
  exists m, db1. split; [reflexivity|].
  destruct (org_addMember_no_duplicate _ _ _ _ _ _ _ _ E) as [H1 H2].
  split; [exact H1|].
  destruct (H2 (Some "OWNER") "m9" 12) as (e & He & _). eauto.
Defined.

(** X2. [OrganizationsService.update] touches the organizations table only,
    and there only the name and the update stamp of the rows with the given
    id: [getById] on that id afterwards answers what the call answered, the
    answer is [null] exactly when no row had the id (and then nothing is
    written), every other organization reads as before, and identifiers are
    kept in place.  A blank name is rejected before any statement runs. *)
Theorem org_update_effect (id name : string) (now : Z) (db : Db) :
  match OrganizationsService.update id name now db with
  | (Ok r, db1) =>
      falsy (trim name) = false /\
      OrganizationsService.getById id db1 = r /\
      (forall row, r = Some row ->
         org_id row = id /\ org_name row = trim name /\ org_updated_at row = now /\
         exists old, OrganizationsService.getById id db = Some old /\
                     org_created_at row = org_created_at old) /\
      (r = None <-> OrganizationsService.getById id db = None) /\
      (r = None -> db1 = db) /\
      (forall id', id' <> id ->
         OrganizationsService.getById id' db1 = OrganizationsService.getById id' db) /\
      map org_id (organizations db1) = map org_id (organizations db) /\
      db1 = set_organizations (fun _ => organizations db1) db
  | (Err e, db1) =>
      e = BusinessLogicError "El nombre es requerido" /\ db1 = db /\
      falsy name || falsy (trim name) = true
  end.
Proof.
  unfold OrganizationsService.update. cbv zeta.
  destruct (falsy name || falsy (trim name)) eqn:Eb; [auto|].
  apply orb_false_iff in Eb as [_ Et].
  set (hit := fun o : Organization => (org_id o =? id)%string).
  set (f := OrganizationsService.rename (trim name) now).
  assert (forall q (r : Organization), (org_id (f r) =? q)%string = (org_id r =? q)%string)
    as Hid by reflexivity.
  assert (OrganizationsService.getById id
            (set_organizations (sql_update hit f) db)
          = option_map f (OrganizationsService.getById id db)) as Hget.
  { unfold OrganizationsService.getById. cbn [organizations set_organizations].
    fold hit. rewrite filter_sql_update by (intros r; apply Hid).
    apply hd_error_map. }
  assert (forall id', id' <> id ->
            OrganizationsService.getById id' (set_organizations (sql_update hit f) db)
            = OrganizationsService.getById id' db) as Hother.
  { intros id' Hne. unfold OrganizationsService.getById.
    cbn [organizations set_organizations].
    rewrite filter_sql_update_stable by (intros r; apply Hid).
    rewrite sql_update_filter_miss; [reflexivity|].
    intros r Hr. apply String.eqb_eq in Hr. unfold hit.
    apply String.eqb_neq. congruence. }
  assert (map org_id (sql_update hit f (organizations db)) = map org_id (organizations db))
    as Hids by (apply sql_update_keys; reflexivity).
  unfold sql_returning. fold hit f.
  unfold OrganizationsService.getById in Hget |- *. fold hit in Hget |- *.
  destruct (filter hit (organizations db)) as [|old rest] eqn:Ef; cbn [map].
  - assert (sql_update hit f (organizations db) = organizations db) as Hsame
        by (apply sql_update_none; now apply filter_empty_none).
    split; [exact Et|]. split; [exact Hget|]. split; [discriminate|].
    split; [tauto|]. split.
    { intros _. unfold set_organizations. rewrite Hsame. now destruct db. }
    split; [exact Hother|]. split; [exact Hids|]. reflexivity.
  - split; [exact Et|]. split; [exact Hget|]. split.
    { intros row H. inversion H; subst row. cbn.
      assert (In old (filter hit (organizations db))) as Hin by (rewrite Ef; now left).
      apply filter_In in Hin as [_ Hin]. apply String.eqb_eq in Hin.
      repeat split; auto. exists old. auto. }
    split; [split; discriminate|]. split; [discriminate|].
    split; [exact Hother|]. split; [exact Hids|]. reflexivity.
Qed.

(** X3. Renaming an organization keeps the membership invariant: memberships
    stay unique per organization and user, and every organization row, and
    every organization with a membership, keeps an OWNER. *)
Theorem org_update_keeps_invariant (id name : string) (now : Z) (db : Db) :
  org_invariant db ->
  org_invariant (snd (OrganizationsService.update id name now db)).
Proof.
  intros (Hu & Ho & Hm).
  unfold OrganizationsService.update. cbv zeta.
  destruct (falsy name || falsy (trim name)); [repeat split; assumption|].
  set (db1 := set_organizations _ db).
  assert (snd (match sql_returning (fun o => (org_id o =? id)%string)
                       (OrganizationsService.rename (trim name) now) (organizations db)
               with
               | [] => (Ok None, db1)
               | row :: _ => (Ok (Some row), db1)
               end) = db1) as -> by (now destruct (sql_returning _ _ _)).
  split; [exact Hu|]. split; [|exact Hm].
  intros o Hin. subst db1. cbn [organizations set_organizations] in Hin.
  apply sql_update_In in Hin as (o0 & Hin & [->| ->]); apply (Ho _ Hin).
Qed.

Lemma org_update_keeps_invariant_witness :
  org_invariant (snd (OrganizationsService.update "corg1" " Acme Labs " 15 Sample.acme)).
Proof.
  apply org_update_keeps_invariant.
  unfold org_invariant, org_unique, org_owned, org_members_owned.
  split; [vm_compute; repeat constructor; simpl; intuition discriminate|].
  split; intros x Hx; vm_compute in Hx; destruct Hx as [<-|[]]; vm_compute; lia.
Defined.

(** X4. A created organization can be read back.  When the identifier drawn
    for it is not in use and user identifiers are a key of the users table,
    [getById] answers the row that [create] answered, [getAll] lists it, and
    [getMembers] lists exactly one member: the creating user, as OWNER, with
    the name, email and image of the user row. *)
Theorem org_create_read_back (name userId orgRnd omRnd : string) (now : Z) (db db1 : Db)
  (o : Organization) :
  OrganizationsService.getById (generateId "org" orgRnd) db = None ->
  org_id_fresh (generateId "org" orgRnd) db ->
  NoDup (map user_id (users db)) ->
  OrganizationsService.create name userId orgRnd omRnd now db = (Ok o, db1) ->
  OrganizationsService.getById (org_id o) db1 = Some o /\
  In o (OrganizationsService.getAll db1) /\
  OrganizationsService.ownersCount (org_id o) db1 = 1%nat /\
  exists u,
    UsersService.getById userId db = Some u /\
    OrganizationsService.getMembers (org_id o) db1 =
    Ok [mkOrgMemberRow (generateId "om" omRnd) userId "OWNER" now now
                       (user_name u) (user_email u) (user_image u)].
Proof.
  intros Hnone Hfresh Hkey. rewrite org_create_eq. cbv zeta.
  destruct (falsy name || falsy (trim name)); [discriminate|].
  destruct (falsy userId); [discriminate|].
  destruct (filter (fun u => (user_id u =? userId)%string) (users db)) as [|u us] eqn:Eu;
    [discriminate|].
  cbn [List.length Nat.eqb]. intros H. inversion H; subst o db1. clear H.
  cbn [org_id].
  assert (us = []) as -> by (eapply (filter_key_unique user_id); eauto).
  assert (filter (fun o => (org_id o =? generateId "org" orgRnd)%string) (organizations db)
          = []) as Eo.
  { unfold OrganizationsService.getById in Hnone.
    destruct (filter _ (organizations db)); [reflexivity|discriminate]. }
  assert (filter (fun m => (om_org_id m =? generateId "org" orgRnd)%string)
                 (organization_memberships db) = []) as Em.
  { apply filter_none. intros m Hm. apply String.eqb_neq. now apply Hfresh. }
  assert (OrganizationsService.getById (generateId "org" orgRnd)
            (set_organization_memberships
               (fun t => t ++ [mkOrgMembership (generateId "om" omRnd)
                                 (generateId "org" orgRnd) userId "OWNER" now now])%list
               (set_organizations
                  (fun t => t ++ [mkOrganization (generateId "org" orgRnd) (trim name)
                                                 now now])%list db))
          = Some (mkOrganization (generateId "org" orgRnd) (trim name) now now)) as Hget.
  { unfold OrganizationsService.getById.
    cbn [organizations set_organizations set_organization_memberships].
    rewrite filter_app, Eo. cbn. now rewrite String.eqb_refl. }
  split; [exact Hget|]. split.
  { unfold OrganizationsService.getAll, order_desc_by. apply order_by_In.
    cbn [organizations set_organizations set_organization_memberships].
    apply in_or_app. right. now left. }
  split.
  { unfold OrganizationsService.ownersCount.
    cbn [organization_memberships set_organizations set_organization_memberships].
    rewrite filter_app.
    rewrite (filter_none (OrganizationsService.owner_of (generateId "org" orgRnd))
               (organization_memberships db)).
    - cbn. unfold OrganizationsService.owner_of. cbn. now rewrite String.eqb_refl.
    - intros m Hm. unfold OrganizationsService.owner_of.
      apply andb_false_iff. left. apply String.eqb_neq. now apply Hfresh. }
  exists u. split.
  { unfold UsersService.getById. now rewrite Eu. }
  unfold OrganizationsService.getMembers. rewrite Hget.
  cbn [organization_memberships users set_organizations set_organization_memberships].
  rewrite filter_app, Em. cbn [app filter om_org_id]. rewrite String.eqb_refl.
  cbn [flat_map om_user_id]. rewrite Eu. reflexivity.
Qed.

Lemma org_create_read_back_witness :
  exists o db1,
    OrganizationsService.create "Acme" "usr_ana" "corg1" "m1" 10 Sample.people = (Ok o, db1) /\
    OrganizationsService.getById "corg1" db1 = Some o /\
    OrganizationsService.getMembers "corg1" db1 =
    Ok [mkOrgMemberRow "om_m1" "usr_ana" "OWNER" 10 10 "Ana" "ana@example.org" None].
Proof.
  destruct (OrganizationsService.create "Acme" "usr_ana" "corg1" "m1" 10 Sample.people)
    as [[o|e] db1] eqn:E; [|exfalso; vm_compute in E; discriminate].
  exists o, db1. split; [reflexivity|].
  assert (org_id o = "corg1") as Hid by (vm_compute in E; now inversion E).
  assert (OrganizationsService.getById (generateId "org" "corg1") Sample.people = None)
    as H1 by reflexivity.
  assert (org_id_fresh (generateId "org" "corg1") Sample.people) as H2
      by (intros m Hm; destruct Hm).
  assert (NoDup (map user_id (users Sample.people))) as H3
      by (vm_compute; repeat constructor; simpl; intuition discriminate).
  destruct (org_create_read_back _ _ _ _ _ _ _ _ H1 H2 H3 E) as (Hg & _ & _ & u & Hu & Hm).
  rewrite Hid in Hg, Hm. split; [exact Hg|].
  vm_compute in Hu. inversion Hu; subst u. exact Hm.
Defined.

(** X5. A successful [removeMember] of an organization removes exactly the
    memberships of that organization and user and, with them, exactly the
    project memberships whose [org_membership_id] is one of the removed
    identifiers, in whatever project and with whatever role (no OWNER count
    of a project is consulted); every other row of the two tables is kept,
    and no other table is written. *)
Theorem org_removeMember_cascade (orgId userId : string) (db db1 : Db) (b : bool) :
  OrganizationsService.removeMember orgId userId db = (Ok b, db1) ->
  b = true /\
  (forall m, In m (organization_memberships db1) <->
             In m (organization_memberships db) /\
             ~ (om_org_id m = orgId /\ om_user_id m = userId)) /\
  (forall pm, In pm (project_memberships db1) <->
              In pm (project_memberships db) /\
              ~ exists m, In m (organization_memberships db) /\
                          om_org_id m = orgId /\ om_user_id m = userId /\
                          om_id m = pm_org_membership_id pm) /\
  db1 = set_organization_memberships (fun _ => organization_memberships db1)
          (set_project_memberships (fun _ => project_memberships db1) db).
Proof.
  rewrite org_removeMember_eq.
  destruct (filter (OrganizationsService.member_of orgId userId)
                   (organization_memberships db)) as [|current rest] eqn:Ef; [discriminate|].
  destruct (_ && _); [discriminate|]. rewrite <- Ef.
  intros H. inversion H; subst b db1. clear H.
  cbn [organization_memberships project_memberships set_organization_memberships
       set_project_memberships].
  split; [reflexivity|]. split; [|split; [|reflexivity]].
  - intros m. unfold sql_delete. rewrite filter_In, negb_true_iff.
    rewrite <- member_of_true.
    destruct (OrganizationsService.member_of orgId userId m); intuition congruence.
  - intros pm. unfold sql_delete. rewrite filter_In, negb_true_iff.
    split; intros [Hin Hk]; (split; [exact Hin|]).
    + intros (m & Hm & Ho & Hu & Hid).
      assert (includes (map om_id (filter (OrganizationsService.member_of orgId userId)
                                          (organization_memberships db)))
                       (pm_org_membership_id pm) = true) as Hinc; [|congruence].
      unfold includes. apply existsb_exists. exists (om_id m). split.
      * apply in_map, filter_In. split; [exact Hm|]. now apply member_of_true.
      * rewrite Hid. apply String.eqb_refl.
    + destruct (includes _ _) eqn:Hinc; [|reflexivity]. exfalso. apply Hk.
      unfold includes in Hinc. apply existsb_exists in Hinc as (i & Hi & E).
      apply String.eqb_eq in E. apply in_map_iff in Hi as (m & <- & Hm).
      apply filter_In in Hm as [Hm Hmem]. apply member_of_true in Hmem as [Ho Hu].
      exists m. auto.
Qed.

Lemma org_removeMember_cascade_witness :
  let db := pm_run [PmAddMember "cprj1" "usr_bo" (Some "ADMIN") "m4" 31] Sample.site_owned in
  map pm_user_id (project_memberships db) = ["usr_ana"; "usr_bo"] /\
  exists db1,
    OrganizationsService.removeMember "corg1" "usr_bo" db = (Ok true, db1) /\
    forall pm, In pm (project_memberships db1) <->
               In pm (project_memberships db) /\
               ~ exists m, In m (organization_memberships db) /\
                           om_org_id m = "corg1" /\ om_user_id m = "usr_bo" /\
                           om_id m = pm_org_membership_id pm.
Proof.
  cbv zeta. split; [reflexivity|].
  destruct (OrganizationsService.removeMember "corg1" "usr_bo"
              (pm_run [PmAddMember "cprj1" "usr_bo" (Some "ADMIN") "m4" 31] Sample.site_owned))
    as [[b|e] db1] eqn:E; [|exfalso; vm_compute in E; discriminate].
  destruct (org_removeMember_cascade _ _ _ _ _ E) as (-> & _ & H & _).
  exists db1. split; [reflexivity|exact H].
Defined.

(** ** Consistency of the membership tables *)

Ltac table_fields :=
  cbn [users organizations organization_memberships projects project_memberships
       api_keys accounts sessions
       set_users set_organizations set_organization_memberships set_projects
       set_project_memberships set_api_keys set_accounts set_sessions snd fst].

(** What a call of the project membership manager does to the tables of the
    organization manager. *)
Lemma pm_apply_org_tables (op : PmOp) (db : Db) :
  organizations (pm_apply op db) = organizations db /\
  projects (pm_apply op db) = projects db /\
  users (pm_apply op db) = users db /\
  (organization_memberships (pm_apply op db) = organization_memberships db \/
   exists p userId omId now,
     In p (projects db) /\
     filter (OrganizationsService.member_of (prj_org_id p) userId)
            (organization_memberships db) = [] /\
     organization_memberships (pm_apply op db) =
     (organization_memberships db ++
      [mkOrgMembership omId (prj_org_id p) userId "VIEWER" now now])%list).
Proof.
  destruct op; cbn [pm_apply].
  - rewrite pm_addMember_eq. cbv zeta.
    destruct (falsy userId); [auto|].
    destruct (negb _); [auto|].
    destruct (filter _ (projects db)) as [|project ?] eqn:Ep; [auto|].
    destruct (_ =? 0)%nat; [auto|].
    destruct (filter (ProjectMembershipsService.member_of projectId userId)
                     (project_memberships db)); [|auto].
    destruct (filter (OrganizationsService.member_of _ _) (organization_memberships db))
      eqn:Eo; table_fields; [|auto].
    repeat split. right. exists project, userId, (generateId "om" omRnd), now.
    repeat split; auto.
    assert (In project (filter (ProjectMembershipsService.live_project projectId)
                               (projects db))) as Hin by (rewrite Ep; now left).
    now apply filter_In in Hin.
  - rewrite pm_updateMember_eq. cbv zeta.
    repeat match goal with
           | |- context [if ?c then _ else _] => destruct c; auto
           | |- context [match ?l with [] => _ | _ :: _ => _ end] => destruct l; auto
           end.
  - rewrite pm_removeMember_eq.
    repeat match goal with
           | |- context [if ?c then _ else _] => destruct c; auto
           | |- context [match ?l with [] => _ | _ :: _ => _ end] => destruct l; auto
           end.
Qed.

Lemma owners_grow (orgId : string) (t : list OrgMembership) (m : OrgMembership) :
  (List.length (filter (OrganizationsService.owner_of orgId) t) <=
   List.length (filter (OrganizationsService.owner_of orgId) (t ++ [m])))%nat.
Proof. rewrite filter_app, length_app. lia. Qed.

Lemma pm_apply_org_invariant (op : PmOp) (db : Db) :
  org_invariant db -> projects_in_orgs db -> org_invariant (pm_apply op db).
Proof.
  intros (Hu & Ho & Hm) Hp.
  destruct (pm_apply_org_tables op db) as (Eo & _ & _ & [Em|Em]).
  - unfold org_invariant, org_unique, org_owned, org_members_owned,
      OrganizationsService.ownersCount in *. rewrite Eo, Em. auto.
  - destruct Em as (p & userId & omId & now & Hin & Hnone & Em).
    unfold org_invariant, org_unique, org_owned, org_members_owned,
      OrganizationsService.ownersCount in *. rewrite Eo, Em.
    split; [|split].
    + rewrite map_app. apply NoDup_snoc; [exact Hu|].
      intros Hk. apply in_map_iff in Hk as (m & Hk & Hmin).
      unfold org_key in Hk. cbn in Hk. inversion Hk as [[Hk1 Hk2]].
      assert (OrganizationsService.member_of (prj_org_id p) userId m = false) as Hf
          by (eapply filter_empty_none; eauto).
      assert (OrganizationsService.member_of (prj_org_id p) userId m = true) as Ht
          by (now apply member_of_true).
      congruence.
    + intros o Hoin. eapply Nat.le_trans; [apply (Ho o Hoin)|apply owners_grow].
    + intros m Hmin. apply in_app_or in Hmin as [Hmin|[<-|[]]].
      * eapply Nat.le_trans; [apply (Hm m Hmin)|apply owners_grow].
      * cbn [om_org_id]. destruct (Hp p Hin) as (o & Hoin & <-).
        eapply Nat.le_trans; [apply (Ho o Hoin)|apply owners_grow].
Qed.

(** A step that keeps the references of the project memberships it keeps
    and the identifiers of all organization memberships keeps [pm_refs]. *)
Lemma pm_refs_step (db db' : Db) :
  pm_refs db ->
  (forall pm, In pm (project_memberships db') ->
     exists pm0, In pm0 (project_memberships db) /\
                 pm_org_membership_id pm = pm_org_membership_id pm0 /\
                 pm_user_id pm = pm_user_id pm0) ->
  (forall om, In om (organization_memberships db) ->
     exists om', In om' (organization_memberships db') /\
                 om_id om' = om_id om /\ om_user_id om' = om_user_id om) ->
  pm_refs db'.
Proof.
  intros Hr Hpm Hom pm Hin.
  destruct (Hpm pm Hin) as (pm0 & Hin0 & E1 & E2).
  destruct (Hr pm0 Hin0) as (om & Hoin & E3 & E4).
  destruct (Hom om Hoin) as (om' & Hoin' & E5 & E6).
  exists om'. split; [exact Hoin'|]. split; congruence.
Qed.

Lemma sql_update_covers {R : Type} (p : R -> bool) (f : R -> R) (t : list R) (r : R) :
  In r t -> In r (sql_update p f t) \/ In (f r) (sql_update p f t).
Proof.
  intros H. unfold sql_update. destruct (p r) eqn:E.
  - right. apply in_map_iff. exists r. now rewrite E.
  - left. apply in_map_iff. exists r. now rewrite E.
Qed.

Lemma org_apply_refs (op : OrgOp) (db : Db) : pm_refs db -> pm_refs (org_apply op db).
Proof.
  intros Hr.
  assert (forall t, pm_refs (set_organization_memberships (fun x => x ++ t)%list db))
    as Grow.
  { intros t. apply (pm_refs_step db); [exact Hr| |]; table_fields.
    - intros pm H. eauto.
    - intros om H. exists om. split; [apply in_or_app|]; auto. }
  assert (forall hit role now,
            pm_refs (set_organization_memberships
                       (sql_update hit (OrganizationsService.with_role role now)) db))
    as Upd.
  { intros hit role now. apply (pm_refs_step db); [exact Hr| |]; table_fields.
    - intros pm H. eauto.
    - intros om H.
      destruct (sql_update_covers hit (OrganizationsService.with_role role now) _ _ H)
        as [H'|H']; eauto. }
  destruct op; cbn [org_apply].
  - rewrite org_create_eq. cbv zeta.
    repeat match goal with
           | |- context [if ?c then _ else _] => destruct c; [exact Hr|]
           end.
    table_fields.
    apply (pm_refs_step db); [exact Hr| |]; table_fields.
    + intros pm H. eauto.
    + intros om H. exists om. split; [apply in_or_app|]; auto.
  - rewrite org_addMember_eq. cbv zeta.
    repeat match goal with
           | |- context [if ?c then _ else _] => destruct c; [exact Hr|]
           end.
    apply Grow.
  - rewrite org_updateMember_eq. cbv zeta.
    repeat match goal with
           | |- context [if ?c then _ else _] =>
               destruct c; try exact Hr; try apply Upd
           | |- context [match ?l with [] => _ | _ :: _ => _ end] =>
               destruct l; try exact Hr; try apply Upd
           end.
  - rewrite org_removeMember_eq.
    destruct (filter (OrganizationsService.member_of orgId userId)
                     (organization_memberships db)) as [|current rest] eqn:Ef; [exact Hr|].
    destruct (_ && _); [exact Hr|]. rewrite <- Ef. table_fields.
    intros pm Hin. table_fields. cbn [project_memberships organization_memberships
      set_organization_memberships set_project_memberships] in Hin |- *.
    unfold sql_delete in Hin. apply filter_In in Hin as [Hin Hkeep].
    destruct (Hr pm Hin) as (om & Hoin & E1 & E2).
    exists om. split; [|auto].
    unfold sql_delete. apply filter_In. split; [exact Hoin|].
    destruct (OrganizationsService.member_of orgId userId om) eqn:Emem; [|reflexivity].
    exfalso. apply negb_true_iff in Hkeep.
    assert (includes (map om_id (filter (OrganizationsService.member_of orgId userId)
                                        (organization_memberships db)))
                     (pm_org_membership_id pm) = true) as Hinc; [|congruence].
    unfold includes. apply existsb_exists. exists (om_id om). split.
    + apply in_map. apply filter_In. auto.
    + rewrite E1. apply String.eqb_refl.
Qed.

Lemma pm_apply_refs (op : PmOp) (db : Db) : pm_refs db -> pm_refs (pm_apply op db).
Proof.
  intros Hr. destruct op; cbn [pm_apply].
  - rewrite pm_addMember_eq. cbv zeta.
    destruct (falsy userId); [exact Hr|].
    destruct (negb _); [exact Hr|].
    destruct (filter _ (projects db)) as [|project ?]; [exact Hr|].
    destruct (_ =? 0)%nat; [exact Hr|].
    destruct (filter (ProjectMembershipsService.member_of projectId userId)
                     (project_memberships db)); [|exact Hr].
    destruct (filter (OrganizationsService.member_of _ _) (organization_memberships db))
      as [|e es] eqn:Eo; table_fields; intros pm Hin; table_fields;
      cbn [project_memberships organization_memberships set_organization_memberships
           set_project_memberships] in Hin |- *;
      apply in_app_or in Hin as [Hin|[<-|[]]].
    + destruct (Hr pm Hin) as (om & Hoin & E). exists om.
      split; [apply in_or_app|]; auto.
    + eexists. split; [apply in_or_app; right; now left|]. cbn. auto.
    + apply (Hr pm Hin).
    + assert (In e (filter (OrganizationsService.member_of (prj_org_id project) userId)
                           (organization_memberships db))) as He by (rewrite Eo; now left).
      apply filter_In in He as [He Hm]. apply member_of_true in Hm as [_ Hm].
      exists e. cbn. auto.
  - rewrite pm_updateMember_eq. cbv zeta.
    assert (pm_refs (set_project_memberships
                       (sql_update (ProjectMembershipsService.member_of projectId userId)
                          (ProjectMembershipsService.with_role role now)) db)) as Upd.
    { apply (pm_refs_step db); [exact Hr| |]; table_fields.
      - intros pm H. apply sql_update_In in H as (pm0 & Hin & [->| ->]); eauto.
      - intros om H. eauto. }
    repeat match goal with
           | |- context [if ?c then _ else _] => destruct c; try exact Hr; try exact Upd
           | |- context [match ?l with [] => _ | _ :: _ => _ end] =>
               destruct l; try exact Hr; try exact Upd
           end.
  - rewrite pm_removeMember_eq.
    assert (pm_refs (set_project_memberships
                       (sql_delete (ProjectMembershipsService.member_of projectId userId))
                       db)) as Del.
    { apply (pm_refs_step db); [exact Hr| |]; table_fields.
      - intros pm H. apply sql_delete_In in H. eauto.
      - intros om H. eauto. }
    repeat match goal with
           | |- context [if ?c then _ else _] => destruct c; try exact Hr; try exact Del
           | |- context [match ?l with [] => _ | _ :: _ => _ end] =>
               destruct l; try exact Hr; try exact Del
           end.
Qed.

(** What a call of the organization manager does to the other tables. *)
Lemma org_apply_other_tables (op : OrgOp) (db : Db) :
  projects (org_apply op db) = projects db /\
  (forall o, In o (organizations db) -> In o (organizations (org_apply op db))) /\
  (project_memberships (org_apply op db) = project_memberships db \/
   exists hit, project_memberships (org_apply op db) = sql_delete hit (project_memberships db)).
Proof.
  destruct op; cbn [org_apply].
  - rewrite org_create_eq. cbv zeta.
    repeat match goal with
           | |- context [if ?c then _ else _] => destruct c; [auto|]
           end.
    table_fields. repeat split; auto. intros o H. apply in_or_app. auto.
  - rewrite org_addMember_eq. cbv zeta.
    repeat match goal with
           | |- context [if ?c then _ else _] => destruct c; [auto|]
           end.
    auto.
  - rewrite org_updateMember_eq. cbv zeta.
    repeat match goal with
           | |- context [if ?c then _ else _] => destruct c; auto
           | |- context [match ?l with [] => _ | _ :: _ => _ end] => destruct l; auto
           end.
  - rewrite org_removeMember_eq.
    destruct (filter _ (organization_memberships db)) as [|current rest] eqn:Ef; [auto|].
    destruct (_ && _); [auto|]. table_fields. repeat split; auto. right. eauto.
Qed.

Lemma admin_apply_consistent (op : AdminOp) (db : Db) :
  consistent db ->
  match op with
  | OrgCall (OrgCreate _ _ orgRnd _ _) => org_id_fresh (generateId "org" orgRnd) db
  | _ => True
  end ->
  consistent (admin_apply op db).
Proof.
  intros (Hi & Hu & Hp & Hr) Hf. destruct op as [op|op]; cbn [admin_apply].
  - destruct (org_apply_other_tables op db) as (Ep & Eo & Epm).
    split; [|split; [|split]].
    + apply org_apply_invariant; [exact Hi|]. destruct op; auto.
    + unfold pm_unique in *. destruct Epm as [->|[hit ->]]; [exact Hu|].
      now apply NoDup_map_filter.
    + unfold projects_in_orgs. rewrite Ep. intros p Hin.
      destruct (Hp p Hin) as (o & Hoin & E). eauto.
    + now apply org_apply_refs.
  - destruct (pm_apply_org_tables op db) as (Eo & Ep & _ & _).
    split; [|split; [|split]].
    + now apply pm_apply_org_invariant.
    + now apply pm_apply_unique.
    + unfold projects_in_orgs. now rewrite Eo, Ep.
    + now apply pm_apply_refs.
Qed.

(** X6. Along any interleaving of calls of the organization manager
    ([create], [addMember], [updateMember], [removeMember]) and of the
    project membership manager ([addMember], [updateMember], [removeMember]),
    successful or not, the membership tables stay consistent: memberships
    are unique per organization and user and per project and user, every
    organization keeps an OWNER, every project belongs to an organization
    row, and every project membership refers to an organization membership
    of the same user.  Identifiers drawn for new organizations are assumed
    not to collide. *)
Theorem admin_run_consistent (ops : list AdminOp) (db : Db) :
  consistent db -> admin_fresh ops db -> consistent (admin_run ops db).
Proof.
  revert db. induction ops as [|op ops IH]; intros db Hc Hf; [exact Hc|].
  destruct Hf as [Hf Hrest]. cbn [admin_run fold_left].
  apply IH; [|exact Hrest]. now apply admin_apply_consistent.
Qed.

Lemma admin_run_consistent_witness :
  consistent
    (admin_run [PmCall (PmAddMember "cprj1" "usr_bo" None "m4" 31);
                OrgCall (OrgRemoveMember "corg1" "usr_bo");
                OrgCall (OrgCreate "Beta" "usr_bo" "corg2" "m5" 40)]
               Sample.site_owned).
Proof.
  apply admin_run_consistent.
  - unfold consistent, org_invariant, org_unique, org_owned, org_members_owned,
      pm_unique, projects_in_orgs, pm_refs.
    repeat split.
    + vm_compute. repeat constructor; simpl; intuition discriminate.
    + intros o H. vm_compute in H. destruct H as [<-|[]]. vm_compute. lia.
    + intros m H. vm_compute in H. destruct H as [<-|[]]. vm_compute. lia.
    + vm_compute. repeat constructor; simpl; intuition discriminate.
    + intros p H. vm_compute in H. destruct H as [<-|[]].
      eexists. split; [vm_compute; left; reflexivity|reflexivity].
    + intros pm H. vm_compute in H. destruct H as [<-|[]].
      eexists. split; [vm_compute; left; reflexivity|]. split; reflexivity.
  - cbn [admin_fresh]. repeat split.
    intros m H. vm_compute in H.
    repeat (destruct H as [<-|H]; [vm_compute; discriminate|]). destruct H.
Defined.

(** ** Project memberships *)

Lemma joined_In (hit : ProjectMembership -> bool) (db : Db) (v : MemberView) :
  In v (ProjectMembershipsService.joined hit db) <->
  exists m u, In m (project_memberships db) /\ hit m = true /\
              In u (users db) /\ user_id u = pm_user_id m /\
              v = mkMemberView (pm_project_id m) (pm_user_id m) (pm_role m)
                               (pm_created_at m) (pm_updated_at m) (Some u).
Proof.
  unfold ProjectMembershipsService.joined. rewrite in_flat_map. split.
  - intros (m & Hm & Hv). apply filter_In in Hm as [Hm Hh].
    apply in_map_iff in Hv as (u & <- & Hu). apply filter_In in Hu as [Hu E].
    apply String.eqb_eq in E. exists m, u. auto.
  - intros (m & u & Hm & Hh & Hu & E & ->). exists m. split.
    + apply filter_In. auto.
    + apply in_map_iff. exists u. split; [reflexivity|].
      apply filter_In. split; [exact Hu|]. now apply String.eqb_eq.
Qed.

Lemma joined_none (hit : ProjectMembership -> bool) (db : Db) :
  filter hit (project_memberships db) = [] -> ProjectMembershipsService.joined hit db = [].
Proof. unfold ProjectMembershipsService.joined. now intros ->. Qed.

(** The rows that [getMember] reads for another project or user are not
    affected by a change of the memberships of [(projectId, userId)]. *)
Lemma getMember_other (projectId userId p u : string) (db db' : Db) :
  users db' = users db ->
  filter (ProjectMembershipsService.member_of p u) (project_memberships db') =
  filter (ProjectMembershipsService.member_of p u) (project_memberships db) ->
  ProjectMembershipsService.getMember p u db' = ProjectMembershipsService.getMember p u db.
Proof.
  intros Eu Em. unfold ProjectMembershipsService.getMember, ProjectMembershipsService.joined.
  now rewrite Eu, Em.
Qed.

Lemma pm_member_of_other (projectId userId p u : string) (m : ProjectMembership) :
  (p, u) <> (projectId, userId) ->
  ProjectMembershipsService.member_of projectId userId m = true ->
  ProjectMembershipsService.member_of p u m = false.
Proof.
  intros Hne Hm. apply pm_member_of_true in Hm as [<- <-].
  destruct (ProjectMembershipsService.member_of p u m) eqn:E; [|reflexivity].
  apply pm_member_of_true in E as [<- <-]. now elim Hne.
Qed.

(** X7. A member that [addMember] of a project has added can be read back:
    before the call [getMember] answers [null] for that project and user,
    after it [getMember] answers the very row that [addMember] answered and
    [getByProject] lists it; what [getMember] answers for any other project
    or user is not affected. *)
Theorem pm_addMember_read_back (projectId userId : string) (role : option string)
  (omRnd : string) (now : Z) (db db1 : Db) (v : MemberView) :
  ProjectMembershipsService.addMember projectId userId role omRnd now db = (Ok v, db1) ->
  ProjectMembershipsService.getMember projectId userId db = None /\
  ProjectMembershipsService.getMember projectId userId db1 = Some v /\
  (exists rows, ProjectMembershipsService.getByProject projectId db1 = Ok rows /\
                In v rows) /\
  (forall p u, (p, u) <> (projectId, userId) ->
     ProjectMembershipsService.getMember p u db1 =
     ProjectMembershipsService.getMember p u db).
Proof.
  rewrite pm_addMember_eq. cbv zeta.
  destruct (falsy userId); [discriminate|].
  destruct (negb _); [discriminate|].
  destruct (filter (ProjectMembershipsService.live_project projectId) (projects db))
    as [|project ps] eqn:Ep; [discriminate|].
  destruct (filter (fun u => (user_id u =? userId)%string) (users db)) as [|ur urs] eqn:Eu;
    [discriminate|].
  cbn [List.length Nat.eqb].
  destruct (filter (ProjectMembershipsService.member_of projectId userId)
                   (project_memberships db)) eqn:Em; [|discriminate].
  intros H. injection H as Hv Hdb.
  set (row := mkProjectMembership projectId userId _ _ now now) in *.
  assert (users db1 = users db) as Husers.
  { subst db1. destruct (filter (OrganizationsService.member_of _ _) _); reflexivity. }
  assert (projects db1 = projects db) as Hprojects.
  { subst db1. destruct (filter (OrganizationsService.member_of _ _) _); reflexivity. }
  assert (project_memberships db1 = (project_memberships db ++ [row])%list) as Hpms.
  { subst db1. destruct (filter (OrganizationsService.member_of _ _) _); reflexivity. }
  assert (ProjectMembershipsService.member_of projectId userId row = true) as Hrow
      by (apply pm_member_of_true; auto).
  assert (ProjectMembershipsService.joined
            (ProjectMembershipsService.member_of projectId userId) db1
          = map (fun u => mkMemberView projectId userId (pm_role row) now now (Some u))
                (ur :: urs)) as Hj.
  { unfold ProjectMembershipsService.joined. rewrite Husers, Hpms, filter_app, Em.
    cbn [app filter]. rewrite Hrow. cbn [flat_map]. rewrite app_nil_r.
    cbn [pm_user_id row]. rewrite Eu. reflexivity. }
  split; [|split; [|split]].
  - unfold ProjectMembershipsService.getMember. now rewrite joined_none.
  - unfold ProjectMembershipsService.getMember. rewrite Hj, <- Hv. reflexivity.
  - unfold ProjectMembershipsService.getByProject. rewrite Hprojects, Ep. cbn [hd_error].
    eexists. split; [reflexivity|]. rewrite <- Hv.
    unfold order_desc_by. apply order_by_In. apply joined_In.
    exists row, ur.
    assert (In ur (filter (fun u => (user_id u =? userId)%string) (users db))) as Hur
        by (rewrite Eu; now left).
    apply filter_In in Hur as [Hur Eid]. apply String.eqb_eq in Eid.
    rewrite Husers, Hpms. repeat split; auto.
    + apply in_or_app. right. now left.
    + cbn. apply String.eqb_refl.
  - intros p u Hne. apply (getMember_other projectId userId); [exact Husers|].
    rewrite Hpms, filter_app. cbn [filter].
    rewrite (pm_member_of_other projectId userId p u row Hne Hrow). apply app_nil_r.
Qed.

Lemma pm_addMember_read_back_witness :
  exists v db1,
    ProjectMembershipsService.addMember "cprj1" "usr_bo" (Some "MEMBER") "m4" 31
      Sample.site_owned = (Ok v, db1) /\
    ProjectMembershipsService.getMember "cprj1" "usr_bo" Sample.site_owned = None /\
    ProjectMembershipsService.getMember "cprj1" "usr_bo" db1 = Some v.
Proof.
  destruct (ProjectMembershipsService.addMember "cprj1" "usr_bo" (Some "MEMBER") "m4" 31
              Sample.site_owned) as [[v|e] db1] eqn:E;
    [|exfalso; vm_compute in E; discriminate].
  exists v, db1. split; [reflexivity|].
  destruct (pm_addMember_read_back _ _ _ _ _ _ _ _ E) as (H1 & H2 & _). auto.
Defined.

(** X8. After a successful [removeMember] of a project, [getMember] answers
    [null] for that project and user and [getByProject] no longer lists the
    user, while what [getMember] answers for any other project or user is
    not affected; the organization membership behind the removed project
    membership is kept. *)
Theorem pm_removeMember_read_back (projectId userId : string) (db db1 : Db) (b : bool) :
  ProjectMembershipsService.removeMember projectId userId db = (Ok b, db1) ->
  ProjectMembershipsService.getMember projectId userId db1 = None /\
  (forall rows v, ProjectMembershipsService.getByProject projectId db1 = Ok rows ->
                  In v rows -> mv_user_id v <> userId) /\
  (forall p u, (p, u) <> (projectId, userId) ->
     ProjectMembershipsService.getMember p u db1 =
     ProjectMembershipsService.getMember p u db) /\
  organization_memberships db1 = organization_memberships db.
Proof.
  rewrite pm_removeMember_eq.
  destruct (filter (ProjectMembershipsService.member_of projectId userId)
                   (project_memberships db)) as [|current rest] eqn:Em; [discriminate|].
  destruct (_ && _); [discriminate|].
  intros H. inversion H; subst b db1. clear H.
  split; [|split; [|split; [|reflexivity]]].
  - unfold ProjectMembershipsService.getMember. rewrite joined_none; [reflexivity|].
    cbn [project_memberships set_project_memberships]. apply sql_delete_clears.
  - intros rows v. unfold ProjectMembershipsService.getByProject.
    destruct (hd_error _); [|discriminate]. intros H. inversion H; subst rows. clear H.
    unfold order_desc_by. rewrite order_by_In, joined_In.
    intros (m & u & Hm & Hp & _ & _ & ->). cbn [mv_user_id]. intros Hu.
    cbn [project_memberships set_project_memberships] in Hm.
    unfold sql_delete in Hm. apply filter_In in Hm as [_ Hm].
    apply negb_true_iff in Hm. apply String.eqb_eq in Hp.
    assert (ProjectMembershipsService.member_of projectId userId m = true)
      by (now apply pm_member_of_true).
    congruence.
  - intros p u Hne. apply (getMember_other projectId userId); [reflexivity|].
    cbn [project_memberships set_project_memberships].
    rewrite filter_sql_delete. apply sql_delete_none.
    intros m Hm. apply filter_In in Hm as [_ Hm].
    destruct (ProjectMembershipsService.member_of projectId userId m) eqn:E; [|reflexivity].
    rewrite (pm_member_of_other projectId userId p u m Hne E) in Hm. discriminate.
Qed.

Lemma pm_removeMember_read_back_witness :
  let db := pm_run [PmAddMember "cprj1" "usr_bo" (Some "ADMIN") "m4" 31] Sample.site_owned in
  ProjectMembershipsService.getMember "cprj1" "usr_bo" db <> None /\
  exists db1,
    ProjectMembershipsService.removeMember "cprj1" "usr_bo" db = (Ok true, db1) /\
    ProjectMembershipsService.getMember "cprj1" "usr_bo" db1 = None /\
    organization_memberships db1 = organization_memberships db.
Proof.
  cbv zeta. split; [vm_compute; discriminate|].
  destruct (ProjectMembershipsService.removeMember "cprj1" "usr_bo"
              (pm_run [PmAddMember "cprj1" "usr_bo" (Some "ADMIN") "m4" 31] Sample.site_owned))
    as [[b|e] db1] eqn:E; [|exfalso; vm_compute in E; discriminate].
  assert (b = true) as -> by (vm_compute in E; now inversion E).
  exists db1. split; [reflexivity|].
  destruct (pm_removeMember_read_back _ _ _ _ _ E) as (H1 & _ & _ & H4). auto.
Defined.

(** X9. [getByProject] answers exactly the memberships of the project, each
    joined with its user, newest first, when the project has a row that is
    not soft-deleted, and a plain not-found error (status 404, not wrapped
    by the gateway) otherwise. *)
Theorem pm_getByProject_listing (projectId : string) (db : Db) :
  match ProjectMembershipsService.getByProject projectId db with
  | Ok rows =>
      (exists p, In p (projects db) /\ prj_id p = projectId /\ prj_deleted_at p = None) /\
      Sorted (fun a b => mv_created_at b <= mv_created_at a) rows /\
      (forall v, In v rows <->
         exists m u, In m (project_memberships db) /\ pm_project_id m = projectId /\
                     In u (users db) /\ user_id u = pm_user_id m /\
                     v = mkMemberView (pm_project_id m) (pm_user_id m) (pm_role m)
                                      (pm_created_at m) (pm_updated_at m) (Some u))
  | Err e =>
      e = NotFoundError "Proyecto" /\ error_status e = 404 /\
      forall p, In p (projects db) -> prj_id p = projectId -> prj_deleted_at p <> None
  end.
Proof.
  unfold ProjectMembershipsService.getByProject.
  destruct (filter (ProjectMembershipsService.live_project projectId) (projects db))
    as [|p ps] eqn:Ep; cbn [hd_error].
  - split; [reflexivity|]. split; [reflexivity|].
    intros p Hp Hid Hdel.
    assert (ProjectMembershipsService.live_project projectId p = false) as Hf
        by (eapply filter_empty_none; eauto).
    unfold ProjectMembershipsService.live_project in Hf.
    rewrite Hid, String.eqb_refl, Hdel in Hf. discriminate.
  - split; [|split].
    + assert (In p (filter (ProjectMembershipsService.live_project projectId) (projects db)))
        as Hin by (rewrite Ep; now left).
      apply filter_In in Hin as [Hin Hl].
      unfold ProjectMembershipsService.live_project in Hl.
      apply andb_true_iff in Hl as [Hid Hl]. apply String.eqb_eq in Hid.
      exists p. repeat split; auto. now destruct (prj_deleted_at p).
    + apply order_desc_by_sorted.
    + intros v. unfold order_desc_by. rewrite order_by_In, joined_In.
      split; intros (m & u & Hm & Hp & Hu & E & ->); exists m, u; repeat split; auto;
        [now apply String.eqb_eq in Hp | now apply String.eqb_eq].
Qed.

Lemma joined_no_user (userId : string) (db : Db) (l : list ProjectMembership) :
  filter (fun u => (user_id u =? userId)%string) (users db) = [] ->
  (forall m, In m l -> pm_user_id m = userId) ->
  flat_map (fun m =>
    map (fun u => mkMemberView (pm_project_id m) (pm_user_id m) (pm_role m)
                               (pm_created_at m) (pm_updated_at m) (Some u))
        (filter (fun u => (user_id u =? pm_user_id m)%string) (users db))) l = [].
Proof.
  intros Hu Hall. induction l as [|m l IH]; [reflexivity|].
  cbn [flat_map]. rewrite (Hall m (or_introl eq_refl)), Hu. cbn [map app].
  apply IH. intros x Hx. apply Hall. now right.
Qed.

(** X10. After a successful [updateMember] of a project the membership reads
    back with the new role: [getMember] answers the row that the call
    answered whenever the user has a row (the call itself answers without
    the user's columns otherwise), what [getMember] answers for any other
    project or user is not affected, and no organization membership is
    written. *)
Theorem pm_updateMember_read_back (projectId userId role : string) (now : Z) (db db1 : Db)
  (v : MemberView) :
  ProjectMembershipsService.updateMember projectId userId role now db = (Ok v, db1) ->
  mv_role v = role /\ mv_updated_at v = now /\
  ProjectMembershipsService.getMember projectId userId db1 =
    match mv_user v with Some _ => Some v | None => None end /\
  (forall p u, (p, u) <> (projectId, userId) ->
     ProjectMembershipsService.getMember p u db1 =
     ProjectMembershipsService.getMember p u db) /\
  organization_memberships db1 = organization_memberships db /\
  map pm_key (project_memberships db1) = map pm_key (project_memberships db).
Proof.
  rewrite pm_updateMember_eq. cbv zeta.
  destruct (falsy role); [discriminate|].
  destruct (negb _); [discriminate|].
  destruct (filter (ProjectMembershipsService.member_of projectId userId)
                   (project_memberships db)) as [|current rest] eqn:Em; [discriminate|].
  destruct (_ && _); [discriminate|].
  intros H. injection H as Hv Hdb. subst v db1.
  set (hit := ProjectMembershipsService.member_of projectId userId) in *.
  set (change := ProjectMembershipsService.with_role role now).
  assert (forall m, In m (current :: rest) -> pm_project_id m = projectId /\
                                              pm_user_id m = userId) as Hall.
  { intros m Hm. rewrite <- Em in Hm. apply filter_In in Hm as [_ Hm].
    now apply pm_member_of_true. }
  destruct (Hall current (or_introl eq_refl)) as [Hp Hu].
  split; [reflexivity|]. split; [reflexivity|]. split; [|split; [|split]].
  - unfold ProjectMembershipsService.getMember, ProjectMembershipsService.joined.
    cbn [users project_memberships set_project_memberships]. fold hit.
    rewrite filter_sql_update by reflexivity. rewrite Em.
    unfold ProjectMembershipsService.view.
    destruct (filter (fun u => (user_id u =? userId)%string) (users db)) as [|u us] eqn:Eu;
      cbn [hd_error mv_user].
    + rewrite (joined_no_user userId db (map change (current :: rest)) Eu); [reflexivity|].
      intros m Hm. apply in_map_iff in Hm as (m0 & <- & Hm0).
      now destruct (Hall m0 Hm0).
    + cbn [map flat_map pm_user_id pm_project_id pm_role pm_created_at pm_updated_at
           change ProjectMembershipsService.with_role].
      rewrite Hu, Eu. reflexivity.
  - intros p u Hne. apply (getMember_other projectId userId); [reflexivity|].
    cbn [project_memberships set_project_memberships].
    apply filter_sql_update_other; intros m Hm.
    + now apply (pm_member_of_other projectId userId).
    + apply (pm_member_of_other projectId userId p u (change m) Hne).
      apply pm_member_of_true in Hm as [<- <-]. now apply pm_member_of_true.
  - reflexivity.
  - cbn [project_memberships set_project_memberships]. now apply sql_update_keys.
Qed.

Lemma pm_updateMember_read_back_witness :
  exists v db1,
    ProjectMembershipsService.updateMember "cprj1" "usr_ana" "OWNER" 33 Sample.site_owned
      = (Ok v, db1) /\
    mv_role v = "OWNER" /\
    ProjectMembershipsService.getMember "cprj1" "usr_ana" db1 = Some v.
Proof.
  destruct (ProjectMembershipsService.updateMember "cprj1" "usr_ana" "OWNER" 33
              Sample.site_owned) as [[v|e] db1] eqn:E;
    [|exfalso; vm_compute in E; discriminate].
  exists v, db1. split; [reflexivity|].
  assert (mv_user v = Some Sample.ana) as Hu by (vm_compute in E; now inversion E).
  destruct (pm_updateMember_read_back _ _ _ _ _ _ _ E) as (H1 & _ & H3 & _).
  split; [exact H1|]. rewrite H3, Hu. reflexivity.
Defined.

(** X11. [addBatchMembers] throws only before its loop starts, and then
    outside any transaction: for an empty batch a business-rule error
    (status 400), for a project without a row that is not soft-deleted a
    not-found error (status 404); in both cases nothing is written.  Any
    other call returns a result. *)
Theorem addBatchMembers_rejects (projectId : string) (members : list BatchMember)
  (rnd : nat -> string) (clock : nat -> Z) (db : Db) :
  match ProjectMembershipsService.addBatchMembers projectId members rnd clock db with
  | (Err e, db') =>
      db' = db /\
      ((members = [] /\ e = BusinessLogicError "Se requiere un array de miembros válido" /\
        error_status e = 400) \/
       (members <> [] /\
        filter (ProjectMembershipsService.live_project projectId) (projects db) = [] /\
        e = NotFoundError "Proyecto" /\ error_status e = 404))
  | (Ok r, db') =>
      members <> [] /\
      filter (ProjectMembershipsService.live_project projectId) (projects db) <> [] /\
      (List.length (success r) + List.length (errors r) = List.length members)%nat
  end.
Proof.
  unfold ProjectMembershipsService.addBatchMembers.
  destruct members as [|m0 rest] eqn:Em; cbn [List.length Nat.eqb].
  - split; [reflexivity|]. left. auto.
  - rewrite <- Em.
    destruct (filter _ (projects db)) as [|p ps] eqn:Ep; cbn [hd_error].
    + split; [reflexivity|]. right. repeat split. rewrite Em. discriminate.
    + destruct (batch_loop_spec projectId members 0 rnd clock (mkBatchResult [] []) db)
        as (vs & es & ok & failed & H).
      destruct (ProjectMembershipsService.batch_loop _ members _ _ _ _ _) as [r db'].
      destruct H as (Hs & He & Hpart & Hok & Hfail). cbn in Hs, He. subst vs es.
      split; [rewrite Em; discriminate|]. split; [discriminate|].
      apply Forall2_length in Hok, Hfail. apply Partitioned_length in Hpart.
      rewrite Em in Hpart. cbn [List.length] in Hpart. lia.
Qed.

Lemma fold_addMember_consistent (projectId : string) (rnd : nat -> string)
  (clock : nat -> Z) (ims : list (nat * BatchMember)) (db : Db) :
  consistent db ->
  consistent
    (fold_left
       (fun d im =>
          if falsy (bm_userId (snd im)) then d
          else snd (ProjectMembershipsService.addMember projectId (bm_userId (snd im))
                      (Some (batch_role (snd im))) (rnd (fst im)) (clock (fst im)) d))
       ims db).
Proof.
  revert db. induction ims as [|im ims IH]; intros db Hc; [exact Hc|].
  cbn [fold_left]. apply IH. destruct (falsy _); [exact Hc|].
  apply (admin_apply_consistent
           (PmCall (PmAddMember projectId (bm_userId (snd im)) (Some (batch_role (snd im)))
                                (rnd (fst im)) (clock (fst im)))) db Hc I).
Qed.

(** X12. A batch keeps the membership tables consistent whatever its
    entries are: entries that repeat a user, name a user who is already a
    member or carry no user id end in [errors], never in a second
    membership of the same project and user, and every membership inserted
    refers to an organization membership of its user. *)
Theorem addBatchMembers_consistent (projectId : string) (members : list BatchMember)
  (rnd : nat -> string) (clock : nat -> Z) (db : Db) :
  consistent db ->
  consistent (snd (ProjectMembershipsService.addBatchMembers projectId members rnd clock db)).
Proof.
  intros Hc. unfold ProjectMembershipsService.addBatchMembers.
  destruct (List.length members =? 0)%nat; [exact Hc|].
  destruct (hd_error _); [|exact Hc].
  pose proof (batch_loop_store projectId members 0 rnd clock (mkBatchResult [] []) db)
    as Hstore.
  destruct (ProjectMembershipsService.batch_loop _ members _ _ _ _ _) as [r db'].
  cbn [snd] in Hstore |- *. rewrite Hstore. now apply fold_addMember_consistent.
Qed.

Lemma addBatchMembers_consistent_witness :
  let out := ProjectMembershipsService.addBatchMembers "cprj1"
               [mkBatchMember "usr_bo" (Some "ADMIN"); mkBatchMember "usr_bo" None;
                mkBatchMember "usr_ana" (Some "VIEWER")]
               (fun i => if (i =? 0)%nat then "m5" else "m6") (fun _ => 40)
               Sample.site_owned in
  consistent (snd out) /\
  map pm_key (project_memberships (snd out)) = [("cprj1", "usr_ana"); ("cprj1", "usr_bo")] /\
  option_map (fun r => (List.length (success r), List.length (errors r)))
             (match fst out with Ok r => Some r | Err _ => None end) = Some (1%nat, 2%nat).
Proof.
  cbv zeta. split; [|split; vm_compute; reflexivity].
  apply addBatchMembers_consistent.
  unfold consistent, org_invariant, org_unique, org_owned, org_members_owned,
    pm_unique, projects_in_orgs, pm_refs.
  repeat split.
  - vm_compute. repeat constructor; simpl; intuition discriminate.
  - intros o H. vm_compute in H. destruct H as [<-|[]]. vm_compute. lia.
  - intros m H. vm_compute in H. destruct H as [<-|[]]. vm_compute. lia.
  - vm_compute. repeat constructor; simpl; intuition discriminate.
  - intros p H. vm_compute in H. destruct H as [<-|[]].
    eexists. split; [vm_compute; left; reflexivity|reflexivity].
  - intros pm H. vm_compute in H. destruct H as [<-|[]].
    eexists. split; [vm_compute; left; reflexivity|]. split; reflexivity.
Defined.

(** X13. Changing the role of a user who has no membership fails and writes
    nothing, but the error differs with the path taken: the organization
    manager promotes to OWNER with a single statement outside any
    transaction and answers the plain not-found error (status 404), while
    every other role, and every role in the project manager, goes through
    the gateway and comes back wrapped (status 500). *)
Theorem updateMember_missing_status (db : Db) (id userId role : string) (now : Z) :
  (includes OrganizationsService.validRoles role = true ->
   filter (OrganizationsService.member_of id userId) (organization_memberships db) = [] ->
   exists e,
     OrganizationsService.updateMember id userId role now db = (Err e, db) /\
     error_status e = if (role =? "OWNER")%string then 404 else 500) /\
  (includes ProjectMembershipsService.validRoles role = true ->
   filter (ProjectMembershipsService.member_of id userId) (project_memberships db) = [] ->
   exists e,
     ProjectMembershipsService.updateMember id userId role now db = (Err e, db) /\
     error_status e = 500).
Proof.
  split; intros Hv Hn.
  - rewrite org_updateMember_eq. cbv zeta.
    assert (falsy role = false) as Hf.
    { destruct role; [vm_compute in Hv; discriminate Hv|reflexivity]. }
    rewrite Hf, Hv, Hn. cbn [negb].
    destruct (role =? "OWNER")%string; cbn [negb].
    + exists (NotFoundError "Membresía"). split; [|reflexivity].
      f_equal. unfold set_organization_memberships.
      rewrite sql_update_none by (now apply filter_empty_none). now destruct db.
    + eexists. split; reflexivity.
  - rewrite pm_updateMember_eq. cbv zeta.
    assert (falsy role = false) as Hf.
    { destruct role; [vm_compute in Hv; discriminate Hv|reflexivity]. }
    rewrite Hf, Hv, Hn. cbn [negb]. eexists. split; reflexivity.
Qed.

Lemma updateMember_missing_status_witness :
  (exists e, OrganizationsService.updateMember "corg1" "usr_bo" "OWNER" 50 Sample.acme
             = (Err e, Sample.acme) /\ error_status e = 404) /\
  (exists e, OrganizationsService.updateMember "corg1" "usr_bo" "ADMIN" 50 Sample.acme
             = (Err e, Sample.acme) /\ error_status e = 500) /\
  (exists e, ProjectMembershipsService.updateMember "cprj1" "usr_bo" "OWNER" 50 Sample.site
             = (Err e, Sample.site) /\ error_status e = 500).
Proof.
  split; [|split].
  - exact (proj1 (updateMember_missing_status Sample.acme "corg1" "usr_bo" "OWNER" 50)
             eq_refl eq_refl).
  - exact (proj1 (updateMember_missing_status Sample.acme "corg1" "usr_bo" "ADMIN" 50)
             eq_refl eq_refl).
  - exact (proj2 (updateMember_missing_status Sample.site "cprj1" "usr_bo" "OWNER" 50)
             eq_refl eq_refl).
Defined.

(** ** API keys *)


Lemma hd_error_filter_In {R : Type} (p : R -> bool) (t : list R) (r : R) :
  hd_error (filter p t) = Some r -> In r t /\ p r = true.
Proof.
  destruct (filter p t) as [|x xs] eqn:E; [discriminate|].
  intros H. inversion H; subst x. apply filter_In. rewrite E. now left.
Qed.


Lemma hd_filter_credential (publicKey : string) (l l' : list ApiKey) :
  map credential l = map credential l' ->
  option_map credential
    (hd_error (filter (fun k => (ak_public_key k =? publicKey)%string) l)) =
  option_map credential
    (hd_error (filter (fun k => (ak_public_key k =? publicKey)%string) l')).
Proof.
  revert l'. induction l as [|a l IH]; intros [|b l'] H; try discriminate; [reflexivity|].
  cbn [map] in H. apply cons_eq_inv in H as [Hab Hl]. cbn [filter].
  assert (ak_public_key a = ak_public_key b) as Hpk
      by (unfold credential in Hab; congruence).
  rewrite Hpk. destruct (ak_public_key b =? publicKey)%string; [|now apply IH].
  cbn [hd_error option_map]. now rewrite Hab.
Qed.

(** The answer of [verify] depends on the credential columns of the keys
    and on the projects only. *)
Lemma verify_credentials (publicKey secretKey : string) (now : Z) (db db' : Db) :
  map credential (api_keys db) = map credential (api_keys db') ->
  projects db = projects db' ->
  fst (ApiKeysService.verify publicKey secretKey now db) =
  fst (ApiKeysService.verify publicKey secretKey now db').
Proof.
  intros Hk Hp. unfold ApiKeysService.verify.
  destruct (falsy publicKey || falsy secretKey); [reflexivity|].
  pose proof (hd_filter_credential publicKey _ _ Hk) as Hhd. rewrite <- Hp.
  destruct (hd_error (filter _ (api_keys db))) as [a|];
    destruct (hd_error (filter _ (api_keys db'))) as [b|]; try discriminate;
    [|reflexivity].
  cbn in Hhd. unfold credential in Hhd. injection Hhd as _ Hh He Hpr.
  unfold ApiKeysService.expired. rewrite He, Hh, Hpr.
  repeat match goal with
         | |- context [if ?c then _ else _] => destruct c; try reflexivity
         | |- context [match ?l with Some _ => _ | None => _ end] =>
             destruct l; try reflexivity
         end.
Qed.

Lemma sql_update_credential (p : ApiKey -> bool) (f : ApiKey -> ApiKey) (t : list ApiKey) :
  (forall k, credential (f k) = credential k) ->
  map credential (sql_update p f t) = map credential t.
Proof. intros H. now apply sql_update_keys. Qed.

(** X15. Authentication does not depend on bookkeeping: what [verify]
    answers for any credentials is the same before and after another
    [verify] (which stamps the last use) and before and after [updateNote],
    whether those calls succeed or not. *)
Theorem verify_ignores_bookkeeping (publicKey secretKey : string) (now : Z) (db : Db) :
  (forall pk0 sk0 now0,
     fst (ApiKeysService.verify publicKey secretKey now
            (snd (ApiKeysService.verify pk0 sk0 now0 db))) =
     fst (ApiKeysService.verify publicKey secretKey now db)) /\
  (forall id note now0,
     fst (ApiKeysService.verify publicKey secretKey now
            (snd (ApiKeysService.updateNote id note now0 db))) =
     fst (ApiKeysService.verify publicKey secretKey now db)).
Proof.
  split.
  - intros pk0 sk0 now0. apply verify_credentials.
    + unfold ApiKeysService.verify.
      repeat match goal with
             | |- context [if ?c then _ else _] => destruct c; try reflexivity
             | |- context [match ?l with Some _ => _ | None => _ end] =>
                 destruct l; try reflexivity
             end.
      cbn [snd api_keys set_api_keys]. now apply sql_update_credential.
    + unfold ApiKeysService.verify.
      repeat match goal with
             | |- context [if ?c then _ else _] => destruct c; try reflexivity
             | |- context [match ?l with Some _ => _ | None => _ end] =>
                 destruct l; try reflexivity
             end.
  - intros id note now0. unfold ApiKeysService.updateNote. cbv zeta.
    match goal with
    | |- context [snd (match ?l with [] => (?x, ?d) | row :: _ => (@?y row, ?d) end)] =>
        replace (snd (match l with [] => (x, d) | row :: _ => (y row, d) end)) with d
          by (now destruct l)
    end.
    apply verify_credentials; [|reflexivity].
    cbn [api_keys set_api_keys]. now apply sql_update_credential.
Qed.

Lemma expired_mono (now now' : Z) (k : ApiKey) :
  now' <= now -> ApiKeysService.expired now k = false ->
  ApiKeysService.expired now' k = false.
Proof.
  unfold ApiKeysService.expired. destruct (ak_expires_at k) as [t|]; [|reflexivity].
  rewrite !Z.ltb_ge. lia.
Qed.

(** X16. [getExpired] lists exactly the keys whose expiration is set and
    lies strictly before the clock, earliest expiration first, and
    [cleanupExpired] deletes exactly those: it answers their number, keeps
    every other key as it is, writes no other table, and leaves nothing for
    a second run at the same or an earlier clock. *)
Theorem cleanupExpired_effect (now : Z) (db : Db) :
  let rows := ApiKeysService.getExpired now db in
  let db1 := snd (ApiKeysService.cleanupExpired now db) in
  (forall e, In e rows <->
     exists k t, In k (api_keys db) /\ ak_expires_at k = Some t /\ t < now /\
                 e = mkExpiredKey (ApiKeysService.key_view k) (ak_project_id k)) /\
  Sorted (fun a b => match kv_expires_at (ek_key a), kv_expires_at (ek_key b) with
                     | Some ta, Some tb => ta <= tb
                     | _, _ => False
                     end) rows /\
  fst (ApiKeysService.cleanupExpired now db) = List.length rows /\
  (forall k, In k (api_keys db1) <->
             In k (api_keys db) /\ ApiKeysService.expired now k = false) /\
  (List.length (api_keys db1) + List.length rows = List.length (api_keys db))%nat /\
  db1 = set_api_keys (fun _ => api_keys db1) db /\
  (forall now', now' <= now ->
     ApiKeysService.getExpired now' db1 = [] /\
     ApiKeysService.cleanupExpired now' db1 = (0%nat, db1)).
Proof.
  cbv zeta. unfold ApiKeysService.getExpired, ApiKeysService.cleanupExpired.
  cbn [fst snd api_keys set_api_keys].
  set (key := fun k : ApiKey => match ak_expires_at k with Some t => t | None => 0 end).
  split; [|split; [|split; [|split; [|split; [|split]]]]].
  - intros e. rewrite in_map_iff. split.
    + intros (k & <- & Hk). unfold order_asc_by in Hk.
      apply order_by_In, filter_In in Hk as [Hk Hx].
      unfold ApiKeysService.expired in Hx.
      destruct (ak_expires_at k) as [t|] eqn:Et; [|discriminate].
      apply Z.ltb_lt in Hx. exists k, t. auto.
    + intros (k & t & Hk & Et & Hlt & ->). exists k. split; [reflexivity|].
      unfold order_asc_by. apply order_by_In, filter_In. split; [exact Hk|].
      unfold ApiKeysService.expired. rewrite Et. now apply Z.ltb_lt.
  - assert (Forall (fun k => ApiKeysService.expired now k = true)
              (order_asc_by key (filter (ApiKeysService.expired now) (api_keys db))))
      as Hall.
    { apply Forall_forall. intros k Hk. unfold order_asc_by in Hk.
      now apply order_by_In, filter_In in Hk. }
    pose proof (order_asc_by_sorted key
                  (filter (ApiKeysService.expired now) (api_keys db))) as Hs.
    induction Hs as [|a l Hs IH Hhd]; cbn [map]; [constructor|].
    inversion Hall as [|? ? Ha Hl]; subst.
    constructor; [now apply IH|].
    destruct Hhd as [|b l Hab]; cbn [map]; constructor.
    inversion Hl as [|? ? Hb _]; subst.
    unfold ApiKeysService.expired in Ha, Hb. unfold key in Hab. cbn.
    destruct (ak_expires_at a); [|discriminate].
    destruct (ak_expires_at b); [|discriminate]. exact Hab.
  - rewrite length_map. unfold order_asc_by. now rewrite order_by_length.
  - intros k. unfold sql_delete. rewrite filter_In, negb_true_iff. tauto.
  - rewrite length_map. unfold order_asc_by. rewrite order_by_length.
    unfold sql_delete. induction (api_keys db) as [|k l IH]; [reflexivity|].
    cbn. destruct (ApiKeysService.expired now k); cbn; lia.
  - reflexivity.
  - intros now' Hle.
    assert (filter (ApiKeysService.expired now')
              (sql_delete (ApiKeysService.expired now) (api_keys db)) = []) as Hnone.
    { apply filter_none. intros k Hk. unfold sql_delete in Hk.
      apply filter_In in Hk as [_ Hk]. apply negb_true_iff in Hk.
      now apply (expired_mono now). }
    rewrite Hnone. split; [reflexivity|]. f_equal.
    unfold set_api_keys. cbn [api_keys users organizations organization_memberships
      projects project_memberships accounts sessions]. f_equal.
    apply sql_delete_none. now apply filter_empty_none.
Qed.

(** X17. Cleaning up never revokes a credential that still verifies: when
    [verify] answers a project at some clock, it answers the same project
    after a [cleanupExpired] run at that clock or an earlier one. *)
Theorem cleanupExpired_keeps_valid (publicKey secretKey : string) (now now' : Z) (db db1 : Db)
  (pd : ProjectData) :
  now' <= now ->
  ApiKeysService.verify publicKey secretKey now db = (Some pd, db1) ->
  fst (ApiKeysService.verify publicKey secretKey now
         (snd (ApiKeysService.cleanupExpired now' db))) = Some pd.
Proof.
  intros Hle. unfold ApiKeysService.verify, ApiKeysService.cleanupExpired.
  cbn [snd api_keys projects set_api_keys].
  destruct (falsy publicKey || falsy secretKey); [discriminate|].
  rewrite filter_sql_delete.
  destruct (filter (fun k => (ak_public_key k =? publicKey)%string) (api_keys db))
    as [|k ks]; [discriminate|]. cbn [hd_error].
  destruct (ApiKeysService.expired now k) eqn:Ex; [discriminate|].
  unfold sql_delete. cbn [filter]. rewrite (expired_mono now now' k Hle Ex).
  cbn [negb hd_error]. rewrite Ex.
  destruct (negb _); [discriminate|].
  destruct (hd_error _) as [p|]; [|discriminate].
  destruct (negb _); [discriminate|].
  intros H. inversion H. reflexivity.
Qed.

Lemma cleanupExpired_keeps_valid_witness :
  exists pd db1,
    ApiKeysService.verify (generateApiKey "pk" Sample.pk2) (generateApiKey "sk" Sample.sk2)
      4000 Sample.site_expiring = (Some pd, db1) /\
    fst (ApiKeysService.verify (generateApiKey "pk" Sample.pk2)
           (generateApiKey "sk" Sample.sk2) 4000
           (snd (ApiKeysService.cleanupExpired 3000 Sample.site_expiring))) = Some pd.
Proof.
  destruct (ApiKeysService.verify (generateApiKey "pk" Sample.pk2)
              (generateApiKey "sk" Sample.sk2) 4000 Sample.site_expiring)
    as [[pd|] db1] eqn:E; [|exfalso; vm_compute in E; discriminate].
  exists pd, db1. split; [reflexivity|].
  apply (cleanupExpired_keeps_valid _ _ 4000 3000 _ db1 pd); [lia|exact E].
Defined.

(** What [verify] answers when the first key with the public key holds the
    hash of the secret and its project is there and not soft-deleted: the
    expiration alone decides. *)
Lemma verify_first_key (publicKey secretKey : string) (now : Z) (db : Db)
  (k : ApiKey) (ks : list ApiKey) (p : Project) :
  falsy publicKey = false -> falsy secretKey = false ->
  filter (fun x => (ak_public_key x =? publicKey)%string) (api_keys db) = k :: ks ->
  ak_hashed_secret_key k = hashSecretKey secretKey ->
  hd_error (filter (fun x => (prj_id x =? ak_project_id k)%string) (projects db)) = Some p ->
  prj_deleted_at p = None ->
  fst (ApiKeysService.verify publicKey secretKey now db) =
  if ApiKeysService.expired now k then None
  else Some (mkProjectData (prj_id p) (prj_org_id p) (prj_name p)).
Proof.
  intros Hp Hs Hk Hh Hpr Hl. unfold ApiKeysService.verify.
  rewrite Hp, Hs, Hk. cbn [orb hd_error].
  destruct (ApiKeysService.expired now k); [reflexivity|].
  rewrite Hh, String.eqb_refl, Hpr. unfold ApiKeysService.live. rewrite Hl. reflexivity.
Qed.

Lemma verify_no_key (publicKey secretKey : string) (now : Z) (db : Db) :
  filter (fun x => (ak_public_key x =? publicKey)%string) (api_keys db) = [] ->
  ApiKeysService.verify publicKey secretKey now db = (None, db).
Proof.
  intros H. unfold ApiKeysService.verify. rewrite H.
  now destruct (falsy publicKey || falsy secretKey).
Qed.

(** X18. The stored expiration alone decides whether a good credential
    verifies, and [updateExpiration] sets it: for a key pair that would
    verify but for its expiration, after a successful [updateExpiration]
    of that key [verify] answers the project exactly as long as the clock
    has not passed the expiration that the call answered, and at every
    clock when the call cleared it; a key that had expired is revived. *)
Theorem updateExpiration_governs_verify (id : string) (expiresAt : DateArg) (now : Z)
  (db db1 : Db) (v : KeyView) (publicKey secretKey : string) (k : ApiKey) (p : Project) :
  falsy publicKey = false -> falsy secretKey = false ->
  hd_error (filter (fun x => (ak_public_key x =? publicKey)%string) (api_keys db)) = Some k ->
  ak_id k = id ->
  ak_hashed_secret_key k = hashSecretKey secretKey ->
  hd_error (filter (fun x => (prj_id x =? ak_project_id k)%string) (projects db)) = Some p ->
  prj_deleted_at p = None ->
  ApiKeysService.updateExpiration id expiresAt now db = (Ok v, db1) ->
  ApiKeysService.parseExpiresAt expiresAt now = Ok (kv_expires_at v) /\
  forall now',
    fst (ApiKeysService.verify publicKey secretKey now' db1) =
    match kv_expires_at v with
    | Some t => if t <? now' then None
                else Some (mkProjectData (prj_id p) (prj_org_id p) (prj_name p))
    | None => Some (mkProjectData (prj_id p) (prj_org_id p) (prj_name p))
    end.
Proof.
  intros Hp Hs Hk Hid Hh Hpr Hl. unfold ApiKeysService.updateExpiration.
  destruct (ApiKeysService.parseExpiresAt expiresAt now) as [parsed|e]; [|discriminate].
  cbv zeta. unfold sql_returning.
  destruct (filter (fun x => (ak_id x =? id)%string) (api_keys db)) as [|row rows] eqn:Ei;
    [discriminate|].
  cbn [map]. intros H. injection H as Hv Hdb. subst v db1.
  cbn [kv_expires_at ApiKeysService.key_view ApiKeysService.with_expiration ak_expires_at].
  split; [reflexivity|]. intros now'.
  destruct (filter (fun x => (ak_public_key x =? publicKey)%string) (api_keys db))
    as [|k0 ks] eqn:Epk; [discriminate|]. cbn [hd_error] in Hk. injection Hk as ->.
  rewrite (verify_first_key publicKey secretKey now' _
             (ApiKeysService.with_expiration parsed now k)
             (sql_update (fun x => (ak_id x =? id)%string)
                         (ApiKeysService.with_expiration parsed now) ks) p Hp Hs).
  - unfold ApiKeysService.expired. cbn [ak_expires_at ApiKeysService.with_expiration].
    destruct parsed as [t|]; reflexivity.
  - cbn [api_keys set_api_keys].
    rewrite filter_sql_update_stable by reflexivity. rewrite Epk.
    unfold sql_update at 1. cbn [map]. rewrite Hid, String.eqb_refl. reflexivity.
  - exact Hh.
  - exact Hpr.
  - exact Hl.
Qed.

Lemma updateExpiration_governs_verify_witness :
  let pub := generateApiKey "pk" Sample.pk2 in
  let sec := generateApiKey "sk" Sample.sk2 in
  fst (ApiKeysService.verify pub sec 6000 Sample.site_expiring) = None /\
  exists v db1,
    ApiKeysService.updateExpiration "key_k2" (ArgDate (Some 9000)) 6000 Sample.site_expiring
      = (Ok v, db1) /\
    fst (ApiKeysService.verify pub sec 7000 db1)
      = Some (mkProjectData "cprj1" "corg1" "Site") /\
    fst (ApiKeysService.verify pub sec 9001 db1) = None.
Proof.
  cbv zeta. split; [vm_compute; reflexivity|].
  destruct (ApiKeysService.updateExpiration "key_k2" (ArgDate (Some 9000)) 6000
              Sample.site_expiring) as [[v|e] db1] eqn:E;
    [|exfalso; vm_compute in E; discriminate].
  exists v, db1. split; [reflexivity|].
  assert (kv_expires_at v = Some 9000) as Hv by (vm_compute in E; now inversion E).
  set (k := mkApiKey "key_k2" "cprj1" 100 None (generateApiKey "pk" Sample.pk2)
                     (hashSecretKey (generateApiKey "sk" Sample.sk2))
                     (displaySecretKey (generateApiKey "sk" Sample.sk2))
                     (Some "ci") (Some 5000) None).
  set (p := mkProject "cprj1" "Site" "corg1" 20 20 None).
  assert (hd_error (filter (fun x => (ak_public_key x =? generateApiKey "pk" Sample.pk2)%string)
                           (api_keys Sample.site_expiring)) = Some k) as A1
      by (vm_compute; reflexivity).
  assert (hd_error (filter (fun x => (prj_id x =? ak_project_id k)%string)
                           (projects Sample.site_expiring)) = Some p) as A2
      by (vm_compute; reflexivity).
  destruct (updateExpiration_governs_verify "key_k2" (ArgDate (Some 9000)) 6000
              Sample.site_expiring db1 v
              (generateApiKey "pk" Sample.pk2) (generateApiKey "sk" Sample.sk2) k p
              eq_refl eq_refl A1 eq_refl eq_refl A2 eq_refl E) as [_ H].
  split.
  - rewrite (H 7000), Hv. reflexivity.
  - rewrite (H 9001), Hv. reflexivity.
Defined.

Lemma filter_sql_update_moved {R : Type} (q p : R -> bool) (f : R -> R) (t : list R) :
  (forall r, q (f r) = true) ->
  (forall r, In r t -> p r = false -> q r = false) ->
  filter q (sql_update p f t) = map f (filter p t).
Proof.
  intros Hf Hq. unfold sql_update. induction t as [|r t IH]; [reflexivity|].
  cbn [map filter]. destruct (p r) eqn:E.
  - rewrite Hf. cbn [map]. f_equal. apply IH. intros x Hx. apply Hq. now right.
  - rewrite (Hq r (or_introl eq_refl) E). apply IH. intros x Hx. apply Hq. now right.
Qed.

Lemma filter_sql_update_gone {R : Type} (q p : R -> bool) (f : R -> R) (t : list R) :
  (forall r, q (f r) = false) ->
  (forall r, In r t -> q r = true -> p r = true) ->
  filter q (sql_update p f t) = [].
Proof.
  intros Hf Hq. apply filter_none. intros x Hx. unfold sql_update in Hx.
  apply in_map_iff in Hx as (r & <- & Hr). destruct (p r) eqn:E; [apply Hf|].
  destruct (q r) eqn:Eq; [|reflexivity]. rewrite (Hq r Hr Eq) in E. discriminate.
Qed.

(** What [verify] answers when the first key with the public key holds the
    hash of the secret: the expiration and the project decide. *)
Lemma verify_matching_key (publicKey secretKey : string) (now : Z) (db : Db)
  (k : ApiKey) (ks : list ApiKey) :
  falsy publicKey = false -> falsy secretKey = false ->
  filter (fun x => (ak_public_key x =? publicKey)%string) (api_keys db) = k :: ks ->
  ak_hashed_secret_key k = hashSecretKey secretKey ->
  fst (ApiKeysService.verify publicKey secretKey now db) =
  match hd_error (filter (fun x => (prj_id x =? ak_project_id k)%string) (projects db)) with
  | Some p =>
      if ApiKeysService.live p && negb (ApiKeysService.expired now k)
      then Some (mkProjectData (prj_id p) (prj_org_id p) (prj_name p))
      else None
  | None => None
  end.
Proof.
  intros Hp Hs Hk Hh. unfold ApiKeysService.verify.
  rewrite Hp, Hs, Hk. cbn [orb hd_error]. rewrite Hh, String.eqb_refl. cbn [negb].
  destruct (ApiKeysService.expired now k);
    destruct (hd_error (filter _ (projects db))) as [p|];
    try destruct (ApiKeysService.live p); reflexivity.
Qed.

(** X19. [regenerate] revokes the old pair and puts the new one in force,
    without looking at the project.  When the new public key is not in use
    and the old public key belongs to this key alone, then after a
    successful [regenerate] the old public key verifies with no secret at
    any clock, and the new public key with the secret that the call answered
    verifies exactly when the key's project has a row that is not
    soft-deleted and the clock has not passed the expiration that the call
    answered; for a key of a project that is missing or soft-deleted
    [regenerate] succeeds all the same and the new pair never verifies. *)
Theorem regenerate_then_verify (id : string) (expiresAt : DateArg)
  (pkBytes skBytes : list Byte.byte) (now : Z) (db db1 : Db) (r : RegeneratedKey)
  (old : ApiKey) :
  hd_error (filter (fun k => (ak_id k =? id)%string) (api_keys db)) = Some old ->
  (forall k, In k (api_keys db) -> ak_public_key k <> generateApiKey "pk" pkBytes) ->
  (forall k, In k (api_keys db) -> ak_public_key k = ak_public_key old -> ak_id k = id) ->
  ApiKeysService.regenerate id expiresAt pkBytes skBytes now db = (Ok r, db1) ->
  (forall secretKey now',
     ApiKeysService.verify (ak_public_key old) secretKey now' db1 = (None, db1)) /\
  (forall now',
     fst (ApiKeysService.verify (generateApiKey "pk" pkBytes) (rk_secretKey r) now' db1) =
     match hd_error (filter (fun x => (prj_id x =? ak_project_id old)%string)
                            (projects db)) with
     | Some p =>
         if ApiKeysService.live p &&
            negb (match option_map kv_expires_at (rk_key r) with
                  | Some (Some t) => t <? now'
                  | _ => false
                  end)
         then Some (mkProjectData (prj_id p) (prj_org_id p) (prj_name p))
         else None
     | None => None
     end).
Proof.
  intros Hold Hfresh Hown. rewrite regenerate_eq.
  destruct (ApiKeysService.parseExpiresAt expiresAt now) as [parsed|e]; [|discriminate].
  destruct (filter (fun k => (ak_id k =? id)%string) (api_keys db)) as [|k0 ks] eqn:Ei;
    [discriminate|]. cbn [hd_error] in Hold. injection Hold as ->.
  cbv zeta. intros H. injection H as Hr Hdb. subst r db1.
  set (expires := match ApiKeysService.is_null expiresAt, ak_expires_at old with
                  | true, Some stored => Some stored
                  | _, _ => parsed
                  end).
  set (change := ApiKeysService.rekey _ _ _ expires now).
  assert (In old (api_keys db)) as Hin.
  { assert (In old (filter (fun k => (ak_id k =? id)%string) (api_keys db))) as H
        by (rewrite Ei; now left).
    now apply filter_In in H. }
  split.
  - intros secretKey now'. apply verify_no_key. cbn [api_keys set_api_keys].
    apply filter_sql_update_gone.
    + intros k. unfold change, ApiKeysService.rekey. cbn [ak_public_key].
      apply String.eqb_neq. intros E. now apply (Hfresh old Hin).
    + intros k Hk E. apply String.eqb_eq in E. apply String.eqb_eq. now apply Hown.
  - intros now'. cbn [rk_key rk_secretKey option_map].
    rewrite (verify_matching_key _ _ now' _ (change old) (map change ks)).
    + cbn [projects set_api_keys].
      unfold ApiKeysService.expired, change, ApiKeysService.rekey, ApiKeysService.key_view.
      cbn [ak_expires_at ak_project_id kv_expires_at].
      destruct (hd_error _) as [p|]; [|reflexivity].
      destruct expires; reflexivity.
    + apply generateApiKey_truthy.
    + apply generateApiKey_truthy.
    + cbn [api_keys set_api_keys]. rewrite filter_sql_update_moved.
      * rewrite Ei. reflexivity.
      * intros k. unfold change, ApiKeysService.rekey. cbn [ak_public_key].
        apply String.eqb_refl.
      * intros k Hk _. apply String.eqb_neq. now apply Hfresh.
    + reflexivity.
Qed.

Lemma regenerate_then_verify_witness :
  let deleted := snd (ProjectsService.delete "cprj1" 40 Sample.site) in
  (exists r db1,
     ApiKeysService.regenerate "key_k1" ArgNull Sample.pk2 Sample.sk2 50 Sample.site
       = (Ok r, db1) /\
     ApiKeysService.verify (generateApiKey "pk" Sample.pk1) (generateApiKey "sk" Sample.sk1)
       60 db1 = (None, db1) /\
     fst (ApiKeysService.verify (generateApiKey "pk" Sample.pk2) (rk_secretKey r) 60 db1)
       = Some (mkProjectData "cprj1" "corg1" "Site")) /\
  (exists r db1,
     ApiKeysService.regenerate "key_k1" ArgNull Sample.pk2 Sample.sk2 50 deleted
       = (Ok r, db1) /\
     fst (ApiKeysService.verify (generateApiKey "pk" Sample.pk2) (rk_secretKey r) 60 db1)
       = None).
Proof.
  cbv zeta.
  set (old := mkApiKey "key_k1" "cprj1" 20 None (generateApiKey "pk" Sample.pk1)
                       (hashSecretKey (generateApiKey "sk" Sample.sk1))
                       (displaySecretKey (generateApiKey "sk" Sample.sk1))
                       None None None).
  assert (forall db, api_keys db = [old] ->
            hd_error (filter (fun k => (ak_id k =? "key_k1")%string) (api_keys db))
              = Some old /\
            (forall k, In k (api_keys db) ->
                       ak_public_key k <> generateApiKey "pk" Sample.pk2) /\
            (forall k, In k (api_keys db) ->
                       ak_public_key k = ak_public_key old -> ak_id k = "key_k1")) as A.
  { intros db ->. split; [reflexivity|]. split.
    - intros k [<-|[]]. vm_compute. discriminate.
    - intros k [<-|[]] _. reflexivity. }
  split.
  - destruct (ApiKeysService.regenerate "key_k1" ArgNull Sample.pk2 Sample.sk2 50
                Sample.site) as [[r|e] db1] eqn:E;
      [|exfalso; vm_compute in E; discriminate].
    exists r, db1. split; [reflexivity|].
    assert (option_map kv_expires_at (rk_key r) = Some None) as Hr
        by (vm_compute in E; now inversion E).
    destruct (A Sample.site ltac:(vm_compute; reflexivity)) as (A1 & A2 & A3).
    destruct (regenerate_then_verify "key_k1" ArgNull Sample.pk2 Sample.sk2 50 Sample.site
                db1 r old A1 A2 A3 E) as [H1 H2].
    split; [apply (H1 (generateApiKey "sk" Sample.sk1) 60)|].
    rewrite (H2 60), Hr. vm_compute. reflexivity.
  - destruct (ApiKeysService.regenerate "key_k1" ArgNull Sample.pk2 Sample.sk2 50
                (snd (ProjectsService.delete "cprj1" 40 Sample.site)))
      as [[r|e] db1] eqn:E; [|exfalso; vm_compute in E; discriminate].
    exists r, db1. split; [reflexivity|].
    destruct (A (snd (ProjectsService.delete "cprj1" 40 Sample.site))
                ltac:(vm_compute; reflexivity)) as (A1 & A2 & A3).
    destruct (regenerate_then_verify "key_k1" ArgNull Sample.pk2 Sample.sk2 50 _
                db1 r old A1 A2 A3 E) as [_ H2].
    rewrite (H2 60). vm_compute. reflexivity.
Defined.

(** X20. [ApiKeysService.delete] removes the rows with the identifier and
    nothing else: afterwards [getById] and a second [delete] answer a plain
    not-found error, a public key that belonged to that key alone verifies
    with no secret, and every other key row is kept as it is.  A [delete]
    that fails writes nothing. *)
Theorem apikey_delete_effect (id : string) (db : Db) :
  match ApiKeysService.delete id db with
  | (Ok b, db1) =>
      b = true /\
      (exists k, In k (api_keys db) /\ ak_id k = id) /\
      (forall k, In k (api_keys db1) <-> In k (api_keys db) /\ ak_id k <> id) /\
      db1 = set_api_keys (fun _ => api_keys db1) db /\
      ApiKeysService.getById id db1 = Err (NotFoundError "API key") /\
      ApiKeysService.delete id db1 = (Err (NotFoundError "API key"), db1) /\
      (forall publicKey secretKey now,
         (forall k, In k (api_keys db) -> ak_public_key k = publicKey -> ak_id k = id) ->
         ApiKeysService.verify publicKey secretKey now db1 = (None, db1))
  | (Err e, db1) =>
      e = NotFoundError "API key" /\ error_status e = 404 /\ db1 = db /\
      forall k, In k (api_keys db) -> ak_id k <> id
  end.
Proof.
  unfold ApiKeysService.delete. cbv zeta.
  set (hit := fun k : ApiKey => (ak_id k =? id)%string).
  assert (forall d, filter hit (api_keys d) = [] ->
            set_api_keys (sql_delete hit) d = d) as Hsame.
  { intros d H. unfold set_api_keys. rewrite sql_delete_none by (now apply filter_empty_none).
    now destruct d. }
  destruct (filter hit (api_keys db)) as [|k0 ks] eqn:Ef.
  - split; [reflexivity|]. split; [reflexivity|]. split; [now apply Hsame|].
    intros k Hk E. apply (filter_empty_none _ _ Ef) in Hk. unfold hit in Hk.
    apply String.eqb_neq in Hk. contradiction.
  - assert (filter hit (api_keys (set_api_keys (sql_delete hit) db)) = []) as Hnone
        by (cbn [api_keys set_api_keys]; apply sql_delete_clears).
    split; [reflexivity|]. split; [|split; [|split; [reflexivity|split; [|split]]]].
    + assert (In k0 (filter hit (api_keys db))) as Hin by (rewrite Ef; now left).
      apply filter_In in Hin as [Hin E]. apply String.eqb_eq in E. eauto.
    + intros k. cbn [api_keys set_api_keys]. unfold sql_delete, hit.
      rewrite filter_In, negb_true_iff, String.eqb_neq. tauto.
    + unfold ApiKeysService.getById. fold hit. now rewrite Hnone.
    + unfold ApiKeysService.delete. cbv zeta. fold hit. rewrite Hnone.
      now rewrite (Hsame _ Hnone).
    + intros publicKey secretKey now Hown. apply verify_no_key.
      cbn [api_keys set_api_keys]. apply filter_none. intros k Hk.
      unfold sql_delete in Hk. apply filter_In in Hk as [Hk Hn].
      apply negb_true_iff in Hn. unfold hit in Hn. apply String.eqb_neq in Hn.
      apply String.eqb_neq. intros E. apply Hn. now apply Hown.
Qed.

Lemma insert_desc_insert_by (k : ApiKey) (sorted : list ApiKey) :
  ApiKeysService.insert_desc k sorted =
  insert_by (fun r r' => ak_created_at r' <? ak_created_at r) k sorted.
Proof.
  induction sorted as [|k' rest IH]; [reflexivity|].
  cbn. now rewrite IH.
Qed.

Lemma order_desc_order_by (rows : list ApiKey) :
  ApiKeysService.order_desc rows = order_desc_by ak_created_at rows.
Proof.
  unfold ApiKeysService.order_desc, order_desc_by, order_by.
  induction rows as [|k rows IH]; [reflexivity|].
  cbn [fold_right]. now rewrite IH, insert_desc_insert_by.
Qed.

(** X21. The listings of the API keys.  [getByProject] answers the keys of
    the project, one row for each and nothing else, newest first, whether or
    not the project is soft-deleted; [getById] answers a key with that
    identifier joined with its project, and only when that project is not
    soft-deleted; no row of either listing has a column for the stored
    hash. *)
Theorem apikey_listings (id : string) (db : Db) :
  Sorted (fun a b => kv_created_at b <= kv_created_at a)
         (ApiKeysService.getByProject id db) /\
  Permutation (ApiKeysService.getByProject id db)
              (map ApiKeysService.key_view
                   (filter (fun k => (ak_project_id k =? id)%string) (api_keys db))) /\
  (forall v, In v (ApiKeysService.getByProject id db) <->
             exists k, In k (api_keys db) /\ ak_project_id k = id /\
                       v = ApiKeysService.key_view k) /\
  match ApiKeysService.getById id db with
  | Ok d =>
      exists k p, In k (api_keys db) /\ ak_id k = id /\
                  In p (projects db) /\ prj_id p = ak_project_id k /\
                  prj_deleted_at p = None /\
                  d = mkKeyDetail (ApiKeysService.key_view k) (prj_id p) (prj_name p)
  | Err e =>
      e = NotFoundError "API key" /\
      forall k p, In k (api_keys db) -> ak_id k = id ->
                  In p (projects db) -> prj_id p = ak_project_id k ->
                  prj_deleted_at p <> None
  end.
Proof.
  split; [|split; [|split]].
  - unfold ApiKeysService.getByProject. rewrite order_desc_order_by.
    pose proof (order_desc_by_sorted ak_created_at
                  (filter (fun k => (ak_project_id k =? id)%string) (api_keys db))) as Hs.
    induction Hs as [|a l Hs IH Hhd]; cbn [map]; constructor; [exact IH|].
    destruct Hhd; cbn [map]; constructor. assumption.
  - unfold ApiKeysService.getByProject. apply Permutation_map.
    rewrite order_desc_order_by. apply order_by_Permutation.
  - intros v. apply getByProject_In.
  - unfold ApiKeysService.getById.
    destruct (flat_map _ _) as [|d rest] eqn:Ej.
    + split; [reflexivity|]. intros k p Hk Hid Hp Hpid Hdel.
      assert (In (mkKeyDetail (ApiKeysService.key_view k) (prj_id p) (prj_name p))
                 (@nil KeyDetail)) as Hin; [|destruct Hin].
      rewrite <- Ej. apply in_flat_map. exists k. split.
      * apply filter_In. split; [exact Hk|]. now apply String.eqb_eq.
      * apply in_map_iff. exists p. split; [reflexivity|].
        apply filter_In. split; [exact Hp|]. apply andb_true_iff.
        split; [now apply String.eqb_eq|]. unfold ApiKeysService.live. now rewrite Hdel.
    + assert (In d (d :: rest)) as Hin by (now left). rewrite <- Ej in Hin.
      apply in_flat_map in Hin as (k & Hk & Hin). apply filter_In in Hk as [Hk Hid].
      apply String.eqb_eq in Hid.
      apply in_map_iff in Hin as (p & <- & Hp). apply filter_In in Hp as [Hp Hq].
      apply andb_true_iff in Hq as [Hpid Hl]. apply String.eqb_eq in Hpid.
      unfold ApiKeysService.live in Hl.
      exists k, p. repeat split; auto. now destruct (prj_deleted_at p).
Qed.

(** ** Projects *)

Lemma project_delete_eq (id : string) (now : Z) (db db1 : Db) (b : bool) :
  ProjectsService.delete id now db = (Ok b, db1) ->
  b = true /\
  db1 = set_projects
          (sql_update (fun p => (prj_id p =? id)%string && ApiKeysService.live p)
             (fun p => mkProject (prj_id p) (prj_name p) (prj_org_id p)
                                 (prj_created_at p) now (Some now))) db /\
  filter (fun p => (prj_id p =? id)%string && ApiKeysService.live p) (projects db) <> [].
Proof.
  unfold ProjectsService.delete. cbv zeta.
  destruct (filter _ (projects db)); [discriminate|].
  intros H. inversion H. repeat split. discriminate.
Qed.

(** After a soft delete no row with the identifier is live. *)
Lemma project_delete_none_live (id : string) (now : Z) (db : Db) (p : Project) :
  In p (sql_update (fun p => (prj_id p =? id)%string && ApiKeysService.live p)
          (fun p => mkProject (prj_id p) (prj_name p) (prj_org_id p)
                              (prj_created_at p) now (Some now)) (projects db)) ->
  (prj_id p =? id)%string && ApiKeysService.live p = false.
Proof.
  intros H. unfold sql_update in H. apply in_map_iff in H as (p0 & <- & _).
  destruct ((prj_id p0 =? id)%string && ApiKeysService.live p0) eqn:E; [|exact E].
  cbn. apply andb_false_r.
Qed.

(** X22. [ProjectsService.delete] is a soft delete: it removes no row and
    changes no identifier, and writes no table but the projects; afterwards
    [getById] answers [null] for the project and [getAll] no longer lists
    it, a second [delete] fails with a plain not-found error and writes
    nothing, and every other project reads as before. *)
Theorem project_delete_soft (id : string) (now : Z) (db db1 : Db) (b : bool) :
  ProjectsService.delete id now db = (Ok b, db1) ->
  map prj_id (projects db1) = map prj_id (projects db) /\
  db1 = set_projects (fun _ => projects db1) db /\
  ProjectsService.getById id db1 = None /\
  (forall orgId p, In p (ProjectsService.getAll orgId db1) -> prj_id p <> id) /\
  (forall now', ProjectsService.delete id now' db1 = (Err (NotFoundError "Proyecto"), db1)) /\
  (forall id', id' <> id ->
     ProjectsService.getById id' db1 = ProjectsService.getById id' db).
Proof.
  intros H. apply project_delete_eq in H as (-> & -> & Hlive).
  set (hit := fun p => (prj_id p =? id)%string && ApiKeysService.live p).
  set (mark := fun p => mkProject (prj_id p) (prj_name p) (prj_org_id p)
                                  (prj_created_at p) now (Some now)).
  assert (filter hit (sql_update hit mark (projects db)) = []) as Hnone.
  { apply filter_none. intros p Hp. now apply (project_delete_none_live id now db). }
  split; [|split; [|split; [|split; [|split]]]].
  - cbn [projects set_projects]. now apply sql_update_keys.
  - reflexivity.
  - unfold ProjectsService.getById. cbn [projects set_projects]. fold hit.
    now rewrite Hnone.
  - intros orgId p Hp Hid. unfold ProjectsService.getAll, order_desc_by in Hp.
    apply order_by_In, filter_In in Hp as [Hp Hq]. cbn [projects set_projects] in Hp.
    apply andb_true_iff in Hq as [Hq _].
    pose proof (project_delete_none_live id now db p Hp) as Hf.
    rewrite Hid, String.eqb_refl, Hq in Hf. discriminate.
  - intros now'. unfold ProjectsService.delete. cbv zeta.
    cbn [projects set_projects]. fold hit. rewrite Hnone. f_equal.
    unfold set_projects. cbn [projects users organizations organization_memberships
      project_memberships api_keys accounts sessions]. f_equal.
    apply sql_update_none. now apply filter_empty_none.
  - intros id' Hne. unfold ProjectsService.getById. cbn [projects set_projects].
    f_equal. apply filter_sql_update_other; intros p Hp; unfold hit in Hp;
      apply andb_true_iff in Hp as [Hp _]; apply String.eqb_eq in Hp;
      apply andb_false_iff; left; apply String.eqb_neq; cbn [prj_id mark]; congruence.
Qed.

Lemma project_delete_soft_witness :
  exists db1,
    ProjectsService.delete "cprj1" 70 Sample.site = (Ok true, db1) /\
    map prj_id (projects db1) = ["cprj1"] /\
    ProjectsService.getById "cprj1" db1 = None /\
    ProjectsService.delete "cprj1" 71 db1 = (Err (NotFoundError "Proyecto"), db1).
Proof.
  destruct (ProjectsService.delete "cprj1" 70 Sample.site) as [[b|e] db1] eqn:E;
    [|exfalso; vm_compute in E; discriminate].
  assert (b = true) as -> by (vm_compute in E; now inversion E).
  exists db1. split; [reflexivity|].
  destruct (project_delete_soft _ _ _ _ _ E) as (H1 & _ & H3 & _ & H5 & _).
  split; [rewrite H1; reflexivity|]. split; [exact H3|apply H5].
Defined.

(** X23. Soft-deleting a project revokes its API keys without deleting
    them: the key rows stay in the store and [getByProject] lists them as
    before, but no credential of a key of that project verifies any more,
    [getById] answers no key for that project, and neither a new key nor a
    new member can be added to it; each of these failed calls writes
    nothing. *)
Theorem project_delete_revokes_keys (id : string) (now : Z) (db db1 : Db) (b : bool) :
  ProjectsService.delete id now db = (Ok b, db1) ->
  api_keys db1 = api_keys db /\
  ApiKeysService.getByProject id db1 = ApiKeysService.getByProject id db /\
  (forall publicKey secretKey now' k,
     hd_error (filter (fun x => (ak_public_key x =? publicKey)%string) (api_keys db))
       = Some k ->
     ak_project_id k = id ->
     ApiKeysService.verify publicKey secretKey now' db1 = (None, db1)) /\
  (forall keyId d, ApiKeysService.getById keyId db1 = Ok d -> kd_project_id d <> id) /\
  (forall note expiresAt pkBytes skBytes keyRnd now',
     exists e, ApiKeysService.create id note expiresAt pkBytes skBytes keyRnd now' db1
               = (Err e, db1)) /\
  (forall userId role omRnd now',
     exists e, ProjectMembershipsService.addMember id userId role omRnd now' db1
               = (Err e, db1)).
Proof.
  intros H. apply project_delete_eq in H as (-> & -> & Hlive).
  set (hit := fun p => (prj_id p =? id)%string && ApiKeysService.live p).
  set (mark := fun p => mkProject (prj_id p) (prj_name p) (prj_org_id p)
                                  (prj_created_at p) now (Some now)).
  assert (forall p, In p (sql_update hit mark (projects db)) -> hit p = false) as Hdead
      by (intros p Hp; now apply (project_delete_none_live id now db)).
  split; [reflexivity|]. split; [reflexivity|]. split; [|split; [|split]].
  - intros publicKey secretKey now' k Hk Hid. unfold ApiKeysService.verify.
    cbn [api_keys projects set_projects]. rewrite Hk, Hid.
    repeat match goal with
           | |- context [if ?c then _ else _] => destruct c; try reflexivity
           end.
    destruct (hd_error (filter _ (sql_update hit mark (projects db)))) as [p|] eqn:Ep;
      [|reflexivity].
    apply hd_error_filter_In in Ep as [Hp Hpid].
    pose proof (Hdead p Hp) as Hf. unfold hit in Hf. rewrite Hpid in Hf. cbn [andb] in Hf.
    now rewrite Hf.
  - intros keyId d Hd Hid. unfold ApiKeysService.getById in Hd.
    cbn [api_keys projects set_projects] in Hd.
    destruct (flat_map _ _) as [|d0 rest] eqn:Ej; [discriminate|].
    inversion Hd; subst d0.
    assert (In d (d :: rest)) as Hin by (now left). rewrite <- Ej in Hin.
    apply in_flat_map in Hin as (k & _ & Hin).
    apply in_map_iff in Hin as (p & <- & Hp). apply filter_In in Hp as [Hp Hq].
    cbn [kd_project_id] in Hid. pose proof (Hdead p Hp) as Hf. unfold hit in Hf.
    rewrite Hid, String.eqb_refl in Hf. cbn [andb] in Hf.
    rewrite Hf, andb_false_r in Hq. discriminate.
  - intros note expiresAt pkBytes skBytes keyRnd now'. rewrite apikey_create_eq.
    destruct (ApiKeysService.parseExpiresAt expiresAt now'); [|eauto].
    cbv zeta. cbn [projects set_projects]. fold hit.
    rewrite (filter_none hit _ Hdead). eauto.
  - intros userId role omRnd now'. rewrite pm_addMember_eq. cbv zeta.
    destruct (falsy userId); [eauto|]. destruct (negb _); [eauto|].
    cbn [projects set_projects].
    rewrite (filter_none (ProjectMembershipsService.live_project id)
               (sql_update hit mark (projects db))); [eauto|].
    intros p Hp. apply Hdead in Hp. exact Hp.
Qed.

Lemma project_delete_revokes_keys_witness :
  fst (ApiKeysService.verify (generateApiKey "pk" Sample.pk1) (generateApiKey "sk" Sample.sk1)
         60 Sample.site) = Some (mkProjectData "cprj1" "corg1" "Site") /\
  exists db1,
    ProjectsService.delete "cprj1" 70 Sample.site = (Ok true, db1) /\
    List.length (ApiKeysService.getByProject "cprj1" db1) = 1%nat /\
    ApiKeysService.verify (generateApiKey "pk" Sample.pk1) (generateApiKey "sk" Sample.sk1)
      80 db1 = (None, db1).
Proof.
  split; [vm_compute; reflexivity|].
  destruct (ProjectsService.delete "cprj1" 70 Sample.site) as [[b|e] db1] eqn:E;
    [|exfalso; vm_compute in E; discriminate].
  assert (b = true) as -> by (vm_compute in E; now inversion E).
  exists db1. split; [reflexivity|].
  destruct (project_delete_revokes_keys _ _ _ _ _ E) as (_ & H2 & H3 & _).
  split; [rewrite H2; reflexivity|].
  eapply H3; [vm_compute; reflexivity|reflexivity].
Defined.

Lemma project_create_eq (name orgId prjRnd : string) (pkBytes skBytes : list Byte.byte)
  (keyRnd : string) (now : Z) (db db1 : Db) (r : CreatedProject) :
  ProjectsService.create name orgId prjRnd pkBytes skBytes keyRnd now db = (Ok r, db1) ->
  let project := mkProject (generateId "prj" prjRnd) (trim name) orgId now now None in
  let secretKey := generateApiKey "sk" skBytes in
  r = mkCreatedProject project (generateApiKey "pk" pkBytes) secretKey /\
  db1 = set_api_keys
          (fun t => t ++ [mkApiKey (generateId "key" keyRnd) (generateId "prj" prjRnd) now
                            None (generateApiKey "pk" pkBytes) (hashSecretKey secretKey)
                            (displaySecretKey secretKey) None None None])%list
          (set_projects (fun t => t ++ [project])%list db).
Proof.
  unfold ProjectsService.create, ProjectsService.create_body.
  destruct (falsy name || falsy (trim name)); [discriminate|].
  destruct (falsy orgId); [discriminate|].
  run_tx. destruct (filter _ (organizations db)); cbn; [discriminate|].
  intros H. inversion H. split; reflexivity.
Qed.

(** X24. A created project can be read back and its first key is in force.
    When the identifier drawn for the project and the public key drawn for
    its key are not in use, then after a successful [create] [getById]
    answers the project row that the call answered, [getAll] lists it, under
    its organization and without a filter, and [verify] with the pair of
    keys that the call answered answers the project at every clock: the
    first key never expires. *)
Theorem project_create_read_back (name orgId prjRnd : string)
  (pkBytes skBytes : list Byte.byte) (keyRnd : string) (now : Z) (db db1 : Db)
  (r : CreatedProject) :
  (forall p, In p (projects db) -> prj_id p <> generateId "prj" prjRnd) ->
  (forall k, In k (api_keys db) -> ak_public_key k <> generateApiKey "pk" pkBytes) ->
  ProjectsService.create name orgId prjRnd pkBytes skBytes keyRnd now db = (Ok r, db1) ->
  ProjectsService.getById (prj_id (cp_project r)) db1 = Some (cp_project r) /\
  In (cp_project r) (ProjectsService.getAll orgId db1) /\
  In (cp_project r) (ProjectsService.getAll "" db1) /\
  forall now',
    fst (ApiKeysService.verify (cp_publicKey r) (cp_secretKey r) now' db1) =
    Some (mkProjectData (prj_id (cp_project r)) orgId (trim name)).
Proof.
  intros Hprj Hpk H. apply project_create_eq in H as [-> ->]. cbv zeta.
  cbn [cp_project cp_publicKey cp_secretKey prj_id].
  set (project := mkProject (generateId "prj" prjRnd) (trim name) orgId now now None).
  assert (forall q : Project -> bool,
            (forall p, q p = true -> prj_id p = generateId "prj" prjRnd) ->
            q project = true ->
            filter q (projects db ++ [project]) = [project]) as Hone.
  { intros q Hq Hproject. rewrite filter_app, (filter_none q (projects db)).
    - cbn. now rewrite Hproject.
    - intros p Hp. destruct (q p) eqn:E; [|reflexivity].
      apply Hq in E. now elim (Hprj p Hp). }
  split; [|split; [|split]].
  - unfold ProjectsService.getById. cbn [projects set_projects set_api_keys].
    rewrite Hone; [reflexivity| |].
    + intros p Hp. apply andb_true_iff in Hp as [Hp _]. now apply String.eqb_eq.
    + cbn. now rewrite String.eqb_refl.
  - unfold ProjectsService.getAll, order_desc_by. apply order_by_In, filter_In.
    cbn [projects set_projects set_api_keys]. split; [apply in_or_app; right; now left|].
    cbn. destruct (falsy orgId); [reflexivity|apply String.eqb_refl].
  - unfold ProjectsService.getAll, order_desc_by. apply order_by_In, filter_In.
    cbn [projects set_projects set_api_keys]. split; [apply in_or_app; right; now left|].
    reflexivity.
  - intros now'.
    rewrite (verify_first_key _ _ now' _
               (mkApiKey (generateId "key" keyRnd) (generateId "prj" prjRnd) now None
                         (generateApiKey "pk" pkBytes)
                         (hashSecretKey (generateApiKey "sk" skBytes))
                         (displaySecretKey (generateApiKey "sk" skBytes)) None None None)
               [] project).
    + reflexivity.
    + apply generateApiKey_truthy.
    + apply generateApiKey_truthy.
    + cbn [api_keys projects set_projects set_api_keys].
      rewrite filter_app, filter_none.
      * cbn [filter ak_public_key app]. now rewrite String.eqb_refl.
      * intros k Hk. apply String.eqb_neq. now apply Hpk.
    + reflexivity.
    + cbn [api_keys projects set_projects set_api_keys ak_project_id].
      rewrite Hone; [reflexivity| |].
      * intros p Hp. now apply String.eqb_eq.
      * cbn. apply String.eqb_refl.
    + reflexivity.
Qed.

Lemma project_create_read_back_witness :
  exists r db1,
    ProjectsService.create " Site " "corg1" "cprj1" Sample.pk1 Sample.sk1 "k1" 20 Sample.acme
      = (Ok r, db1) /\
    ProjectsService.getById "cprj1" db1 = Some (cp_project r) /\
    fst (ApiKeysService.verify (cp_publicKey r) (cp_secretKey r) 1000000 db1)
      = Some (mkProjectData "cprj1" "corg1" "Site").
Proof.
  destruct (ProjectsService.create " Site " "corg1" "cprj1" Sample.pk1 Sample.sk1 "k1" 20
              Sample.acme) as [[r|e] db1] eqn:E; [|exfalso; vm_compute in E; discriminate].
  exists r, db1. split; [reflexivity|].
  assert (prj_id (cp_project r) = "cprj1") as Hid by (vm_compute in E; now inversion E).
  destruct (project_create_read_back " Site " "corg1" "cprj1" Sample.pk1 Sample.sk1 "k1" 20
              Sample.acme db1 r) as (H1 & _ & _ & H4);
    [intros p Hp; destruct Hp | intros k Hk; destruct Hk | exact E |].
  rewrite Hid in H1. split; [exact H1|]. rewrite (H4 1000000), Hid. reflexivity.
Defined.

(** X25. [ProjectsService.update] renames live rows only: [getById]
    afterwards answers what the call answered, which is [null] exactly when
    no row with the id is live (a soft-deleted project cannot be renamed),
    and then nothing is written; the deletion marks, the identifiers and
    every other table are kept.  A blank name is rejected before any
    statement runs. *)
Theorem project_update_effect (id name : string) (now : Z) (db : Db) :
  match ProjectsService.update id name now db with
  | (Ok r, db1) =>
      falsy (trim name) = false /\
      ProjectsService.getById id db1 = r /\
      (forall row, r = Some row ->
         prj_id row = id /\ prj_name row = trim name /\ prj_updated_at row = now /\
         prj_deleted_at row = None) /\
      (r = None <-> ProjectsService.getById id db = None) /\
      (r = None -> db1 = db) /\
      map prj_id (projects db1) = map prj_id (projects db) /\
      map prj_deleted_at (projects db1) = map prj_deleted_at (projects db) /\
      db1 = set_projects (fun _ => projects db1) db
  | (Err e, db1) =>
      e = BusinessLogicError "El nombre es requerido" /\ db1 = db /\
      falsy name || falsy (trim name) = true
  end.
Proof.
  unfold ProjectsService.update. cbv zeta.
  destruct (falsy name || falsy (trim name)) eqn:Eb; [auto|].
  apply orb_false_iff in Eb as [_ Et].
  set (hit := fun p : Project => (prj_id p =? id)%string && ApiKeysService.live p).
  set (f := ProjectsService.rename (trim name) now).
  assert (ProjectsService.getById id (set_projects (sql_update hit f) db)
          = option_map f (ProjectsService.getById id db)) as Hget.
  { unfold ProjectsService.getById. cbn [projects set_projects]. fold hit.
    rewrite filter_sql_update by reflexivity. apply hd_error_map. }
  assert (map prj_id (sql_update hit f (projects db)) = map prj_id (projects db))
    as Hids by (apply sql_update_keys; reflexivity).
  assert (map prj_deleted_at (sql_update hit f (projects db))
          = map prj_deleted_at (projects db))
    as Hdel by (apply sql_update_keys; reflexivity).
  unfold sql_returning. fold hit f.
  unfold ProjectsService.getById in Hget |- *. fold hit in Hget |- *.
  destruct (filter hit (projects db)) as [|old rest] eqn:Ef; cbn [map].
  - assert (sql_update hit f (projects db) = projects db) as Hsame
        by (apply sql_update_none; now apply filter_empty_none).
    split; [exact Et|]. split; [exact Hget|]. split; [discriminate|].
    split; [tauto|]. split.
    { intros _. unfold set_projects. rewrite Hsame. now destruct db. }
    split; [exact Hids|]. split; [exact Hdel|]. reflexivity.
  - split; [exact Et|]. split; [exact Hget|]. split.
    { intros row H. inversion H; subst row. cbn.
      assert (In old (filter hit (projects db))) as Hin by (rewrite Ef; now left).
      apply filter_In in Hin as [_ Hin]. unfold hit in Hin.
      apply andb_true_iff in Hin as [Hid Hl]. apply String.eqb_eq in Hid.
      unfold ApiKeysService.live in Hl. repeat split; auto.
      now destruct (prj_deleted_at old). }
    split; [split; discriminate|]. split; [discriminate|].
    split; [exact Hids|]. split; [exact Hdel|]. reflexivity.
Qed.

(** ** Users *)

(** X26. A successful [UsersService.delete] removes the user row and exactly
    the linked accounts and sessions of that user; other users, accounts and
    sessions read as before and the membership tables are not written.  The
    user had no organization membership, so when project memberships refer
    to organization memberships of their user, no membership of any kind
    mentions the deleted user. *)
Theorem users_delete_effect (id : string) (db db1 : Db) (b : bool) :
  pm_refs db ->
  UsersService.delete id db = (Ok b, db1) ->
  UsersService.getById id db1 = None /\
  (forall id', id' <> id -> UsersService.getById id' db1 = UsersService.getById id' db) /\
  (forall a, In a (accounts db1) <-> In a (accounts db) /\ acc_user_id a <> id) /\
  (forall s, In s (sessions db1) <-> In s (sessions db) /\ ses_user_id s <> id) /\
  organization_memberships db1 = organization_memberships db /\
  project_memberships db1 = project_memberships db /\
  (forall m, In m (organization_memberships db1) -> om_user_id m <> id) /\
  (forall pm, In pm (project_memberships db1) -> pm_user_id pm <> id).
Proof.
  intros Hrefs. rewrite users_delete_eq. cbv zeta.
  destruct (filter (fun m => (om_user_id m =? id)%string) (organization_memberships db))
    as [|m0 ms] eqn:Em; [|discriminate]. cbn [List.length Nat.ltb Nat.leb].
  destruct (filter (fun u => (user_id u =? id)%string) (users db)) as [|u us] eqn:Eu;
    [discriminate|].
  intros H. inversion H; subst b db1. clear H.
  cbn [users accounts sessions organization_memberships project_memberships
       set_users set_sessions set_accounts].
  assert (forall m, In m (organization_memberships db) -> om_user_id m <> id) as Hom.
  { intros m Hm E. apply (filter_empty_none _ _ Em) in Hm.
    apply String.eqb_neq in Hm. contradiction. }
  split; [|split; [|split; [|split; [|split; [|split; [|split]]]]]].
  - unfold UsersService.getById. cbn [users set_users set_sessions set_accounts].
    now rewrite sql_delete_clears.
  - intros id' Hne. unfold UsersService.getById.
    cbn [users set_users set_sessions set_accounts]. f_equal.
    rewrite filter_sql_delete. apply sql_delete_none.
    intros x Hx. apply filter_In in Hx as [_ Hx]. apply String.eqb_eq in Hx.
    apply String.eqb_neq. congruence.
  - intros a. unfold sql_delete. rewrite filter_In, negb_true_iff, String.eqb_neq. tauto.
  - intros s. unfold sql_delete. rewrite filter_In, negb_true_iff, String.eqb_neq. tauto.
  - reflexivity.
  - reflexivity.
  - exact Hom.
  - intros pm Hpm E. destruct (Hrefs pm Hpm) as (om & Hin & _ & Hu).
    apply (Hom om Hin). congruence.
Qed.

Lemma users_delete_effect_witness :
  exists db1,
    UsersService.delete "usr_bo" Sample.site_owned = (Ok true, db1) /\
    UsersService.getById "usr_bo" db1 = None /\
    UsersService.getById "usr_ana" db1 = Some Sample.ana /\
    forall pm, In pm (project_memberships db1) -> pm_user_id pm <> "usr_bo".
Proof.
  destruct (UsersService.delete "usr_bo" Sample.site_owned) as [[b|e] db1] eqn:E;
    [|exfalso; vm_compute in E; discriminate].
  assert (b = true) as -> by (vm_compute in E; now inversion E).
  exists db1. split; [reflexivity|].
  assert (pm_refs Sample.site_owned) as Hrefs.
  { intros pm H. vm_compute in H. destruct H as [<-|[]].
    eexists. split; [vm_compute; left; reflexivity|]. split; reflexivity. }
  destruct (users_delete_effect _ _ _ _ Hrefs E) as (H1 & H2 & _ & _ & _ & _ & _ & H8).
  split; [exact H1|]. split; [|exact H8].
  rewrite H2 by discriminate. reflexivity.
Defined.

(** ** Listings *)

(** X27. The listings of the organization manager.  [getAll] answers the
    organization rows, all of them and nothing else, newest first.
    [getMembers] answers exactly the memberships of the organization, each
    joined with its user, newest first, when the organization has a row, and
    a plain not-found error (status 404) otherwise. *)
Theorem org_listings (orgId : string) (db : Db) :
  (forall o, In o (OrganizationsService.getAll db) <-> In o (organizations db)) /\
  List.length (OrganizationsService.getAll db) = List.length (organizations db) /\
  Sorted (fun a b => org_created_at b <= org_created_at a) (OrganizationsService.getAll db) /\
  match OrganizationsService.getMembers orgId db with
  | Ok rows =>
      (exists o, In o (organizations db) /\ org_id o = orgId) /\
      Sorted (fun a b => omr_created_at b <= omr_created_at a) rows /\
      (forall v, In v rows <->
         exists m u, In m (organization_memberships db) /\ om_org_id m = orgId /\
                     In u (users db) /\ user_id u = om_user_id m /\
                     v = mkOrgMemberRow (om_id m) (om_user_id m) (om_role m)
                           (om_created_at m) (om_updated_at m)
                           (user_name u) (user_email u) (user_image u))
  | Err e =>
      e = NotFoundError "Organización" /\ error_status e = 404 /\
      forall o, In o (organizations db) -> org_id o <> orgId
  end.
Proof.
  split; [|split; [|split]].
  - intros o. unfold OrganizationsService.getAll, order_desc_by. apply order_by_In.
  - unfold OrganizationsService.getAll, order_desc_by. apply order_by_length.
  - apply order_desc_by_sorted.
  - unfold OrganizationsService.getMembers, OrganizationsService.getById.
    destruct (filter (fun o => (org_id o =? orgId)%string) (organizations db))
      as [|o os] eqn:Eo; cbn [hd_error].
    + split; [reflexivity|]. split; [reflexivity|].
      intros o Ho E. apply (filter_empty_none _ _ Eo) in Ho.
      apply String.eqb_neq in Ho. contradiction.
    + split; [|split].
      * assert (In o (filter (fun o => (org_id o =? orgId)%string) (organizations db)))
          as Hin by (rewrite Eo; now left).
        apply filter_In in Hin as [Hin E]. apply String.eqb_eq in E. eauto.
      * apply order_desc_by_sorted.
      * intros v. unfold order_desc_by. rewrite order_by_In, in_flat_map. split.
        -- intros (m & Hm & Hv). apply filter_In in Hm as [Hm E].
           apply String.eqb_eq in E. apply in_map_iff in Hv as (u & <- & Hu).
           apply filter_In in Hu as [Hu Eu]. apply String.eqb_eq in Eu.
           exists m, u. auto.
        -- intros (m & u & Hm & E & Hu & Eu & ->). exists m. split.
           ++ apply filter_In. split; [exact Hm|]. now apply String.eqb_eq.
           ++ apply in_map_iff. exists u. split; [reflexivity|].
              apply filter_In. split; [exact Hu|]. now apply String.eqb_eq.
Qed.

(** X28. [ProjectsService.getAll] answers exactly the projects that are not
    soft-deleted, of the given organization when one is given and of every
    organization otherwise, newest first. *)
Theorem project_getAll_listing (orgId : string) (db : Db) :
  (forall p, In p (ProjectsService.getAll orgId db) <->
             In p (projects db) /\ prj_deleted_at p = None /\
             (orgId = "" \/ prj_org_id p = orgId)) /\
  Sorted (fun a b => prj_created_at b <= prj_created_at a)
         (ProjectsService.getAll orgId db).
Proof.
  split; [|apply order_desc_by_sorted].
  intros p. unfold ProjectsService.getAll, order_desc_by.
  rewrite order_by_In, filter_In, andb_true_iff. unfold ApiKeysService.live, falsy.
  destruct (String.eqb_spec orgId ""); destruct (prj_deleted_at p);
    rewrite ?String.eqb_eq; intuition congruence.
Qed.

(** ** Identifiers against the request validation *)

Lemma all_chars_app (class : ascii -> bool) (a b : string) :
  all_chars class (a ++ b) = all_chars class a && all_chars class b.
Proof.
  induction a as [|c a IH]; cbn; [reflexivity|]. now rewrite IH, andb_assoc.
Qed.

Lemma alnum_plus_underscore (a b : string) : alnum_plus (a ++ "_" ++ b) = false.
Proof.
  unfold alnum_plus. rewrite all_chars_app. cbn.
  now rewrite andb_false_r, andb_false_r.
Qed.

Lemma letters_then_rest_app (prefix rnd : string) :
  all_chars is_lower prefix = true ->
  letters_then_rest (prefix ++ "_" ++ rnd) = alnum_plus rnd.
Proof.
  induction prefix as [|c p IH]; cbn; [reflexivity|].
  intros H. apply andb_true_iff in H as [Hc Hp]. rewrite Hc. now apply IH.
Qed.

(** X29. The identifiers that [generateId] builds as [prefix_...] (for
    memberships, API keys and users: every lowercase prefix other than
    [org] and [prj]) pass [idSchema], the validation of every route
    parameter that names an entity, exactly when the part after the
    underscore is non-empty and made of lowercase letters and digits only;
    a single uppercase letter in it, which the generator's alphabet
    contains, makes the routes reject the identifier. *)
Theorem idSchema_generateId (prefix rnd : string) :
  prefix <> "" -> all_chars is_lower prefix = true ->
  prefix <> "org" -> prefix <> "prj" ->
  idSchema (generateId prefix rnd) = alnum_plus rnd /\
  (forall a c b, rnd = a ++ String c b -> is_lower_or_digit c = false ->
     idSchema (generateId prefix rnd) = false).
Proof.
  intros Hne Hlow Horg Hprj.
  assert (idSchema (generateId prefix rnd) = alnum_plus rnd) as Hid.
  { unfold generateId.
    apply String.eqb_neq in Horg, Hprj. rewrite Horg, Hprj. cbn [orb].
    destruct prefix as [|c p]; [now elim Hne|].
    cbn [append idSchema]. cbn [all_chars] in Hlow.
    apply andb_true_iff in Hlow as [Hc Hp]. rewrite Hc. cbn [andb].
    change (p ++ String "_" rnd) with (p ++ "_" ++ rnd).
    rewrite (letters_then_rest_app p rnd Hp), alnum_plus_underscore.
    now rewrite andb_false_r, orb_false_r. }
  split; [exact Hid|].
  intros a c b -> Hc. rewrite Hid. unfold alnum_plus.
  rewrite all_chars_app. cbn [all_chars]. rewrite Hc.
  now rewrite andb_false_r, andb_false_r.
Qed.

Lemma idSchema_generateId_witness :
  idSchema (generateId "key" "lq3x9ab01xyz") = true /\
  idSchema (generateId "key" "lq3x9Ab01XyZ") = false /\
  idSchema (generateId "om" "m1") = true /\
  idSchema (generateId "prj" "cm84umiqf001bpp07fzmk5q26") = true.
Proof.
  split; [|split; [|split; [|reflexivity]]].
  - rewrite (proj1 (idSchema_generateId "key" "lq3x9ab01xyz"
                      ltac:(discriminate) eq_refl ltac:(discriminate) ltac:(discriminate))).
    reflexivity.
  - apply (proj2 (idSchema_generateId "key" "lq3x9Ab01XyZ"
                    ltac:(discriminate) eq_refl ltac:(discriminate) ltac:(discriminate))
             "lq3x9" "A"%char "b01XyZ"); reflexivity.
  - rewrite (proj1 (idSchema_generateId "om" "m1"
                      ltac:(discriminate) eq_refl ltac:(discriminate) ltac:(discriminate))).
    reflexivity.
Defined.
